(** * PackChain backend: device telemetry pipeline and ledger gateway

    A shallow embedding of [server/services/iot.js], [server/routes/iot.js],
    [server/services/blockchain.js], the ledger routes and the server
    startup, with the properties the design document states about them and
    further properties of the code. *)

From Stdlib Require Import String Ascii List ZArith Lia Bool PeanoNat Floats Uint63 DecimalString.
Import ListNotations.
Local Open Scope string_scope.
Local Open Scope list_scope.

Set Implicit Arguments.
Set Warnings "-register-all".

(* ===================================================================== *)
(** * JavaScript data *)
(* ===================================================================== *)

Module Js.

(** Values that [JSON.parse] can build, plus [undefined].  Numbers are
    IEEE-754 doubles, as in the language. *)
Inductive JsVal : Type :=
| JUndefined
| JNull
| JBool (b : bool)
| JNum (f : float)
| JStr (s : string)
| JArr (elems : list JsVal)
| JObj (props : list (string * JsVal)).

(** ToBoolean: [undefined], [null], [false], [0], [-0], [NaN] and the empty
    string are falsy, everything else is truthy. *)
Definition truthy (v : JsVal) : bool :=
  match v with
  | JUndefined | JNull => false
  | JBool b => b
  | JNum f => (PrimFloat.ltb f 0 || PrimFloat.ltb 0 f)%bool
  | JStr s => negb (String.eqb s "")
  | JArr _ | JObj _ => true
  end.

(** [a || b] on values. *)
Definition or_else (a b : JsVal) : JsVal := if truthy a then a else b.

Fixpoint assoc (k : string) (props : list (string * JsVal)) : JsVal :=
  match props with
  | [] => JUndefined
  | (k', v) :: rest => if String.eqb k k' then v else assoc k rest
  end.

(** Outcome of evaluating a piece of JavaScript: it returns, it throws, or
    it ends the process ([process.exit]). *)
Inductive Outcome (E A : Type) : Type :=
| Return (a : A)
| Throw (e : E)
| Exit (exit_code : nat).
Arguments Return {E A} a.
Arguments Throw {E A} e.
Arguments Exit {E A} exit_code.

(** Property read [v.k] for the keys the services read ([battery],
    [signal], [location], [status], [firmware]): none of them is on a
    built-in prototype, so primitives and arrays answer [undefined], objects
    answer their own property, and [null]/[undefined] raise a TypeError
    ([None]). *)
Definition get_prop (v : JsVal) (k : string) : option JsVal :=
  match v with
  | JUndefined | JNull => None
  | JObj props => Some (assoc k props)
  | _ => Some JUndefined
  end.

(** [s.split(sep)] for a one-character separator. *)
Fixpoint split (sep : ascii) (s : string) : list string :=
  match s with
  | EmptyString => [EmptyString]
  | String c rest =>
      if Ascii.eqb c sep then EmptyString :: split sep rest
      else match split sep rest with
           | [] => [String c EmptyString]
           | p :: ps => String c p :: ps
           end
  end.

(** The values [parseInt] produces: an integer or [NaN]. *)
Inductive IntOrNaN : Type := NaN | Int (z : Z).

Definition neg (n : IntOrNaN) : IntOrNaN :=
  match n with NaN => NaN | Int z => Int (- z) end.

(** ToIntegerOrInfinity on those values. *)
Definition to_integer (n : IntOrNaN) : Z :=
  match n with NaN => 0%Z | Int z => z end.

(** [arr.slice(start)]: a negative start counts from the end, and the
    start is clamped to the array. *)
Definition slice (A : Type) (arr : list A) (start : IntOrNaN) : list A :=
  let len := Z.of_nat (length arr) in
  let rel := to_integer start in
  let k := if (rel <? 0)%Z then Z.max (len + rel) 0 else Z.min rel len in
  skipn (Z.to_nat k) arr.

(** The last [n] elements of a list, in their order. *)
Definition lastn (A : Type) (n : nat) (l : list A) : list A :=
  skipn (length l - n) l.

(** ** [Map]: keys in insertion order

    A key is a string or [undefined] ([None]); [set] on a present key
    replaces the value where it stands, on a fresh key appends. *)
Definition Key := option string.

Definition key_eqb (a b : Key) : bool :=
  match a, b with
  | None, None => true
  | Some x, Some y => String.eqb x y
  | _, _ => false
  end.

Section MAP.
Variable V : Type.

Definition Map := list (Key * V).

Fixpoint get (k : Key) (m : Map) : option V :=
  match m with
  | [] => None
  | (k', v) :: rest => if key_eqb k k' then Some v else get k rest
  end.

Definition has (k : Key) (m : Map) : bool :=
  match get k m with Some _ => true | None => false end.

Fixpoint set (k : Key) (v : V) (m : Map) : Map :=
  match m with
  | [] => [(k, v)]
  | (k', v') :: rest =>
      if key_eqb k k' then (k', v) :: rest else (k', v') :: set k v rest
  end.

Definition values (m : Map) : list V := map snd m.
End MAP.

(** ** Effects

    A computation reads and writes a store of type [S] and either returns
    or throws.  What it wrote before throwing stays written. *)
Inductive JsError : Type :=
| TypeError (what : string)
| SyntaxError (what : string)
| ReferenceError (name : string)
| Rejected (what : string).

Definition M (S A : Type) : Type := S -> Outcome JsError A * S.

Definition ret {S A} (a : A) : M S A := fun s => (Return a, s).

Definition bind {S A B} (c : M S A) (k : A -> M S B) : M S B :=
  fun s => match c s with
           | (Return a, s') => k a s'
           | (Throw e, s') => (Throw e, s')
           | (Exit n, s') => (Exit n, s')
           end.

Definition throw {S A} (e : JsError) : M S A := fun s => (Throw e, s).

(** [process.exit(n)]: nothing runs after it, neither handlers nor
    [finally] blocks. *)
Definition process_exit {S A} (n : nat) : M S A := fun s => (Exit n, s).

Definition gets {S A} (f : S -> A) : M S A := fun s => (Return (f s), s).

Definition modify {S} (f : S -> S) : M S unit := fun s => (Return tt, f s).

(** The TypeError of a property read on [null] or [undefined]. *)
Definition cannot_read (v : JsVal) (k : string) : JsError :=
  TypeError ("Cannot read properties of "
             ++ match v with JNull => "null" | _ => "undefined" end
             ++ " (reading '" ++ k ++ "')").

(** [try { body } catch (e) { handler e }] *)
Definition try_catch {S A} (body : M S A) (handler : JsError -> M S A) : M S A :=
  fun s => match body s with
           | (Throw e, s') => handler e s'
           | r => r
           end.

(** [try { body } finally { cleanup }]: the cleanup runs when the body
    returns and when it throws; when the cleanup throws itself, its
    exception replaces the body's completion. *)
Definition try_finally {S A} (body : M S A) (cleanup : M S unit) : M S A :=
  fun s => match body s with
           | (Exit n, s') => (Exit n, s')
           | (r, s') => match cleanup s' with
                        | (Return _, s'') => (r, s'')
                        | (Throw e, s'') => (Throw e, s'')
                        | (Exit n, s'') => (Exit n, s'')
                        end
           end.

Definition when {S} (b : bool) (c : M S unit) : M S unit :=
  if b then c else ret tt.

Declare Scope js_scope.
Delimit Scope js_scope with js.
Notation "x <- c ;; k" := (bind c (fun x => k))
  (at level 100, c at next level, right associativity) : js_scope.
Notation "c ;;; k" := (bind c (fun _ => k))
  (at level 100, right associativity) : js_scope.

End Js.

(* ===================================================================== *)
(** * The IoT service ([services/iot.js]) *)
(* ===================================================================== *)

Module IoT.
Import Js.
Local Open Scope js_scope.

(** What the service takes from the JavaScript runtime. *)
Class Runtime : Type := {
  (** [JSON.parse]: [None] when it throws a SyntaxError. *)
  JSON_parse : string -> option JsVal;
  (** [parseInt(text, 10)] *)
  parseInt : string -> IntOrNaN;
  (** [new Date().toISOString()] at the n-th reading of the clock. *)
  Date_toISOString : nat -> string;
  (** The operators [+] and [/] on arbitrary values, and [Math.round]. *)
  js_add : JsVal -> JsVal -> JsVal;
  js_div : JsVal -> JsVal -> JsVal;
  Math_round : JsVal -> JsVal
}.

(** A device object of [iotDevices].  A property that was never assigned
    reads [undefined]. *)
Record Device : Type := mkDevice {
  id : Key;
  status : JsVal;
  lastSeen : string;
  batteryLevel : JsVal;
  signalStrength : JsVal;
  location : JsVal;
  firmware : JsVal
}.

Definition set_lastSeen (v : string) (d : Device) : Device :=
  mkDevice d.(id) d.(status) v d.(batteryLevel) d.(signalStrength) d.(location) d.(firmware).
Definition set_batteryLevel (v : JsVal) (d : Device) : Device :=
  mkDevice d.(id) d.(status) d.(lastSeen) v d.(signalStrength) d.(location) d.(firmware).
Definition set_signalStrength (v : JsVal) (d : Device) : Device :=
  mkDevice d.(id) d.(status) d.(lastSeen) d.(batteryLevel) v d.(location) d.(firmware).
Definition set_location (v : JsVal) (d : Device) : Device :=
  mkDevice d.(id) d.(status) d.(lastSeen) d.(batteryLevel) d.(signalStrength) v d.(firmware).
Definition set_status (v : JsVal) (d : Device) : Device :=
  mkDevice d.(id) v d.(lastSeen) d.(batteryLevel) d.(signalStrength) d.(location) d.(firmware).
Definition set_firmware (v : JsVal) (d : Device) : Device :=
  mkDevice d.(id) d.(status) d.(lastSeen) d.(batteryLevel) d.(signalStrength) d.(location) v.

(** [{ value: data, timestamp: ... }] *)
Record Telemetry : Type := mkTelemetry {
  value : JsVal;
  timestamp : string
}.

(** The argument of an [emit].  The object literals [{ deviceId,
    ...telemetry }], [{ deviceId, ...status }] and [{ readerId, ...scanData }]
    are kept as their two ingredients. *)
Inductive EventData : Type :=
| TelemetryEvent (deviceId : Key) (t : Telemetry)
| StatusEvent (deviceId : Key) (st : JsVal)
| ScanEvent (readerId : Key) (scanData : JsVal).

(** A listener closure of the event stream route: [(data) =>
    sendEvent(kind, data)] writing to the response of one observer. *)
Record Listener : Type := mkListener {
  observer : nat;
  kind : string
}.

Definition listener_eqb (a b : Listener) : bool :=
  (Nat.eqb a.(observer) b.(observer) && String.eqb a.(kind) b.(kind))%bool.

(** The broker client: whether its connection is up, and the calls made to
    its [publish] (topic, and the envelope [{ command, ...payload }] kept as
    its two ingredients). *)
Record Client : Type := mkClient {
  connected : bool;
  publish_calls : list (string * (JsVal * JsVal))
}.

Inductive LogLine : Type :=
| Log (text : string)
| Warn (text : string)
| Error (text : string).

(** The module's store. *)
Record State : Type := mkState {
  iotDevices : Map Device;
  sensorData : Map (list Telemetry);
  iotEvents : list (string * Listener);    (* listeners by event name, in registration order *)
  mqttClient : option Client;
  clock : nat;                              (* clock readings so far *)
  console : list LogLine;                   (* first argument of each console call *)
  wire : list (nat * string * EventData);   (* frames written to the observers *)
  next_observer : nat;                      (* identity of the next request object *)
  open_streams : list nat                   (* observers whose connection is open *)
}.

Definition initial : State :=
  mkState [] [] [] None 0 [] [] 0 [].

Definition with_iotDevices (f : Map Device -> Map Device) (s : State) : State :=
  mkState (f s.(iotDevices)) s.(sensorData) s.(iotEvents) s.(mqttClient) s.(clock)
          s.(console) s.(wire) s.(next_observer) s.(open_streams).
Definition with_sensorData (f : Map (list Telemetry) -> Map (list Telemetry)) (s : State) : State :=
  mkState s.(iotDevices) (f s.(sensorData)) s.(iotEvents) s.(mqttClient) s.(clock)
          s.(console) s.(wire) s.(next_observer) s.(open_streams).
Definition with_iotEvents (f : list (string * Listener) -> list (string * Listener)) (s : State) : State :=
  mkState s.(iotDevices) s.(sensorData) (f s.(iotEvents)) s.(mqttClient) s.(clock)
          s.(console) s.(wire) s.(next_observer) s.(open_streams).
Definition with_mqttClient (f : option Client -> option Client) (s : State) : State :=
  mkState s.(iotDevices) s.(sensorData) s.(iotEvents) (f s.(mqttClient)) s.(clock)
          s.(console) s.(wire) s.(next_observer) s.(open_streams).
Definition with_clock (f : nat -> nat) (s : State) : State :=
  mkState s.(iotDevices) s.(sensorData) s.(iotEvents) s.(mqttClient) (f s.(clock))
          s.(console) s.(wire) s.(next_observer) s.(open_streams).
Definition with_console (f : list LogLine -> list LogLine) (s : State) : State :=
  mkState s.(iotDevices) s.(sensorData) s.(iotEvents) s.(mqttClient) s.(clock)
          (f s.(console)) s.(wire) s.(next_observer) s.(open_streams).
Definition with_wire (f : list (nat * string * EventData) -> list (nat * string * EventData))
    (s : State) : State :=
  mkState s.(iotDevices) s.(sensorData) s.(iotEvents) s.(mqttClient) s.(clock)
          s.(console) (f s.(wire)) s.(next_observer) s.(open_streams).
Definition with_next_observer (f : nat -> nat) (s : State) : State :=
  mkState s.(iotDevices) s.(sensorData) s.(iotEvents) s.(mqttClient) s.(clock)
          s.(console) s.(wire) (f s.(next_observer)) s.(open_streams).
Definition with_open_streams (f : list nat -> list nat) (s : State) : State :=
  mkState s.(iotDevices) s.(sensorData) s.(iotEvents) s.(mqttClient) s.(clock)
          s.(console) s.(wire) s.(next_observer) (f s.(open_streams)).

Section SERVICE.
Context {RT : Runtime}.

Definition console_log (text : string) : M State unit :=
  modify (with_console (fun c => c ++ [Log text])).
Definition console_warn (text : string) : M State unit :=
  modify (with_console (fun c => c ++ [Warn text])).
Definition console_error (text : string) : M State unit :=
  modify (with_console (fun c => c ++ [Error text])).

(** [new Date().toISOString()] *)
Definition now : M State string :=
  fun s => (Return (Date_toISOString s.(clock)), with_clock S s).

(** [v.k], throwing on [null] and [undefined]. *)
Definition read (v : JsVal) (k : string) : M State JsVal :=
  match get_prop v k with
  | Some x => ret x
  | None => throw (cannot_read v k)
  end.

(** Assignment to a property of the object held by [iotDevices] under
    [deviceId] (the [device] of the source is that same object). *)
Definition assign_device (deviceId : Key) (f : Device -> Device) : M State unit :=
  modify (with_iotDevices (fun m =>
    match get deviceId m with
    | Some d => set deviceId (f d) m
    | None => m
    end)).

(** [iotEvents.emit(name, data)]: every listener registered under [name]
    is called in registration order; each writes one frame to its observer. *)
Definition deliver (name : string) (data : EventData)
    (ls : list (string * Listener)) : list (nat * string * EventData) :=
  map (fun l => ((snd l).(observer), (snd l).(kind), data))
      (filter (fun l => String.eqb (fst l) name) ls).

Definition emit (name : string) (data : EventData) : M State unit :=
  modify (fun s => with_wire (fun w => w ++ deliver name data s.(iotEvents)) s).

Definition updateDevice (deviceId : Key) (message : JsVal) : M State unit :=
  known <- gets (fun s => has deviceId s.(iotDevices)) ;;
  when (negb known)
    (t <- now ;;
     modify (with_iotDevices (set deviceId
       (mkDevice deviceId (JStr "online") t JUndefined JUndefined JUndefined JUndefined)))) ;;;
  t <- now ;;
  assign_device deviceId (set_lastSeen t) ;;;
  battery <- read message "battery" ;;
  when (truthy battery) (assign_device deviceId (set_batteryLevel battery)) ;;;
  signal <- read message "signal" ;;
  when (truthy signal) (assign_device deviceId (set_signalStrength signal)) ;;;
  loc <- read message "location" ;;
  when (truthy loc) (assign_device deviceId (set_location loc)).

Definition storeSensorData (deviceId : Key) (data : JsVal) : M State unit :=
  known <- gets (fun s => has deviceId s.(sensorData)) ;;
  when (negb known) (modify (with_sensorData (set deviceId []))) ;;;
  t <- now ;;
  let telemetry := mkTelemetry data t in
  (* deviceHistory.push(telemetry); if (deviceHistory.length > 200) deviceHistory.shift(); *)
  modify (with_sensorData (fun m =>
    match get deviceId m with
    | Some deviceHistory =>
        let pushed := deviceHistory ++ [telemetry] in
        set deviceId (if Nat.ltb 200 (length pushed) then tl pushed else pushed) m
    | None => m
    end)) ;;;
  emit "telemetry" (TelemetryEvent deviceId telemetry).

Definition updateDeviceStatus (deviceId : Key) (st : JsVal) : M State unit :=
  device <- gets (fun s => get deviceId s.(iotDevices)) ;;
  match device with
  | Some _ =>
      s <- read st "status" ;;
      assign_device deviceId (set_status (or_else s (JStr "online"))) ;;;
      fw <- read st "firmware" ;;
      assign_device deviceId (fun d => set_firmware (or_else fw d.(firmware)) d)
  | None => ret tt
  end ;;;
  emit "status" (StatusEvent deviceId st).

Definition handleNFCScan (readerId : Key) (scanData : JsVal) : M State unit :=
  console_log "NFC Scan from" ;;;
  emit "nfc_scan" (ScanEvent readerId scanData).

(** One [case] label of the [switch]: strict equality with the label. *)
Definition is_case (messageType : option string) (label : string) : bool :=
  match messageType with
  | Some s => String.eqb s label
  | None => false
  end.

(** The handler of the client's ['message'] event. *)
Definition on_message (topic payload : string) : M State unit :=
  try_catch
    (let topicParts := split "/" topic in
     let deviceId := nth_error topicParts 1 in
     let messageType := nth_error topicParts 2 in
     message <- match JSON_parse payload with
                | Some v => ret v
                | None => throw (SyntaxError "Unexpected token")
                end ;;
     console_log "MQTT message received on topic" ;;;
     updateDevice deviceId message ;;;
     (* switch (messageType) *)
     if is_case messageType "telemetry" then storeSensorData deviceId message
     else if is_case messageType "status" then updateDeviceStatus deviceId message
     else if is_case messageType "nfc" then handleNFCScan deviceId message
     else ret tt)
    (fun e => console_error "Could not parse incoming MQTT message:").

(** [initializeIoT]: the client object exists from [mqtt.connect] on; its
    connection comes up and goes down with the ['connect'] and ['close']
    events. *)
Definition initializeIoT : M State unit :=
  console_log "Initializing PackChain IoT Service..." ;;;
  modify (with_mqttClient (fun _ => Some (mkClient false []))).

Definition set_connected (b : bool) : M State unit :=
  modify (with_mqttClient (fun c =>
    match c with
    | Some c => Some (mkClient b c.(publish_calls))
    | None => None
    end)).

Definition on_connect : M State unit :=
  set_connected true ;;;
  console_log "Connected to MQTT Broker.".

Definition on_close : M State unit :=
  set_connected false ;;;
  console_warn "MQTT connection closed. Reconnecting...".

Definition sendCommandToDevice (deviceId : string) (command payload : JsVal) : M State unit :=
  let commandTopic := ("iot/" ++ deviceId ++ "/command")%string in
  let message := (command, payload) in
  client <- gets mqttClient ;;
  match client with
  | None => throw (TypeError "Cannot read properties of undefined (reading 'publish')")
  | Some c =>
      modify (with_mqttClient (fun _ =>
        Some (mkClient c.(connected) (c.(publish_calls) ++ [(commandTopic, message)]))))
  end.

Definition getDeviceStatus (deviceId : Key) (s : State) : option Device :=
  get deviceId s.(iotDevices).

Definition getAllDevices (s : State) : list Device :=
  values s.(iotDevices).

(** [limit] is [None] when the argument is left out. *)
Definition getSensorHistory (deviceId : Key) (limit : option IntOrNaN) (s : State)
    : list Telemetry :=
  let limit := match limit with Some l => l | None => Int 50 end in
  let deviceHistory := match get deviceId s.(sensorData) with
                       | Some h => h
                       | None => []
                       end in
  slice deviceHistory (neg limit).

Record Health : Type := mkHealth {
  totalDevices : nat;
  onlineDevices : nat;
  offlineDevices : nat;
  onlinePercentage : float;
  avgBatteryLevel : JsVal;
  health_timestamp : string
}.

(** [d.status === 'online'] *)
Definition is_online (d : Device) : bool :=
  match d.(status) with
  | JStr s => String.eqb s "online"
  | _ => false
  end.

(** [d.batteryLevel !== undefined] *)
Definition has_battery (d : Device) : bool :=
  match d.(batteryLevel) with
  | JUndefined => false
  | _ => true
  end.

Definition number (n : nat) : float := PrimFloat.of_uint63 (Uint63.of_Z (Z.of_nat n)).

Definition getNetworkHealth : M State Health :=
  devices <- gets getAllDevices ;;
  if Nat.eqb (length devices) 0 then
    t <- now ;;
    ret (mkHealth 0 0 0 100%float JNull t)
  else
    let online := length (filter is_online devices) in
    let totalBattery :=
      fold_left (fun sum d => js_add sum (or_else d.(batteryLevel) (JNum 0))) devices (JNum 0) in
    let devicesWithBattery := length (filter has_battery devices) in
    t <- now ;;
    ret (mkHealth (length devices)
                  online
                  (length devices - online)
                  (PrimFloat.mul (PrimFloat.div (number online) (number (length devices))) 100)
                  (if Nat.ltb 0 devicesWithBattery
                   then Math_round (js_div totalBattery (JNum (number devicesWithBattery)))
                   else JNull)
                  t).

(* --------------------------------------------------------------------- *)
(** ** The routes ([routes/iot.js]) *)

(** [iotEvents.on(name, l)] *)
Definition on (name : string) (l : Listener) : M State unit :=
  modify (with_iotEvents (fun ls => ls ++ [(name, l)])).

Definition registration_eqb (a b : string * Listener) : bool :=
  (String.eqb (fst a) (fst b) && listener_eqb (snd a) (snd b))%bool.

Fixpoint remove_first (x : string * Listener) (ls : list (string * Listener))
    : list (string * Listener) :=
  match ls with
  | [] => []
  | y :: rest => if registration_eqb x y then rest else y :: remove_first x rest
  end.

(** [iotEvents.removeListener(name, l)] removes one registration of [l],
    the most recent one. *)
Definition removeListener (name : string) (l : Listener) : M State unit :=
  modify (with_iotEvents (fun ls => rev (remove_first (name, l) (rev ls)))).

(** [iotEvents.listenerCount(name)] *)
Definition listenerCount (name : string) (s : State) : nat :=
  length (filter (fun r => String.eqb (fst r) name) s.(iotEvents)).

Fixpoint remove_nat (o : nat) (l : list nat) : list nat :=
  match l with
  | [] => []
  | x :: rest => if Nat.eqb o x then remove_nat o rest else x :: remove_nat o rest
  end.

(** [GET /events]: a new observer; its three closures are registered. *)
Definition get_events : M State nat :=
  o <- gets next_observer ;;
  modify (with_next_observer S) ;;;
  modify (with_open_streams (fun l => l ++ [o])) ;;;
  on "telemetry" (mkListener o "telemetry") ;;;
  on "status" (mkListener o "status") ;;;
  on "nfc_scan" (mkListener o "nfc_scan") ;;;
  ret o.

(** The handler of the request's ['close'] event. *)
Definition on_request_close (o : nat) : M State unit :=
  removeListener "telemetry" (mkListener o "telemetry") ;;;
  removeListener "status" (mkListener o "status") ;;;
  removeListener "nfc_scan" (mkListener o "nfc_scan") ;;;
  modify (with_open_streams (remove_nat o)).

Inductive Body : Type :=
| ValidationErrors
| DeviceBody (d : Device)
| DevicesBody (l : list Device)
| HistoryBody (l : list Telemetry)
| HealthBody (h : Health)
| CommandSent (command : JsVal) (deviceId : string)
| ErrorBody (text : string).

Record Response : Type := mkResponse {
  code : nat;
  body : Body
}.

(** [GET /devices/:deviceId] *)
Definition get_device (deviceId : string) : M State Response :=
  if String.eqb deviceId "" then ret (mkResponse 400 ValidationErrors)
  else
    try_catch
      (device <- gets (getDeviceStatus (Some deviceId)) ;;
       match device with
       | Some d => ret (mkResponse 200 (DeviceBody d))
       | None => ret (mkResponse 404 (ErrorBody ("Device with ID " ++ deviceId ++ " not found.")))
       end)
      (fun e => console_error "Error getting device" ;;;
                ret (mkResponse 500 (ErrorBody "Failed to fetch device status"))).

(** [GET /devices/:deviceId/history]; [limit] is the text of the query
    parameter, when there is one. *)
Definition get_history (deviceId : string) (limit : option string) : M State Response :=
  if String.eqb deviceId "" then ret (mkResponse 400 ValidationErrors)
  else
    try_catch
      (let limit := match limit with
                    | Some text => if String.eqb text "" then Int 100 else parseInt text
                    | None => Int 100
                    end in
       history <- gets (getSensorHistory (Some deviceId) (Some limit)) ;;
       ret (mkResponse 200 (HistoryBody history)))
      (fun e => console_error "Error getting history for device" ;;;
                ret (mkResponse 500 (ErrorBody "Failed to fetch sensor history"))).

(** [GET /network-health] *)
Definition get_network_health : M State Response :=
  try_catch
    (health <- getNetworkHealth ;;
     ret (mkResponse 200 (HealthBody health)))
    (fun e => console_error "Error getting IoT network health:" ;;;
              ret (mkResponse 500 (ErrorBody "Failed to fetch network health"))).

Definition isString (v : JsVal) : bool :=
  match v with JStr _ => true | _ => false end.

Definition isObject (v : JsVal) : bool :=
  match v with JObj _ => true | _ => false end.

(** [POST /devices/:deviceId/command] *)
Definition post_command (deviceId : string) (command payload : JsVal) : M State Response :=
  if (String.eqb deviceId "" || negb (isString command) || negb (isObject payload))%bool
  then ret (mkResponse 400 ValidationErrors)
  else
    try_catch
      (sendCommandToDevice deviceId command payload ;;;
       ret (mkResponse 202 (CommandSent command deviceId)))
      (fun e => console_error "Error sending command to device" ;;;
                ret (mkResponse 500 (ErrorBody "Failed to send command"))).

(* --------------------------------------------------------------------- *)
(** ** The running service *)

(** What reaches the process from outside. *)
Inductive Input : Type :=
| Startup
| BrokerConnect
| BrokerClose
| Message (topic payload : string)
| OpenStream
| CloseStream (o : nat)
| Command (deviceId : string) (command payload : JsVal)
| HealthQuery.

Definition discard {A} (c : M State A) : M State unit := _ <- c ;; ret tt.

Definition handle (i : Input) : M State unit :=
  match i with
  | Startup => initializeIoT
  | BrokerConnect => on_connect
  | BrokerClose => on_close
  | Message topic payload => on_message topic payload
  | OpenStream => discard get_events
  | CloseStream o =>
      (* a close event only comes from a connection that is open *)
      opened <- gets (fun s => existsb (Nat.eqb o) s.(open_streams)) ;;
      when opened (on_request_close o)
  | Command deviceId command payload => discard (post_command deviceId command payload)
  | HealthQuery => discard get_network_health
  end.

Definition step (s : State) (i : Input) : State := snd (handle i s).

Definition run (inputs : list Input) (s : State) : State := fold_left step inputs s.

(* --------------------------------------------------------------------- *)
(** ** Vocabulary of the properties *)

(** The samples held for a device ([[]] when it has no entry). *)
Definition stored_samples (deviceId : Key) (s : State) : list Telemetry :=
  match get deviceId s.(sensorData) with
  | Some h => h
  | None => []
  end.

(** The message is a value whose properties can be read. *)
Definition readable (message : JsVal) : bool :=
  match message with JNull | JUndefined => false | _ => true end.

(** The three closures the event stream route registers for one observer. *)
Definition listeners_of (o : nat) : list (string * Listener) :=
  [ ("telemetry", mkListener o "telemetry");
    ("status", mkListener o "status");
    ("nfc_scan", mkListener o "nfc_scan") ].

(** The registrations on the bus that belong to observer [o]. *)
Definition registrations_of (o : nat) (s : State) : list (string * Listener) :=
  filter (fun r => Nat.eqb (snd r).(observer) o) s.(iotEvents).

(** The part of the store the event stream route works on. *)
Definition streaming (s : State) : list (string * Listener) * list nat * nat :=
  (s.(iotEvents), s.(open_streams), s.(next_observer)).

(** The store with its console output set aside. *)
Definition forget_console (s : State) : State := with_console (fun _ => []) s.

Definition topic_device (topic : string) : Key := nth_error (split "/" topic) 1.
Definition topic_kind (topic : string) : option string := nth_error (split "/" topic) 2.

(** The structured record an input carries for device [D] on a topic of
    kind [k], if it is such a message and its payload parses to a value
    whose properties can be read. *)
Definition record_of (D : Key) (k : string) (i : Input) : list JsVal :=
  match i with
  | Message topic payload =>
      if (key_eqb (topic_device topic) D && is_case (topic_kind topic) k)%bool then
        match JSON_parse payload with
        | Some JNull | Some JUndefined | None => []
        | Some v => [v]
        end
      else []
  | _ => []
  end.

(** The telemetry messages for [D] among the inputs, in arrival order. *)
Definition telemetry_for (D : Key) (inputs : list Input) : list JsVal :=
  flat_map (record_of D "telemetry") inputs.

(** The ingestion path sees device [D] in an input: a broker message
    that names [D] in its topic and whose payload parses. *)
Definition seen (D : Key) (i : Input) : bool :=
  match i with
  | Message topic payload =>
      (key_eqb (topic_device topic) D &&
       match JSON_parse payload with Some _ => true | None => false end)%bool
  | _ => false
  end.

(** Two stores that differ in their console output at most. *)
Definition same_but_console (s1 s2 : State) : Prop :=
  forget_console s1 = forget_console s2.

(** The bus holds the closures of the open streams, each stream once, and
    stream identities are not reused. *)
Definition bus_consistent (s : State) : Prop :=
  iotEvents s = flat_map listeners_of (open_streams s) /\
  NoDup (open_streams s) /\
  (forall o, In o (open_streams s) -> o < next_observer s).

(** The broker client exists and its connection is down. *)
Definition Disconnected (s : State) : Prop :=
  exists c, s.(mqttClient) = Some c /\ c.(connected) = false.

(** The design document's contract of the command dispatcher: while the
    connection is down, a send fails at once and nothing is handed on for
    later delivery. *)
Definition fails_when_disconnected : Prop :=
  forall s deviceId command payload,
    Disconnected s ->
    (exists e, fst (sendCommandToDevice deviceId command payload s) = Throw e) /\
    mqttClient (snd (sendCommandToDevice deviceId command payload s)) = mqttClient s.

(** The registry has no record of [D], or one whose status is ['online']. *)
Definition status_online (D : Key) (s : State) : Prop :=
  forall d, get D s.(iotDevices) = Some d -> d.(status) = JStr "online".

(** What the two maps hold for a device. *)
Definition entries (D : Key) (s : State) : option Device * option (list Telemetry) :=
  (get D s.(iotDevices), get D s.(sensorData)).

End SERVICE.
End IoT.

(* ===================================================================== *)
(** * The ledger gateway ([services/blockchain.js]) *)
(* ===================================================================== *)

Module Ledger.
Import Js.
Local Open Scope js_scope.

(** Configuration constants of the module. *)
Definition channelName : string := "mychannel".
Definition chaincodeName : string := "basic".
Definition mspId : string := "Org1MSP".
Definition org1UserId : string := "appUser".

(** An X.509 identity as the wallet stores it. *)
Record Identity : Type := mkIdentity {
  certificate : string;
  privateKey : string;
  identity_mspId : string;
  identity_type : string
}.

Record Enrollment : Type := mkEnrollment {
  enrollment_certificate : string;
  enrollment_key : string
}.

(** Reply of the network to an invocation. *)
Inductive Reply : Type :=
| Payload (result : string)
| BusinessRejection (detail : string)
| TransportFailure (detail : string).

(** The connection profile, as far as the module reads it: the URL of the
    organisation's certificate authority, when the profile names one. *)
Record Profile : Type := mkProfile {
  ca_url : option string
}.

(** What the module finds outside the process. *)
Record World : Type := mkWorld {
  (** [JSON.parse(fs.readFileSync(connectionProfilePath))]; [None] when
      the file is missing or is not JSON. *)
  connection_profile : option Profile;
  (** [Wallets.newFileSystemWallet] succeeds. *)
  wallet_opens : bool;
  (** [ca.enroll({ enrollmentID, enrollmentSecret })] *)
  ca_enroll : string -> string -> option Enrollment;
  (** [ca.register({ enrollmentID, ... }, registrar)]: the secret. *)
  ca_register : string -> option string;
  (** [gateway.connect] reaches the network. *)
  connect_ok : bool;
  (** [gateway.getNetwork(channelName)] resolves the channel. *)
  network_ok : bool;
  (** [contract.submitTransaction] / [contract.evaluateTransaction] *)
  submit_reply : string -> list string -> Reply;
  evaluate_reply : string -> list string -> Reply
}.

(** Calls that leave the process, in the order they were made. *)
Inductive Call : Type :=
| CaEnroll (enrollmentID : string)
| CaRegister (enrollmentID : string)
| WalletPut (name : string)
| GatewayConnect (gateway : nat)
| GatewayGetNetwork (gateway : nat)
| Submit (gateway : nat) (functionName : string) (args : list string)
| Evaluate (gateway : nat) (functionName : string) (args : list string)
| GatewayDisconnect (gateway : nat).

Record State : Type := mkState {
  wallet : list (string * Identity);   (* the credential store *)
  next_gateway : nat;                  (* identity of the next [new Gateway()] *)
  sessions : list nat;                 (* gateways connected and not yet disconnected *)
  gateway_var : option nat;            (* the [let gateway] of the running call *)
  calls : list Call;
  console : list string                (* first argument of each console call *)
}.

Definition initial (w : list (string * Identity)) : State :=
  mkState w 0 [] None [] [].

Definition with_wallet (f : list (string * Identity) -> list (string * Identity)) (s : State) :=
  mkState (f s.(wallet)) s.(next_gateway) s.(sessions) s.(gateway_var) s.(calls) s.(console).
Definition with_next_gateway (f : nat -> nat) (s : State) :=
  mkState s.(wallet) (f s.(next_gateway)) s.(sessions) s.(gateway_var) s.(calls) s.(console).
Definition with_sessions (f : list nat -> list nat) (s : State) :=
  mkState s.(wallet) s.(next_gateway) (f s.(sessions)) s.(gateway_var) s.(calls) s.(console).
Definition with_gateway_var (f : option nat -> option nat) (s : State) :=
  mkState s.(wallet) s.(next_gateway) s.(sessions) (f s.(gateway_var)) s.(calls) s.(console).
Definition with_calls (f : list Call -> list Call) (s : State) :=
  mkState s.(wallet) s.(next_gateway) s.(sessions) s.(gateway_var) (f s.(calls)) s.(console).
Definition with_console (f : list string -> list string) (s : State) :=
  mkState s.(wallet) s.(next_gateway) s.(sessions) s.(gateway_var) s.(calls) (f s.(console)).

Fixpoint wallet_get (name : string) (w : list (string * Identity)) : option Identity :=
  match w with
  | [] => None
  | (n, i) :: rest => if String.eqb name n then Some i else wallet_get name rest
  end.

Definition wallet_put (name : string) (i : Identity) (w : list (string * Identity)) :=
  (name, i) :: filter (fun e => negb (String.eqb name (fst e))) w.

Fixpoint remove_session (g : nat) (l : list nat) : list nat :=
  match l with
  | [] => []
  | x :: rest => if Nat.eqb g x then remove_session g rest else x :: remove_session g rest
  end.

Section GATEWAY.
Variable world : World.

Definition console_log (text : string) : M State unit :=
  modify (with_console (fun c => c ++ [text])).

Definition call (c : Call) : M State unit :=
  modify (with_calls (fun l => l ++ [c])).

Definition read_profile : M State Profile :=
  match world.(connection_profile) with
  | Some ccp => ret ccp
  | None => throw (SyntaxError "connection profile")
  end.

Definition newFileSystemWallet : M State unit :=
  if world.(wallet_opens) then ret tt else throw (Rejected "wallet").

(** [new Gateway()] *)
Definition new_Gateway : M State nat :=
  g <- gets next_gateway ;;
  modify (with_next_gateway S) ;;;
  ret g.

(** [gateway.connect(ccp, { wallet, identity, discovery })]: the identity
    must be in the wallet and the network reachable; from then on the
    gateway holds a session until it is disconnected.  For a label the
    wallet does not hold the library rejects with [Identity not found in
    wallet: <label>]. *)
Definition gateway_connect (g : nat) (identity : string) : M State unit :=
  call (GatewayConnect g) ;;;
  i <- gets (fun s => wallet_get identity s.(wallet)) ;;
  match i with
  | None => throw (Rejected ("Identity not found in wallet: " ++ identity))
  | Some _ =>
      if world.(connect_ok)
      then modify (with_sessions (fun l => l ++ [g]))
      else throw (Rejected "connect")
  end.

Definition gateway_getNetwork (g : nat) : M State unit :=
  call (GatewayGetNetwork g) ;;;
  if world.(network_ok) then ret tt else throw (Rejected "getNetwork").

Definition gateway_disconnect (g : nat) : M State unit :=
  call (GatewayDisconnect g) ;;;
  modify (with_sessions (remove_session g)).

(** Returns the gateway; the contract is the one of [chaincodeName] on
    that gateway's network. *)
Definition connectToGateway : M State nat :=
  _ <- read_profile ;;
  newFileSystemWallet ;;;
  gateway <- new_Gateway ;;
  gateway_connect gateway org1UserId ;;;
  gateway_getNetwork gateway ;;;
  ret gateway.

Definition reply (r : Reply) : M State string :=
  match r with
  | Payload result => ret result
  | BusinessRejection detail => throw (Rejected detail)
  | TransportFailure detail => throw (Rejected detail)
  end.

(** [args.join(', ')]: [args] is [None] when it is a value that is not an
    array and has no [join] of its own (a number, a boolean, a string, a
    plain object), for which the call raises this TypeError.  For
    [undefined] and [null] the read of [join] raises a TypeError at the same
    place with the text [Cannot read properties of ... (reading 'join')];
    the module's callers in the routes pass on arrays only. *)
Definition join (args : option (list string)) : M State (list string) :=
  match args with
  | Some l => ret l
  | None => throw (TypeError "args.join is not a function")
  end.

Definition disconnect_if_set : M State unit :=
  gateway <- gets gateway_var ;;
  match gateway with
  | Some g => gateway_disconnect g
  | None => ret tt
  end.

Definition submitTransaction (functionName : string) (args : option (list string))
    : M State string :=
  modify (with_gateway_var (fun _ => None)) ;;;          (* let gateway; *)
  try_finally
    (try_catch
       (connection <- connectToGateway ;;
        modify (with_gateway_var (fun _ => Some connection)) ;;;
        l <- join args ;;
        console_log "--> Submitting transaction:" ;;;
        call (Submit connection functionName l) ;;;
        result <- reply (world.(submit_reply) functionName l) ;;
        console_log "*** Transaction committed successfully" ;;;
        ret result)
       (fun error =>
          console_log "Failed to submit transaction:" ;;;
          throw error))
    disconnect_if_set.

Definition evaluateTransaction (functionName : string) (args : option (list string))
    : M State string :=
  modify (with_gateway_var (fun _ => None)) ;;;          (* let gateway; *)
  try_finally
    (try_catch
       (connection <- connectToGateway ;;
        modify (with_gateway_var (fun _ => Some connection)) ;;;
        l <- join args ;;
        console_log "--> Evaluating query:" ;;;
        call (Evaluate connection functionName l) ;;;
        result <- reply (world.(evaluate_reply) functionName l) ;;
        console_log "*** Query successful, result:" ;;;
        ret result)
       (fun error =>
          console_log "Failed to evaluate transaction:" ;;;
          throw error))
    disconnect_if_set.

(** [new FabricCAServices(caInfo.url)], with the two lookups in the profile
    before it. *)
Definition new_FabricCAServices (ccp : Profile) : M State string :=
  match ccp.(ca_url) with
  | Some url => ret url
  | None => throw (TypeError "Cannot read properties of undefined (reading 'ca')")
  end.

Definition enroll (enrollmentID enrollmentSecret : string) : M State Enrollment :=
  call (CaEnroll enrollmentID) ;;;
  match world.(ca_enroll) enrollmentID enrollmentSecret with
  | Some e => ret e
  | None => throw (Rejected "enroll")
  end.

Definition register (enrollmentID : string) : M State string :=
  call (CaRegister enrollmentID) ;;;
  match world.(ca_register) enrollmentID with
  | Some secret => ret secret
  | None => throw (Rejected "register")
  end.

Definition put (name : string) (i : Identity) : M State unit :=
  call (WalletPut name) ;;;
  modify (with_wallet (wallet_put name i)).

Definition x509Identity (e : Enrollment) : Identity :=
  mkIdentity e.(enrollment_certificate) e.(enrollment_key) mspId "X.509".

Definition initializeBlockchain : M State unit :=
  console_log "Initializing Hyperledger Fabric Connection..." ;;;
  try_catch
    (ccp <- read_profile ;;
     _ <- new_FabricCAServices ccp ;;
     newFileSystemWallet ;;;
     adminIdentity <- gets (fun s => wallet_get "admin" s.(wallet)) ;;
     match adminIdentity with
     | Some _ => ret tt
     | None =>
         console_log "An identity for the admin user does not exist in the wallet" ;;;
         console_log "Running enrollment process for admin..." ;;;
         enrollment <- enroll "admin" "adminpw" ;;
         put "admin" (x509Identity enrollment) ;;;
         console_log "Successfully enrolled admin user and imported it into the wallet"
     end ;;;
     userIdentity <- gets (fun s => wallet_get org1UserId s.(wallet)) ;;
     match userIdentity with
     | Some _ => ret tt
     | None =>
         console_log "An identity for the user does not exist in the wallet" ;;;
         console_log "Running registration and enrollment process for user..." ;;;
         (* [await gateway.getIdentity('admin')]: no binding named [gateway]
            is in scope of this function or of the module *)
         _ <- throw (A := unit) (ReferenceError "gateway") ;;
         secret <- register org1UserId ;;
         enrollment <- enroll org1UserId secret ;;
         put org1UserId (x509Identity enrollment) ;;;
         console_log "Successfully registered and enrolled user and imported it into the wallet"
     end ;;;
     console_log "Hyperledger Fabric connection initialized successfully.")
    (fun error =>
       console_log "Failed to initialize Fabric connection:" ;;;
       process_exit 1).

(** The gateway reaches the network and the channel: everything
    [connectToGateway] needs. *)
Definition connects (s : State) : Prop :=
  connection_profile world <> None /\
  wallet_opens world = true /\
  wallet_get org1UserId (wallet s) <> None /\
  connect_ok world = true /\
  network_ok world = true.

End GATEWAY.
End Ledger.

(* ===================================================================== *)
(** * A runtime for worked examples *)
(* ===================================================================== *)

Module Demo.
Import Js.

Definition quote : string := String (ascii_of_nat 34) EmptyString.

(** [{"key":text}] *)
Definition object1 (key text : string) : string :=
  ("{" ++ quote ++ key ++ quote ++ ":" ++ text ++ "}")%string.

(** The payload texts of the examples and what [JSON.parse] makes of
    them.  A text outside the table is one [JSON.parse] rejects in the
    examples. *)
Definition payloads : list (string * JsVal) :=
  [ ("{}", JObj []);
    ("null", JNull);
    ("7", JNum 7);
    (object1 "battery" "0", JObj [("battery", JNum 0)]);
    (object1 "battery" "55", JObj [("battery", JNum 55)]);
    (object1 "signal" "80", JObj [("signal", JNum 80)]);
    (object1 "temp" "21", JObj [("temp", JNum 21)]);
    (object1 "status" (quote ++ "offline" ++ quote), JObj [("status", JStr "offline")]);
    (object1 "firmware" (quote ++ "1.2" ++ quote), JObj [("firmware", JStr "1.2")]) ].

Fixpoint lookup (text : string) (table : list (string * JsVal)) : option JsVal :=
  match table with
  | [] => None
  | (t, v) :: rest => if String.eqb text t then Some v else lookup text rest
  end.

(** ToNumber on the values that have a number without a text conversion.
    The payloads of the examples carry numbers only, so the sums and
    quotients of the health report are taken over numbers; a string, array
    or object operand, for which [+] concatenates, does not occur in them. *)
Definition to_number (v : JsVal) : float :=
  match v with
  | JNum f => f
  | JNull => 0
  | JBool b => if b then 1 else 0
  | _ => PrimFloat.nan
  end.

Definition of_Z (z : Z) : float :=
  match z with
  | Z0 => 0
  | Zpos _ => PrimFloat.of_uint63 (Uint63.of_Z z)
  | Zneg _ => PrimFloat.opp (PrimFloat.of_uint63 (Uint63.of_Z (- z)))
  end.

(** [Math.round]: the nearest integer, ties towards plus infinity. *)
Definition round (f : float) : float :=
  match Prim2SF f with
  | S754_finite s m e =>
      if (0 <=? e)%Z then f
      else
        let n := if s then Zneg m else Zpos m in
        let d := (2 ^ (- e))%Z in
        let r := ((2 * n + d) / (2 * d))%Z in
        if (r =? 0)%Z then (if s then PrimFloat.opp 0 else 0) else of_Z r
  | _ => f
  end.

(** [parseInt(text, 10)]: leading white space is skipped, then an optional
    sign and the digits up to the first other character are read. *)
Definition blank (c : ascii) : bool :=
  let n := nat_of_ascii c in
  ((9 <=? n) && (n <=? 13) || (n =? 32))%nat%bool.

Fixpoint trim_start (text : string) : string :=
  match text with
  | EmptyString => EmptyString
  | String c rest => if blank c then trim_start rest else text
  end.

Definition digit (c : ascii) : option Z :=
  let n := Z.of_nat (nat_of_ascii c) in
  if ((48 <=? n) && (n <=? 57))%Z%bool then Some (n - 48)%Z else None.

Fixpoint digits (text : string) (acc : option Z) : option Z :=
  match text with
  | EmptyString => acc
  | String c rest =>
      match digit c with
      | Some d => digits rest (Some (10 * match acc with Some a => a | None => 0 end + d)%Z)
      | None => acc
      end
  end.

Definition parseInt10 (text : string) : IntOrNaN :=
  match trim_start text with
  | String "-" rest => match digits rest None with Some n => Int (- n) | None => NaN end
  | String "+" rest => match digits rest None with Some n => Int n | None => NaN end
  | rest => match digits rest None with Some n => Int n | None => NaN end
  end.

#[export] Instance runtime : IoT.Runtime := {|
  IoT.JSON_parse := fun text => lookup text payloads;
  IoT.parseInt := parseInt10;
  IoT.Date_toISOString := fun n => ("T" ++ NilEmpty.string_of_uint (Nat.to_uint n))%string;
  IoT.js_add := fun a b => JNum (PrimFloat.add (to_number a) (to_number b));
  IoT.js_div := fun a b => JNum (PrimFloat.div (to_number a) (to_number b));
  IoT.Math_round := fun v => JNum (round (to_number v))
|}.

(** Inputs of the examples. *)
Definition offline : string := object1 "status" (quote ++ "offline" ++ quote).

Definition quiet_inputs : list IoT.Input :=
  [ IoT.Startup;
    IoT.Message "iot/dev1/telemetry" (object1 "temp" "21");
    IoT.Message "iot/dev2/status" offline;
    IoT.Message "iot/dev1/nfc" "{}" ].

Definition quiet_dev1 : IoT.Device :=
  IoT.mkDevice (Some "dev1") (JStr "online") "T5" JUndefined JUndefined JUndefined JUndefined.

(** The service was started and the broker connection went down. *)
Definition disconnected : IoT.State :=
  IoT.run [IoT.Startup; IoT.BrokerConnect; IoT.BrokerClose] IoT.initial.

(** Worlds of the ledger examples: a certificate authority and a network
    that accept everything ... *)
Definition enrolled (name : string) : Ledger.Identity :=
  Ledger.mkIdentity ("cert-" ++ name) ("key-" ++ name) Ledger.mspId "X.509".

Definition healthy : Ledger.World :=
  Ledger.mkWorld
    (Some (Ledger.mkProfile (Some "https://localhost:7054")))
    true
    (fun enrollmentID _ =>
       Some (Ledger.mkEnrollment ("cert-" ++ enrollmentID) ("key-" ++ enrollmentID)))
    (fun _ => Some "secret")
    true
    true
    (fun _ _ => Ledger.Payload "ok")
    (fun _ _ => Ledger.Payload "ok").

(** ... and the same where the channel cannot be resolved. *)
Definition channel_unreachable : Ledger.World :=
  Ledger.mkWorld
    (Ledger.connection_profile healthy)
    true
    (Ledger.ca_enroll healthy)
    (Ledger.ca_register healthy)
    true
    false
    (Ledger.submit_reply healthy)
    (Ledger.evaluate_reply healthy).

Definition both_enrolled : list (string * Ledger.Identity) :=
  [("admin", enrolled "admin"); ("appUser", enrolled "appUser")].

Definition admin_only : list (string * Ledger.Identity) :=
  [("admin", enrolled "admin")].

End Demo.

(* ===================================================================== *)
(** * The ledger routes ([routes/blockchain.js]) and the network status *)
(* ===================================================================== *)

Module LedgerApi.
Import Js Ledger.
Local Open Scope js_scope.

(** An endorsing peer as [getNetworkStatus] reports it. *)
Record Peer : Type := mkPeer {
  peer_id : string;
  peer_mspId : string
}.

(** The object [getNetworkStatus] resolves to. *)
Inductive NetworkStatus : Type :=
| StatusOk (gateway_mspId channel : string) (peers : list Peer) (timestamp : string)
| StatusFailed (message : string).

(** [error.message] and [error.toString()] *)
Definition message_of (e : JsError) : string :=
  match e with
  | TypeError what => what
  | SyntaxError what => what
  | ReferenceError name => (name ++ " is not defined")%string
  | Rejected what => what
  end.

Definition to_string (e : JsError) : string :=
  match e with
  | TypeError what => ("TypeError: " ++ what)%string
  | SyntaxError what => ("SyntaxError: " ++ what)%string
  | ReferenceError name => ("ReferenceError: " ++ name ++ " is not defined")%string
  | Rejected what => ("Error: " ++ what)%string
  end.

Inductive Body : Type :=
| ValidationFailed
| Failure (error message : string)
| StatusBody (status : NetworkStatus)
| InvokeOk (functionName result : string)
| QueryOk (functionName : string) (result : JsVal).

Record Response : Type := mkResponse {
  code : nat;
  body : Body
}.

Section API.
Variable world : World.
(** [channel.getEndorsers(mspId)] and the clock reading of the call. *)
Variable endorsers : list Peer.
Variable timestamp : string.
(** [JSON.parse]: [None] when it throws. *)
Variable JSON_parse : string -> option JsVal.

Definition getNetworkStatus : M State NetworkStatus :=
  modify (with_gateway_var (fun _ => None)) ;;;          (* let gateway; *)
  try_finally
    (try_catch
       (connection <- connectToGateway world ;;
        modify (with_gateway_var (fun _ => Some connection)) ;;;
        gateway_getNetwork world connection ;;;
        (* gateway.getIdentity().mspId *)
        identity <- gets (fun s => wallet_get org1UserId s.(wallet)) ;;
        match identity with
        | Some i => ret (StatusOk i.(identity_mspId) channelName endorsers timestamp)
        | None => throw (TypeError "Cannot read properties of undefined (reading 'mspId')")
        end)
       (fun error =>
          console_log "Failed to get network status:" ;;;
          ret (StatusFailed (message_of error))))
    disconnect_if_set.

(** [GET /status] *)
Definition get_status : M State Response :=
  try_catch
    (networkStatus <- getNetworkStatus ;;
     match networkStatus with
     | StatusFailed message =>
         ret (mkResponse 500 (Failure "Failed to get network status" message))
     | ok => ret (mkResponse 200 (StatusBody ok))
     end)
    (fun error =>
       console_log "Get blockchain status error:" ;;;
       ret (mkResponse 500 (Failure "Failed to fetch blockchain status" (to_string error)))).

(** [POST /invoke].  [functionName] is the body's value; [args] is [None]
    when the body's value is not an array, and the strings of the array
    otherwise. *)
Definition post_invoke (functionName : JsVal) (args : option (list string))
    : M State Response :=
  match functionName, args with
  | JStr name, Some _ =>
      try_catch
        (console_log "Invoking chaincode function:" ;;;
         result <- submitTransaction world name args ;;
         ret (mkResponse 200 (InvokeOk name result)))
        (fun error =>
           console_log "Error invoking chaincode function" ;;;
           ret (mkResponse 500 (Failure "Failed to invoke chaincode function" (to_string error))))
  | _, _ => ret (mkResponse 400 ValidationFailed)
  end.

(** [POST /query]: a result that is not JSON is returned as the text
    itself. *)
Definition post_query (functionName : JsVal) (args : option (list string))
    : M State Response :=
  match functionName, args with
  | JStr name, Some _ =>
      try_catch
        (console_log "Querying chaincode function:" ;;;
         result <- evaluateTransaction world name args ;;
         let parsedResult := match JSON_parse result with
                             | Some v => v
                             | None => JStr result
                             end in
         ret (mkResponse 200 (QueryOk name parsedResult)))
        (fun error =>
           console_log "Error querying chaincode function" ;;;
           ret (mkResponse 500 (Failure "Failed to query chaincode function" (to_string error))))
  | _, _ => ret (mkResponse 400 ValidationFailed)
  end.

(** A request to the ledger service, and a sequence of them served one
    after the other. *)
Inductive Request : Type :=
| SubmitRequest (functionName : string) (args : option (list string))
| EvaluateRequest (functionName : string) (args : option (list string))
| StatusRequest.

Definition serve (s : State) (r : Request) : State :=
  match r with
  | SubmitRequest functionName args => snd (submitTransaction world functionName args s)
  | EvaluateRequest functionName args => snd (evaluateTransaction world functionName args s)
  | StatusRequest => snd (getNetworkStatus s)
  end.

Definition serve_all (requests : list Request) (s : State) : State :=
  fold_left serve requests s.

End API.

(** The gateways that were connected are the ones numbered so far. *)
Definition sessions_numbered (s : State) : Prop :=
  forall g, In g s.(sessions) -> g < s.(next_gateway).

(** The invocations sent to the network among the calls. *)
Definition is_submit (c : Call) : bool :=
  match c with Submit _ _ _ => true | _ => false end.

(** Startup can get through: the profile names the certificate authority,
    the wallet opens, the application identity is stored, and the
    administrative identity is stored or can be enrolled. *)
Definition provisioned (world : World) (s : State) : Prop :=
  (exists url, connection_profile world = Some (mkProfile (Some url))) /\
  wallet_opens world = true /\
  wallet_get org1UserId s.(wallet) <> None /\
  (wallet_get "admin" s.(wallet) <> None \/ ca_enroll world "admin" "adminpw" <> None).

End LedgerApi.

(* ===================================================================== *)
(** * Server startup ([server.js]) *)
(* ===================================================================== *)

Module Server.
Import Js.
Local Open Scope js_scope.

Record State : Type := mkState {
  ledger : Ledger.State;
  iot : IoT.State;
  listening : bool;                 (* [server.listen] was called *)
  console : list string
}.

Definition initial (w : list (string * Ledger.Identity)) : State :=
  mkState (Ledger.initial w) IoT.initial false [].

(** Running a service's code on its part of the store. *)
Definition in_ledger {A} (c : M Ledger.State A) : M State A :=
  fun s => match c s.(ledger) with
           | (r, l) => (r, mkState l s.(iot) s.(listening) s.(console))
           end.

Definition in_iot {A} (c : M IoT.State A) : M State A :=
  fun s => match c s.(iot) with
           | (r, i) => (r, mkState s.(ledger) i s.(listening) s.(console))
           end.

Definition console_log (text : string) : M State unit :=
  modify (fun s => mkState s.(ledger) s.(iot) s.(listening) (s.(console) ++ [text])).

Section STARTUP.
Variable world : Ledger.World.
(** [mongoose.connect(MONGODB_URI)] succeeds. *)
Variable mongo_ok : bool.

Definition mongoose_connect : M State unit :=
  if mongo_ok then ret tt else throw (Rejected "MongoNetworkError").

Definition server_listen : M State unit :=
  modify (fun s => mkState s.(ledger) s.(iot) true s.(console)).

Definition startServer : M State unit :=
  try_catch
    (mongoose_connect ;;;
     console_log "Connected to MongoDB" ;;;
     in_ledger (Ledger.initializeBlockchain world) ;;;
     in_iot IoT.initializeIoT ;;;
     server_listen)
    (fun error =>
       console_log "Server startup error:" ;;;
       process_exit 1).

End STARTUP.
End Server.

(* ===================================================================== *)
(** * Further vocabulary for the IoT service *)
(* ===================================================================== *)

Module IoTMore.
Import Js IoT.

(** Every record of the registry sits under its own id, and no id has two
    records. *)
Definition registry_consistent (s : State) : Prop :=
  Forall (fun entry => (snd entry).(id) = fst entry) s.(iotDevices) /\
  NoDup (map fst s.(iotDevices)).

(** Every device that has samples has a record. *)
Definition store_within_registry (s : State) : Prop :=
  forall D, has D s.(sensorData) = true -> has D s.(iotDevices) = true.

(** From a store with [P], the computation leads to a store with [Q]. *)
Definition establishes (P : State -> Prop) {A} (c : M State A) (Q : State -> Prop) : Prop :=
  forall s, P s -> Q (snd (c s)).

(** The observer a frame was written to. *)
Definition frame_observer (f : nat * string * EventData) : nat := fst (fst f).

(** From [s0] to [s] the bus is the same and the frames of [s0] were only
    added to, each new frame going to an observer of the bus. *)
Definition wire_extended (s0 s : State) : Prop :=
  iotEvents s = iotEvents s0 /\
  exists new,
    wire s = wire s0 ++ new /\
    Forall (fun f => In (frame_observer f) (map (fun r => (snd r).(observer)) (iotEvents s0))) new.

(** The event a readable record of a known kind is published as. *)
Definition published (kind : string) (D : Key) (message : JsVal) (sample : Telemetry)
    : option (string * EventData) :=
  if String.eqb kind "telemetry" then Some ("telemetry", TelemetryEvent D sample)
  else if String.eqb kind "status" then Some ("status", StatusEvent D message)
  else if String.eqb kind "nfc" then Some ("nfc_scan", ScanEvent D message)
  else None.

(** The value a message supplies for a property ([undefined] when it
    supplies none). *)
Definition supplied (message : JsVal) (k : string) : JsVal :=
  match get_prop message k with
  | Some v => v
  | None => JUndefined
  end.

(** A character does not occur in a text. *)
Fixpoint free_of (c : ascii) (text : string) : bool :=
  match text with
  | EmptyString => true
  | String x rest => (negb (Ascii.eqb x c) && free_of c rest)%bool
  end.

(** The command requests among the inputs that pass the route's
    validation, as the topic and envelope handed to [publish]. *)
Definition accepted_command (i : Input) : list (string * (JsVal * JsVal)) :=
  match i with
  | Command deviceId command payload =>
      if (String.eqb deviceId "" || negb (isString command) || negb (isObject payload))%bool
      then []
      else [(("iot/" ++ deviceId ++ "/command")%string, (command, payload))]
  | _ => []
  end.

Definition is_startup (i : Input) : bool :=
  match i with Startup => true | _ => false end.

(** [v === text] *)
Definition is_string (text : string) (v : JsVal) : bool :=
  match v with
  | JStr s => String.eqb s text
  | _ => false
  end.

(** The device a broker message brings into the registry: the one its
    topic names, when the payload parses. *)
Definition named_device {RT : Runtime} (i : Input) : list Key :=
  match i with
  | Message topic payload =>
      match JSON_parse payload with
      | Some _ => [topic_device topic]
      | None => []
      end
  | _ => []
  end.

Definition add_device (ids : list Key) (D : Key) : list Key :=
  if existsb (key_eqb D) ids then ids else ids ++ [D].

(** The devices the inputs bring into the registry, each once, in the
    order of their first message. *)
Definition device_ids {RT : Runtime} (inputs : list Input) : list Key :=
  fold_left add_device (flat_map named_device inputs) [].

(** The status the latest readable status record for [D] among the inputs
    asks for: the one it supplies when that is truthy, ['online'] otherwise,
    and ['online'] when no such record arrived. *)
Definition reported_status {RT : Runtime} (D : Key) (inputs : list Input) : JsVal :=
  match rev (flat_map (record_of D "status") inputs) with
  | [] => JStr "online"
  | message :: _ => or_else (supplied message "status") (JStr "online")
  end.

(** The record of [D], when there is one, has status [v]; while there is
    none, [v] is the status a new record starts with. *)
Definition status_is (D : Key) (v : JsVal) (s : State) : Prop :=
  match get D s.(iotDevices) with
  | Some d => d.(status) = v
  | None => v = JStr "online"
  end.

End IoTMore.

(* ===================================================================== *)
(** * Facts about the JavaScript data *)
(* ===================================================================== *)

Module JsFacts.
Import Js.

Lemma key_eqb_spec (a b : Key) : reflect (a = b) (key_eqb a b).
Proof.
  destruct a as [x|], b as [y|]; simpl; try (constructor; congruence).
  destruct (String.eqb_spec x y); constructor; congruence.
Qed.

Lemma key_eqb_refl (a : Key) : key_eqb a a = true.
Proof. destruct (key_eqb_spec a a); congruence. Qed.

Lemma key_eqb_sym (a b : Key) : key_eqb a b = key_eqb b a.
Proof.
  destruct (key_eqb_spec a b), (key_eqb_spec b a); congruence.
Qed.

Section MAP.
Variable V : Type.
Implicit Types (m : Map V) (k : Key) (v : V).

Lemma get_set_same k v m : get k (set k v m) = Some v.
Proof.
  induction m as [|[k' v'] m IH]; simpl.
  - now rewrite key_eqb_refl.
  - destruct (key_eqb_spec k k') as [->|N]; simpl.
    + now rewrite key_eqb_refl.
    + destruct (key_eqb_spec k k'); [contradiction | exact IH].
Qed.

Lemma get_set_other k k' v m : k <> k' -> get k' (set k v m) = get k' m.
Proof.
  intros N. induction m as [|[k0 v0] m IH]; simpl.
  - destruct (key_eqb_spec k' k); [congruence | reflexivity].
  - destruct (key_eqb_spec k k0) as [->|N0]; simpl.
    + destruct (key_eqb_spec k' k0); [congruence | reflexivity].
    + now rewrite IH.
Qed.

Lemma set_set k v v' m : set k v' (set k v m) = set k v' m.
Proof.
  induction m as [|[k0 v0] m IH]; simpl.
  - now rewrite key_eqb_refl.
  - destruct (key_eqb_spec k k0) as [->|N0]; simpl.
    + now rewrite key_eqb_refl.
    + destruct (key_eqb_spec k k0); [contradiction | now rewrite IH].
Qed.

Lemma has_set_other k k' v m : k <> k' -> has k' (set k v m) = has k' m.
Proof. intros N. unfold has. now rewrite get_set_other. Qed.
End MAP.

Lemma slice_neg_lastn (A : Type) (l : list A) (n : nat) :
  0 < n -> slice l (neg (Int (Z.of_nat n))) = lastn n l.
Proof.
  intros Hn. unfold slice, lastn, neg, to_integer.
  destruct (Z.ltb_spec (- Z.of_nat n) 0); [|lia].
  f_equal. lia.
Qed.

Lemma lastn_all (A : Type) (n : nat) (l : list A) : length l <= n -> lastn n l = l.
Proof.
  intros H. unfold lastn. replace (length l - n) with 0 by lia. reflexivity.
Qed.

Lemma lastn_length (A : Type) (n : nat) (l : list A) :
  length (lastn n l) = Nat.min n (length l).
Proof. unfold lastn. rewrite length_skipn. lia. Qed.

Lemma lastn_snoc (A : Type) (n : nat) (l : list A) (x : A) :
  lastn (S n) (l ++ [x]) = lastn n l ++ [x].
Proof.
  unfold lastn. rewrite length_app. simpl.
  replace (length l + 1 - S n) with (length l - n) by lia.
  rewrite skipn_app.
  replace (length l - n - length l) with 0 by lia. reflexivity.
Qed.

Lemma lastn_lastn_snoc (A : Type) (n : nat) (l : list A) (x : A) :
  lastn (S n) (lastn (S n) l ++ [x]) = lastn (S n) (l ++ [x]).
Proof.
  rewrite !lastn_snoc. f_equal.
  unfold lastn. rewrite length_skipn, skipn_skipn. f_equal. lia.
Qed.

Lemma lastn_idem_snoc (A : Type) (n : nat) (l : list A) (x : A) :
  0 < n -> lastn n (lastn n l ++ [x]) = lastn n (l ++ [x]).
Proof. destruct n; [lia | intros _; apply lastn_lastn_snoc]. Qed.

Lemma map_lastn (A B : Type) (f : A -> B) (n : nat) (l : list A) :
  map f (lastn n l) = lastn n (map f l).
Proof. unfold lastn. now rewrite skipn_map, length_map. Qed.

Lemma lastn_tl (A : Type) (n : nat) (l : list A) :
  length l = S n -> tl l = lastn n l.
Proof.
  intros H. unfold lastn. rewrite H.
  replace (S n - n) with 1 by lia. now destruct l.
Qed.

(** ** A computation leaves an observation of the store alone *)

Section FRAME.
Variables (S X : Type) (f : S -> X).

Definition frames {A} (c : M S A) : Prop := forall s, f (snd (c s)) = f s.

Lemma frames_ret A (a : A) : frames (ret a).
Proof. intros s. reflexivity. Qed.

Lemma frames_throw A e : frames (throw (A := A) e).
Proof. intros s. reflexivity. Qed.

Lemma frames_gets A (g : S -> A) : frames (gets g).
Proof. intros s. reflexivity. Qed.

Lemma frames_modify (g : S -> S) : (forall s, f (g s) = f s) -> frames (modify g).
Proof. intros H s. apply H. Qed.

Lemma frames_bind A B (c : M S A) (k : A -> M S B) :
  frames c -> (forall a, frames (k a)) -> frames (bind c k).
Proof.
  intros Hc Hk s. unfold bind. specialize (Hc s).
  destruct (c s) as [[a|e|n] s']; simpl in *; try assumption.
  now rewrite Hk.
Qed.

Lemma frames_when (b : bool) (c : M S unit) : frames c -> frames (when b c).
Proof. intros H. destruct b; [exact H | apply frames_ret]. Qed.

Lemma frames_try_catch A (c : M S A) (h : JsError -> M S A) :
  frames c -> (forall e, frames (h e)) -> frames (try_catch c h).
Proof.
  intros Hc Hh s. unfold try_catch. specialize (Hc s).
  destruct (c s) as [[a|e|n] s']; simpl in *; try assumption.
  now rewrite Hh.
Qed.
End FRAME.

(** ** Two runs of a computation from related stores *)

Section RESPECTS.
Variables (S : Type) (R : S -> S -> Prop).

Definition respects {A} (c : M S A) : Prop :=
  forall s1 s2, R s1 s2 -> fst (c s1) = fst (c s2) /\ R (snd (c s1)) (snd (c s2)).

Lemma respects_ret A (a : A) : respects (ret a).
Proof. intros s1 s2 H. now split. Qed.

Lemma respects_throw A e : respects (throw (A := A) e).
Proof. intros s1 s2 H. now split. Qed.

Lemma respects_bind A B (c : M S A) (k : A -> M S B) :
  respects c -> (forall a, respects (k a)) -> respects (bind c k).
Proof.
  intros Hc Hk s1 s2 H. unfold bind. destruct (Hc s1 s2 H) as [E1 E2].
  destruct (c s1) as [o1 t1], (c s2) as [o2 t2]. simpl in *. subst o2.
  destruct o1; [now apply Hk | now split | now split].
Qed.

Lemma respects_when (b : bool) (c : M S unit) : respects c -> respects (when b c).
Proof. intros H. destruct b; [exact H | apply respects_ret]. Qed.

Lemma respects_try_catch A (c : M S A) (h : JsError -> M S A) :
  respects c -> (forall e, respects (h e)) -> respects (try_catch c h).
Proof.
  intros Hc Hh s1 s2 H. unfold try_catch. destruct (Hc s1 s2 H) as [E1 E2].
  destruct (c s1) as [o1 t1], (c s2) as [o2 t2]. simpl in *. subst o2.
  destruct o1; [now split | now apply Hh | now split].
Qed.
End RESPECTS.

(** ** A computation keeps a property of the store *)

Section PRESERVES.
Variables (S : Type) (P : S -> Prop).

Definition preserves {A} (c : M S A) : Prop := forall s, P s -> P (snd (c s)).

Lemma preserves_ret A (a : A) : preserves (ret a).
Proof. intros s H. exact H. Qed.

Lemma preserves_throw A e : preserves (throw (A := A) e).
Proof. intros s H. exact H. Qed.

Lemma preserves_gets A (g : S -> A) : preserves (gets g).
Proof. intros s H. exact H. Qed.

Lemma preserves_bind A B (c : M S A) (k : A -> M S B) :
  preserves c -> (forall a, preserves (k a)) -> preserves (bind c k).
Proof.
  intros Hc Hk s H. unfold bind. specialize (Hc s H).
  destruct (c s) as [[a|e|n] s']; simpl in *; try assumption.
  now apply Hk.
Qed.

Lemma preserves_when (b : bool) (c : M S unit) : preserves c -> preserves (when b c).
Proof. intros H. destruct b; [exact H | apply preserves_ret]. Qed.

Lemma preserves_try_catch A (c : M S A) (h : JsError -> M S A) :
  preserves c -> (forall e, preserves (h e)) -> preserves (try_catch c h).
Proof.
  intros Hc Hh s H. unfold try_catch. specialize (Hc s H).
  destruct (c s) as [[a|e|n] s']; simpl in *; try assumption.
  now apply Hh.
Qed.

Lemma frames_preserves X (f : S -> X) A (c : M S A) :
  (forall s s', f s' = f s -> P s -> P s') -> frames f c -> preserves c.
Proof. intros Hf Hc s H. apply (Hf s); [apply Hc | exact H]. Qed.
End PRESERVES.

End JsFacts.

(* ===================================================================== *)
(** * Properties of the IoT service *)
(* ===================================================================== *)

Module IoTFacts.
Import Js JsFacts IoT.

Ltac js_unfold :=
  unfold on_message, updateDevice, storeSensorData, updateDeviceStatus, handleNFCScan,
    emit, console_log, console_error, console_warn, assign_device, read, now,
    try_catch, try_finally, bind, ret, gets, modify, when, throw in *.

(** Discharges [frames f c] for straight-line code over the combinators. *)
Ltac frame_step :=
  lazymatch goal with
  | |- frames _ (bind _ _) => apply frames_bind; [| intros ?]
  | |- frames _ (ret _) => apply frames_ret
  | |- frames _ (throw _) => apply frames_throw
  | |- frames _ (gets _) => apply frames_gets
  | |- frames _ (when _ _) => apply frames_when
  | |- frames _ (try_catch _ _) => apply frames_try_catch; [| intros ?]
  | |- frames _ (modify _) => apply frames_modify; intros ?; reflexivity
  | |- frames _ (match ?x with _ => _ end) => destruct x
  | |- frames _ (let _ := _ in _) => cbv zeta
  | |- frames _ _ => solve [intros ?; reflexivity]
  end.

Ltac frame := repeat frame_step.

(** The same with a solver of one's own for the assignments. *)
Ltac frame_with leaf :=
  repeat lazymatch goal with
  | |- frames _ (bind _ _) => apply frames_bind; [| intros ?]
  | |- frames _ (ret _) => apply frames_ret
  | |- frames _ (throw _) => apply frames_throw
  | |- frames _ (gets _) => apply frames_gets
  | |- frames _ (when _ _) => apply frames_when
  | |- frames _ (try_catch _ _) => apply frames_try_catch; [| intros ?]
  | |- frames _ (match ?x with _ => _ end) => destruct x
  | |- frames _ (let _ := _ in _) => cbv zeta
  | |- frames _ _ => solve [leaf]
  end.

Section SERVICE.
Context {RT : Runtime}.

Lemma now_frames X (f : State -> X) :
  (forall g s, f (with_clock g s) = f s) -> frames f now.
Proof. intros H s. apply H. Qed.

Lemma read_frames X (f : State -> X) v k : frames f (read v k).
Proof. unfold read. frame. Qed.

Lemma emit_frames X (f : State -> X) name data :
  (forall g s, f (with_wire g s) = f s) -> frames f (emit name data).
Proof. intros H s. apply H. Qed.

Lemma console_log_frames X (f : State -> X) text :
  (forall g s, f (with_console g s) = f s) -> frames f (console_log text).
Proof. intros H s. apply H. Qed.

Lemma console_error_frames X (f : State -> X) text :
  (forall g s, f (with_console g s) = f s) -> frames f (console_error text).
Proof. intros H s. apply H. Qed.

Lemma assign_device_frames X (f : State -> X) k g :
  (forall h s, f (with_iotDevices h s) = f s) -> frames f (assign_device k g).
Proof. intros H s. apply H. Qed.

(** *** The registry code does not touch the telemetry store *)

Lemma updateDevice_sensorData k message : frames sensorData (updateDevice k message).
Proof.
  unfold updateDevice. frame;
    try (apply now_frames || apply read_frames || apply assign_device_frames); reflexivity.
Qed.

Lemma updateDeviceStatus_sensorData k st : frames sensorData (updateDeviceStatus k st).
Proof.
  unfold updateDeviceStatus. frame;
    try (apply read_frames || apply assign_device_frames || apply emit_frames); reflexivity.
Qed.

Lemma handleNFCScan_sensorData k d : frames sensorData (handleNFCScan k d).
Proof.
  unfold handleNFCScan. frame; try (apply console_log_frames || apply emit_frames); reflexivity.
Qed.

(** [updateDevice] throws exactly when the message is [null] or
    [undefined]. *)
Lemma updateDevice_outcome k message s :
  fst (updateDevice k message s) =
  if readable message then Return tt else Throw (cannot_read message "battery").
Proof.
  js_unfold. destruct (has k (iotDevices s)); destruct message; simpl;
    try reflexivity;
    repeat match goal with |- context [truthy ?x] => destruct (truthy x); simpl end;
    reflexivity.
Qed.

(** *** What [storeSensorData] does to the store *)

Lemma storeSensorData_returns k data s : fst (storeSensorData k data s) = Return tt.
Proof. js_unfold. destruct (has k (sensorData s)); reflexivity. Qed.

Lemma storeSensorData_same k data s :
  length (stored_samples k s) <= 200 ->
  stored_samples k (snd (storeSensorData k data s)) =
  lastn 200 (stored_samples k s ++ [mkTelemetry data (Date_toISOString (clock s))]).
Proof.
  intros Hlen. unfold stored_samples in *. js_unfold. unfold has.
  destruct (get k (sensorData s)) as [h|] eqn:E; simpl.
  - rewrite E, get_set_same.
    destruct (Nat.ltb_spec 200 (length (h ++ [mkTelemetry data (Date_toISOString (clock s))]))) as [L|L].
    + apply lastn_tl. rewrite length_app in *. simpl in *. lia.
    + symmetry. apply lastn_all. exact L.
  - rewrite !get_set_same. reflexivity.
Qed.

Lemma storeSensorData_other k D data s :
  k <> D -> stored_samples D (snd (storeSensorData k data s)) = stored_samples D s.
Proof.
  intros N. unfold stored_samples. js_unfold. unfold has.
  destruct (get k (sensorData s)) as [h|] eqn:E; simpl.
  - rewrite E. now rewrite get_set_other.
  - rewrite get_set_same. now rewrite !get_set_other.
Qed.

(** *** One input and the samples of one device *)

Lemma on_message_stored D topic payload s :
  length (stored_samples D s) <= 200 ->
  exists ts,
    map value ts = record_of D "telemetry" (Message topic payload) /\
    stored_samples D (snd (on_message topic payload s)) =
    lastn 200 (stored_samples D s ++ ts).
Proof.
  intros Hlen. unfold record_of, on_message, try_catch, topic_device, topic_kind.
  set (k := nth_error (split "/" topic) 1).
  set (ty := nth_error (split "/" topic) 2).
  assert (Hkeep : forall s', sensorData s' = sensorData s ->
            stored_samples D s' = lastn 200 (stored_samples D s ++ [])).
  { intros s' E. rewrite app_nil_r, lastn_all by exact Hlen.
    unfold stored_samples. now rewrite E. }
  unfold bind at 1.
  destruct (JSON_parse payload) as [message|]; simpl.
  2:{ exists []. split; [now destruct (key_eqb k D && is_case ty "telemetry")%bool|].
      apply Hkeep. reflexivity. }
  unfold bind at 1. simpl.
  unfold bind at 1.
  set (s1 := with_console _ s).
  pose proof (updateDevice_outcome k message s1) as Ho.
  pose proof (updateDevice_sensorData k message s1) as Hf.
  destruct (updateDevice k message s1) as [o s2]. simpl in Ho, Hf. subst o.
  destruct (readable message) eqn:R.
  2:{ exists []. split.
      - destruct message; try discriminate R;
          now destruct (key_eqb k D && is_case ty "telemetry")%bool.
      - apply Hkeep. simpl. exact Hf. }
  destruct (is_case ty "telemetry") eqn:T.
  - pose proof (storeSensorData_returns k message s2) as Hr.
    destruct (key_eqb_spec k D) as [->|N]; simpl.
    + exists [mkTelemetry message (Date_toISOString (clock s2))]. split.
      * destruct message; try discriminate R; reflexivity.
      * pose proof (@storeSensorData_same D message s2) as Hs.
        destruct (storeSensorData D message s2) as [o s3]. cbn [fst snd] in *. subst o. cbn [fst snd].
        rewrite Hs.
        -- unfold stored_samples. now rewrite Hf.
        -- unfold stored_samples in *. now rewrite Hf.
    + exists []. split; [reflexivity|].
      pose proof (@storeSensorData_other k D message s2 N) as Hs.
      destruct (storeSensorData k message s2) as [o s3]. cbn [fst snd] in *. subst o. cbn [fst snd].
      rewrite app_nil_r, lastn_all by exact Hlen. rewrite Hs.
      unfold stored_samples. now rewrite Hf.
  - exists []. split; [now rewrite andb_false_r|].
    destruct (is_case ty "status").
    + pose proof (updateDeviceStatus_sensorData k message s2) as Hs.
      destruct (updateDeviceStatus k message s2) as [[| |] s3]; cbn [fst snd] in *;
        apply Hkeep; simpl; congruence.
    + destruct (is_case ty "nfc").
      * pose proof (handleNFCScan_sensorData k message s2) as Hs.
        destruct (handleNFCScan k message s2) as [[| |] s3]; cbn [fst snd] in *;
          apply Hkeep; simpl; congruence.
      * apply Hkeep. simpl. congruence.
Qed.

(** Only broker messages reach the telemetry store. *)
Lemma handle_sensorData i :
  (forall topic payload, i <> Message topic payload) -> frames sensorData (handle i).
Proof.
  intros N. destruct i; try (now elim (N topic payload));
    unfold handle, discard, initializeIoT, on_connect, on_close, set_connected, get_events,
      on_request_close, post_command, sendCommandToDevice, get_network_health,
      getNetworkHealth, console_log, console_warn, console_error, on, removeListener;
    frame.
Qed.

Lemma step_stored D s i :
  length (stored_samples D s) <= 200 ->
  exists ts,
    map value ts = record_of D "telemetry" i /\
    stored_samples D (step s i) = lastn 200 (stored_samples D s ++ ts).
Proof.
  intros Hlen.
  destruct i; try (exists []; split; [reflexivity|];
    rewrite app_nil_r, lastn_all by exact Hlen;
    unfold stored_samples, step;
    rewrite handle_sensorData by (intros ? ?; discriminate); reflexivity).
  apply on_message_stored. exact Hlen.
Qed.

Lemma step_stored_bound D s i :
  length (stored_samples D s) <= 200 -> length (stored_samples D (step s i)) <= 200.
Proof.
  intros Hlen. destruct (step_stored D s i Hlen) as (ts & _ & ->).
  rewrite lastn_length. lia.
Qed.

Lemma run_app inputs inputs' s : run (inputs ++ inputs') s = run inputs' (run inputs s).
Proof. unfold run. apply fold_left_app. Qed.

Lemma run_stored D inputs :
  length (stored_samples D (run inputs initial)) <= 200 /\
  map value (stored_samples D (run inputs initial)) = lastn 200 (telemetry_for D inputs).
Proof.
  induction inputs as [|i inputs [IHlen IH]] using rev_ind.
  - split; [simpl; lia | reflexivity].
  - rewrite run_app. simpl. fold (step (run inputs initial) i).
    split; [now apply step_stored_bound|].
    destruct (step_stored D (run inputs initial) i IHlen) as (ts & Hts & ->).
    unfold telemetry_for. rewrite flat_map_app. simpl. rewrite app_nil_r.
    fold (telemetry_for D inputs). rewrite <- Hts.
    assert (Hl : length ts <= 1).
    { rewrite <- (length_map value), Hts. unfold record_of.
      destruct i; simpl; try lia.
      destruct (_ && _)%bool; simpl; try lia.
      destruct (JSON_parse payload) as [[]|]; simpl; lia. }
    destruct ts as [|t [|t' ts]]; simpl in Hl; try lia.
    + rewrite !app_nil_r. rewrite lastn_all by exact IHlen. exact IH.
    + simpl. rewrite map_lastn, map_app, IH. simpl.
      apply lastn_idem_snoc. lia.
Qed.

(** C1: for every device the stored telemetry sequence is in arrival
    order and never longer than 200; every input changes it to the last 200
    of the old sequence followed by what the input appends, so an append to
    a full sequence evicts the oldest sample; and [getSensorHistory] with
    limit 200 returns the stored sequence, whose values are exactly the last
    200 telemetry messages received for the device, in arrival order. *)
Theorem telemetry_store_bounded_fifo (D : Key) (inputs : list Input) :
  let s := run inputs initial in
  length (stored_samples D s) <= 200 /\
  map value (stored_samples D s) = lastn 200 (telemetry_for D inputs) /\
  getSensorHistory D (Some (Int 200)) s = stored_samples D s /\
  map value (getSensorHistory D (Some (Int 200)) s) = lastn 200 (telemetry_for D inputs) /\
  (forall i, exists ts,
      map value ts = record_of D "telemetry" i /\
      stored_samples D (step s i) = lastn 200 (stored_samples D s ++ ts)).
Proof.
  intros s. destruct (run_stored D inputs) as [Hlen Hval]. fold s in Hlen, Hval.
  assert (Hh : getSensorHistory D (Some (Int 200)) s = stored_samples D s).
  { unfold getSensorHistory. fold (stored_samples D s).
    change (Int 200) with (Int (Z.of_nat 200)).
    rewrite slice_neg_lastn by lia. now apply lastn_all. }
  repeat split; try assumption.
  - now rewrite Hh.
  - intros i. now apply step_stored.
Qed.

(** *** The console does not steer the handler *)

Ltac respects_leaf :=
  let H := fresh in
  intros [? ? ? ? ? ? ? ? ?] [? ? ? ? ? ? ? ? ?] H;
  unfold same_but_console, forget_console, with_console in H; simpl in H;
  injection H; intros; subst; split; reflexivity.

Ltac respects_step :=
  lazymatch goal with
  | |- respects _ (bind _ _) => apply respects_bind; [| intros ?]
  | |- respects _ (ret _) => apply respects_ret
  | |- respects _ (throw _) => apply respects_throw
  | |- respects _ (when _ _) => apply respects_when
  | |- respects _ (try_catch _ _) => apply respects_try_catch; [| intros ?]
  | |- respects _ (match ?x with _ => _ end) => destruct x
  | |- respects _ (let _ := _ in _) => cbv zeta
  | |- respects _ _ => solve [respects_leaf]
  end.

Lemma on_message_console topic payload :
  respects same_but_console (on_message topic payload).
Proof.
  unfold on_message, updateDevice, storeSensorData, updateDeviceStatus, handleNFCScan, read.
  repeat respects_step.
Qed.

(** When [JSON.parse] itself throws, the message is logged and dropped: the
    handler returns normally, the registry, the telemetry store and the
    frames sent to observers are as before, only the console gained the
    error line; and any next message is handled as if this one had not
    arrived (same completion, same store up to the console). *)
Theorem malformed_payload_discarded (topic payload : string) (s : State) :
  JSON_parse payload = None ->
  let s' := snd (on_message topic payload s) in
  fst (on_message topic payload s) = Return tt /\
  s' = with_console (fun c => c ++ [Error "Could not parse incoming MQTT message:"]) s /\
  iotDevices s' = iotDevices s /\
  sensorData s' = sensorData s /\
  wire s' = wire s /\
  (forall topic2 payload2,
      fst (on_message topic2 payload2 s') = fst (on_message topic2 payload2 s) /\
      forget_console (snd (on_message topic2 payload2 s')) =
      forget_console (snd (on_message topic2 payload2 s))).
Proof.
  intros Hp s'.
  assert (E : on_message topic payload s =
              (Return tt, with_console (fun c => c ++ [Error "Could not parse incoming MQTT message:"]) s)).
  { unfold on_message, try_catch, bind. now rewrite Hp. }
  subst s'. rewrite E. simpl. repeat split.
  - apply on_message_console. reflexivity.
  - apply on_message_console. reflexivity.
Qed.

(** *** Observers and their listeners *)

Lemma registration_eqb_spec a b : reflect (a = b) (registration_eqb a b).
Proof.
  destruct a as [n [o k]], b as [n' [o' k']]. unfold registration_eqb, listener_eqb. simpl.
  destruct (String.eqb_spec n n'), (Nat.eqb_spec o o'), (String.eqb_spec k k');
    simpl; constructor; congruence.
Qed.

Lemma remove_first_middle x a b :
  ~ In x a -> remove_first x (a ++ x :: b) = a ++ b.
Proof.
  induction a as [|y a IH]; simpl; intros N.
  - destruct (registration_eqb_spec x x); congruence.
  - destruct (registration_eqb_spec x y) as [->|_]; [tauto|].
    rewrite IH; tauto.
Qed.

(** Removing the latest registration of [x] when none follows it. *)
Lemma remove_last_middle x a b :
  ~ In x b -> rev (remove_first x (rev (a ++ x :: b))) = a ++ b.
Proof.
  intros N. rewrite rev_app_distr. simpl. rewrite <- app_assoc. simpl.
  rewrite remove_first_middle by (now rewrite <- in_rev).
  now rewrite rev_app_distr, !rev_involutive.
Qed.

Lemma in_listeners_observer r l :
  In r (flat_map listeners_of l) -> In (snd r).(observer) l.
Proof.
  induction l as [|o l IH]; simpl; [tauto|].
  intros [<-|[<-|[<-|H]]]; simpl; auto.
Qed.

Lemma remove_nat_middle o a b :
  ~ In o a -> ~ In o b -> remove_nat o (a ++ o :: b) = a ++ b.
Proof.
  intros Na Nb.
  assert (K : forall l, ~ In o l -> remove_nat o l = l).
  { induction l as [|x l IH]; simpl; [reflexivity|]. intros N.
    destruct (Nat.eqb_spec o x); [subst; tauto|]. rewrite IH; tauto. }
  induction a as [|x a IH]; simpl.
  - rewrite Nat.eqb_refl. now apply K.
  - destruct (Nat.eqb_spec o x) as [->|_]; [simpl in Na; tauto|].
    rewrite IH; [reflexivity | simpl in Na; tauto].
Qed.

(** The route's close handler on a bus that holds the observer's three
    closures once. *)
Lemma on_request_close_streaming o a b s :
  iotEvents s = flat_map listeners_of (a ++ o :: b) ->
  open_streams s = a ++ o :: b ->
  ~ In o a -> ~ In o b ->
  streaming (snd (on_request_close o s)) =
  (flat_map listeners_of (a ++ b), a ++ b, next_observer s).
Proof.
  intros He Ho Na Nb. unfold on_request_close, removeListener, streaming, bind, modify. simpl.
  rewrite He, Ho, remove_nat_middle by assumption.
  rewrite !flat_map_app. simpl.
  assert (Nr : forall k, ~ In (k, mkListener o k) (flat_map listeners_of b)).
  { intros k H. apply in_listeners_observer in H. simpl in H. tauto. }
  rewrite remove_last_middle.
  2:{ simpl. intros [H|[H|H]]; try discriminate H. now apply (Nr "telemetry"). }
  rewrite remove_last_middle.
  2:{ simpl. intros [H|H]; try discriminate H. now apply (Nr "status"). }
  rewrite remove_last_middle by apply Nr.
  reflexivity.
Qed.

Lemma get_events_streaming s :
  streaming (snd (get_events s)) =
  (iotEvents s ++ listeners_of (next_observer s),
   open_streams s ++ [next_observer s],
   S (next_observer s)).
Proof. unfold get_events, on, streaming, bind, gets, modify, ret. simpl.
  now rewrite <- !app_assoc. Qed.

(** Inputs other than the opening and closing of a stream leave the bus
    and the set of open streams alone. *)
Lemma handle_streaming i :
  i <> OpenStream -> (forall o, i <> CloseStream o) -> frames streaming (handle i).
Proof.
  intros N1 N2. destruct i; try congruence; try (now elim (N2 o));
    unfold handle, discard, initializeIoT, on_connect, on_close, set_connected,
      post_command, sendCommandToDevice, get_network_health, getNetworkHealth,
      on_message, updateDevice, storeSensorData, updateDeviceStatus, handleNFCScan,
      assign_device, read, emit, now, console_log, console_warn, console_error;
    frame.
Qed.

Lemma bus_consistent_streaming s s' :
  streaming s' = streaming s -> bus_consistent s -> bus_consistent s'.
Proof.
  unfold streaming, bus_consistent. intros E. injection E as E1 E2 E3.
  now rewrite E1, E2, E3.
Qed.

Lemma existsb_eqb_in o l : existsb (Nat.eqb o) l = true <-> In o l.
Proof.
  rewrite existsb_exists. split.
  - intros (x & Hx & E). apply Nat.eqb_eq in E. now subst.
  - intros H. exists o. split; [exact H | apply Nat.eqb_refl].
Qed.

Lemma bus_consistent_intro s' l n :
  streaming s' = (flat_map listeners_of l, l, n) ->
  NoDup l -> (forall o, In o l -> o < n) -> bus_consistent s'.
Proof.
  unfold streaming, bus_consistent. intros E. injection E as E1 E2 E3.
  rewrite E1, E2, E3. auto.
Qed.

Lemma step_bus_consistent s i : bus_consistent s -> bus_consistent (step s i).
Proof.
  intros (He & Hn & Hl).
  destruct i;
    try (apply bus_consistent_streaming with (s := s);
         [apply handle_streaming; [discriminate | intros ?; discriminate]
         | now repeat split]).
  - (* OpenStream *)
    apply bus_consistent_intro
      with (l := open_streams s ++ [next_observer s]) (n := S (next_observer s)).
    + unfold step, handle, discard, bind at 1.
      pose proof (get_events_streaming s) as E.
      destruct (get_events s) as [[| |] s']; simpl in E |- *; rewrite E;
        now rewrite flat_map_app, He.
    + apply NoDup_app; [exact Hn | repeat constructor; simpl; tauto |].
      intros x Hx [<-|[]]. apply Hl in Hx. lia.
    + intros x Hx. apply in_app_or in Hx. destruct Hx as [Hx|[<-|[]]];
        [apply Hl in Hx; lia | lia].
  - (* CloseStream *)
    unfold step, handle, bind at 1, gets, when. cbn [fst snd].
    destruct (existsb (Nat.eqb o) (open_streams s)) eqn:Ex; [|now repeat split].
    apply existsb_eqb_in in Ex. apply in_split in Ex. destruct Ex as (a & b & Eo).
    assert (Na : ~ In o a /\ ~ In o b).
    { rewrite Eo in Hn. apply NoDup_remove_2 in Hn.
      split; intros H; apply Hn, in_or_app; tauto. }
    destruct Na as [Na Nb].
    apply bus_consistent_intro with (l := a ++ b) (n := next_observer s).
    + apply on_request_close_streaming; congruence.
    + rewrite Eo in Hn. now apply NoDup_remove_1 in Hn.
    + intros x Hx. apply Hl. rewrite Eo. apply in_app_or in Hx.
      apply in_or_app. simpl. tauto.
Qed.

Lemma run_bus_consistent inputs : bus_consistent (run inputs initial).
Proof.
  induction inputs as [|i inputs IH] using rev_ind.
  - repeat split; [constructor | intros o []].
  - rewrite run_app. simpl. now apply step_bus_consistent.
Qed.

Lemma listenerCount_flat_map name l :
  In name ["telemetry"; "status"; "nfc_scan"] ->
  length (filter (fun r : string * Listener => String.eqb (fst r) name)
            (flat_map listeners_of l)) = length l.
Proof.
  intros H. simpl in H.
  destruct H as [<-|[<-|[<-|[]]]]; induction l as [|o l IH]; simpl;
    try reflexivity; now rewrite IH.
Qed.

Lemma registrations_closed o l :
  ~ In o l ->
  filter (fun r : string * Listener => Nat.eqb (snd r).(observer) o)
    (flat_map listeners_of l) = [].
Proof.
  induction l as [|x l IH]; [reflexivity|]. simpl. intros N.
  destruct (Nat.eqb_spec x o); [subst; tauto|]. apply IH. tauto.
Qed.

(** C5: in every state the service reaches, the bus holds exactly the
    three closures of each observer whose stream is open, so each of the
    three categories counts as many listeners as there are open streams
    (none when no stream is open, however many were opened and closed
    before); and once an observer's connection has closed, no registration
    of that observer is left on the bus. *)
Theorem observer_listeners_removed (inputs : list Input) :
  let s := run inputs initial in
  iotEvents s = flat_map listeners_of (open_streams s) /\
  listenerCount "telemetry" s = length (open_streams s) /\
  listenerCount "status" s = length (open_streams s) /\
  listenerCount "nfc_scan" s = length (open_streams s) /\
  (forall o, registrations_of o (step s (CloseStream o)) = [] /\
             ~ In o (open_streams (step s (CloseStream o)))).
Proof.
  intros s. pose proof (run_bus_consistent inputs) as Hs. fold s in Hs.
  destruct (Hs) as (He & Hn & Hl).
  unfold listenerCount. rewrite He.
  rewrite !listenerCount_flat_map by (simpl; tauto).
  split; [reflexivity|]. split; [reflexivity|]. split; [reflexivity|].
  split; [reflexivity|]. intros o.
  assert (N : ~ In o (open_streams (step s (CloseStream o)))).
  { unfold step, handle, bind, gets, when. simpl.
    destruct (existsb (Nat.eqb o) (open_streams s)) eqn:Ex.
    - apply existsb_eqb_in in Ex. apply in_split in Ex. destruct Ex as (a & b & Eo).
      unfold on_request_close, removeListener, bind, modify. simpl.
      rewrite Eo in Hn |- *. apply NoDup_remove_2 in Hn.
      rewrite remove_nat_middle; [exact Hn | |];
        intros H; apply Hn, in_or_app; tauto.
    - simpl. intros H. apply existsb_eqb_in in H. congruence. }
  split; [|exact N].
  pose proof (step_bus_consistent (CloseStream o) Hs) as (He' & _).
  unfold registrations_of. rewrite He'. now apply registrations_closed.
Qed.

(** *** Devices the ingestion path has not seen *)

Lemma on_message_entries D topic payload :
  topic_device topic <> D -> frames (entries D) (on_message topic payload).
Proof.
  unfold topic_device. intros N.
  unfold on_message, updateDevice, storeSensorData, updateDeviceStatus, handleNFCScan,
    assign_device, read, emit, now, console_log, console_error.
  frame_with ltac:(intros ?; unfold entries; cbn;
                   repeat match goal with
                          | |- context [match ?x with _ => _ end] => destruct x
                          end;
                   rewrite ?get_set_other by assumption; reflexivity).
Qed.

Lemma handle_entries D i : seen D i = false -> frames (entries D) (handle i).
Proof.
  intros Hs. destruct i;
    try (unfold handle, discard, initializeIoT, on_connect, on_close, set_connected,
           get_events, on_request_close, post_command, sendCommandToDevice,
           get_network_health, getNetworkHealth, console_log, console_warn,
           console_error, on, removeListener;
         frame).
  simpl in Hs |- *. destruct (key_eqb_spec (topic_device topic) D) as [E|N].
  - simpl in Hs. intros s. unfold on_message, try_catch, bind.
    destruct (JSON_parse payload); [discriminate | reflexivity].
  - now apply on_message_entries.
Qed.

Lemma run_entries D inputs :
  existsb (seen D) inputs = false -> entries D (run inputs initial) = (None, None).
Proof.
  induction inputs as [|i inputs IH] using rev_ind; [reflexivity|].
  rewrite existsb_app, orb_false_iff. simpl. rewrite orb_false_r. intros [H1 H2].
  rewrite run_app. simpl. fold (step (run inputs initial) i).
  unfold step. rewrite handle_entries by exact H2. now apply IH.
Qed.

(** C7: for a device the ingestion path has never seen, the history is
    empty for every limit (also for none), the status lookup finds nothing,
    and the two routes answer 200 with an empty list and 404, not 500. *)
Theorem never_seen_device (deviceId : string) (inputs : list Input) :
  deviceId <> "" ->
  existsb (seen (Some deviceId)) inputs = false ->
  let s := run inputs initial in
  (forall limit, getSensorHistory (Some deviceId) limit s = []) /\
  getDeviceStatus (Some deviceId) s = None /\
  (forall limit, fst (get_history deviceId limit s) = Return (mkResponse 200 (HistoryBody []))) /\
  fst (get_device deviceId s) =
    Return (mkResponse 404 (ErrorBody ("Device with ID " ++ deviceId ++ " not found."))).
Proof.
  intros Hne Hs s. pose proof (run_entries _ _ Hs) as E. fold s in E.
  unfold entries in E. injection E as Ed Eh.
  assert (Hh : forall limit, getSensorHistory (Some deviceId) limit s = []).
  { intros limit. unfold getSensorHistory. rewrite Eh. unfold slice. apply skipn_nil. }
  assert (Hn : String.eqb deviceId "" = false) by now apply String.eqb_neq.
  repeat split.
  - exact Hh.
  - exact Ed.
  - intros limit. unfold get_history, try_catch, bind, gets, ret. rewrite Hn. simpl.
    now rewrite Hh.
  - unfold get_device, try_catch, bind, gets, ret. rewrite Hn. simpl.
    unfold getDeviceStatus. now rewrite Ed.
Qed.

(** *** Health of an empty registry *)

(** C9: with no device in the registry, the health report has
    [totalDevices = 0], [onlinePercentage = 100] and [avgBatteryLevel =
    null], and the route answers 200 with it. *)
Theorem health_of_empty_registry (s : State) :
  iotDevices s = [] ->
  fst (getNetworkHealth s) =
    Return (mkHealth 0 0 0 100%float JNull (Date_toISOString (clock s))) /\
  fst (get_network_health s) =
    Return (mkResponse 200
              (HealthBody (mkHealth 0 0 0 100%float JNull (Date_toISOString (clock s))))).
Proof.
  intros E. unfold get_network_health, getNetworkHealth, getAllDevices, try_catch, bind, gets.
  rewrite E. split; reflexivity.
Qed.

(** *** Status of devices that never sent a status record *)

Ltac preserve_with leaf :=
  repeat lazymatch goal with
  | |- preserves _ (bind _ _) => apply preserves_bind; [| intros ?]
  | |- preserves _ (ret _) => apply preserves_ret
  | |- preserves _ (throw _) => apply preserves_throw
  | |- preserves _ (gets _) => apply preserves_gets
  | |- preserves _ (when _ _) => apply preserves_when
  | |- preserves _ (try_catch _ _) => apply preserves_try_catch; [| intros ?]
  | |- preserves _ (match ?x with _ => _ end) => destruct x
  | |- preserves _ (let _ := _ in _) => cbv zeta
  | |- preserves _ _ => solve [leaf]
  end.

Lemma create_status_online D k t :
  preserves (status_online D)
    (modify (with_iotDevices (set k
       (mkDevice k (JStr "online") t JUndefined JUndefined JUndefined JUndefined)))).
Proof.
  intros s H d. cbn. destruct (key_eqb_spec k D) as [->|N].
  - rewrite get_set_same. now intros [= <-].
  - rewrite get_set_other by exact N. apply H.
Qed.

Lemma assign_status_online D k g :
  (forall d, status (g d) = status d) ->
  preserves (status_online D) (assign_device k g).
Proof.
  intros Hg s H d. cbn. destruct (get k (iotDevices s)) as [d0|] eqn:G; [|apply H].
  destruct (key_eqb_spec k D) as [->|N].
  - rewrite get_set_same. intros [= <-]. rewrite Hg. now apply H.
  - rewrite get_set_other by exact N. apply H.
Qed.

Ltac status_leaf :=
  first [ apply create_status_online
        | apply assign_status_online; intros ?; reflexivity
        | let s := fresh in let H := fresh in intros s H; exact H ].

Lemma updateDevice_status_online D k message :
  preserves (status_online D) (updateDevice k message).
Proof. unfold updateDevice, read. preserve_with status_leaf. Qed.

Lemma storeSensorData_status_online D k data :
  preserves (status_online D) (storeSensorData k data).
Proof. unfold storeSensorData. preserve_with status_leaf. Qed.

Lemma handleNFCScan_status_online D k data :
  preserves (status_online D) (handleNFCScan k data).
Proof. unfold handleNFCScan. preserve_with status_leaf. Qed.

Lemma on_message_status_online D topic payload :
  record_of D "status" (Message topic payload) = [] ->
  preserves (status_online D) (on_message topic payload).
Proof.
  unfold record_of. intros Hr.
  destruct (key_eqb_spec (topic_device topic) D) as [E|N].
  2:{ apply frames_preserves with (f := entries D); [|now apply on_message_entries].
      unfold entries, status_online. intros s s' [= E1 E2] H d. rewrite E1. apply H. }
  simpl in Hr. unfold topic_kind in Hr. unfold on_message. cbv zeta.
  destruct (is_case (nth_error (split "/" topic) 2) "status") eqn:K.
  - intros s H. unfold try_catch, bind at 1.
    destruct (JSON_parse payload) as [message|]; [|exact H].
    assert (R : readable message = false) by (destruct message; try discriminate Hr; reflexivity).
    cbn [throw ret]. unfold bind at 1. cbn [console_log modify].
    unfold bind at 1.
    set (s1 := with_console _ s).
    pose proof (updateDevice_outcome (nth_error (split "/" topic) 1) message s1) as Ho.
    pose proof (@updateDevice_status_online D (nth_error (split "/" topic) 1) message s1 H) as Hp.
    destruct (updateDevice _ message s1) as [o s2]. cbn [fst snd] in *.
    rewrite R in Ho. subst o. exact Hp.
  - apply preserves_try_catch; [|intros ?; intros s H; exact H].
    apply preserves_bind; [destruct (JSON_parse payload); intros s H; exact H|].
    intros message. apply preserves_bind; [intros s H; exact H|]. intros _.
    apply preserves_bind; [apply updateDevice_status_online|]. intros _.
    destruct (is_case _ "telemetry"); [apply storeSensorData_status_online|].
    destruct (is_case _ "nfc"); [apply handleNFCScan_status_online|].
    apply preserves_ret.
Qed.

Lemma handle_iotDevices i :
  (forall topic payload, i <> Message topic payload) -> frames iotDevices (handle i).
Proof.
  intros N. destruct i; try (now elim (N topic payload));
    unfold handle, discard, initializeIoT, on_connect, on_close, set_connected, get_events,
      on_request_close, post_command, sendCommandToDevice, get_network_health,
      getNetworkHealth, console_log, console_warn, console_error, on, removeListener;
    frame.
Qed.

Lemma step_status_online D s i :
  record_of D "status" i = [] -> status_online D s -> status_online D (step s i).
Proof.
  intros Hr H. destruct i;
    try (unfold status_online, step;
         rewrite handle_iotDevices by (intros ? ?; discriminate); exact H).
  now apply on_message_status_online.
Qed.

Lemma run_status_online D inputs :
  flat_map (record_of D "status") inputs = [] -> status_online D (run inputs initial).
Proof.
  induction inputs as [|i inputs IH] using rev_ind.
  - intros _ d. discriminate.
  - rewrite flat_map_app. simpl. rewrite app_nil_r. intros H.
    apply app_eq_nil in H. destruct H as [H1 H2].
    rewrite run_app. simpl. apply step_status_online; auto.
Qed.

Lemma get_in_values (V : Type) (k : Key) (m : Map V) (v : V) :
  get k m = Some v -> In v (values m).
Proof.
  induction m as [|[k' v'] m IH]; simpl; [discriminate|].
  destruct (key_eqb k k'); [intros [= ->]; now left | intros H; right; now apply IH].
Qed.

(** After [updateDevice] the registry has a record under the key. *)
Lemma updateDevice_known k message s :
  exists d, get k (iotDevices (snd (updateDevice k message s))) = Some d.
Proof.
  assert (K : preserves (fun s => exists d, get k (iotDevices s) = Some d)
                (t <- now ;;
                 assign_device k (set_lastSeen t) ;;;
                 battery <- read message "battery" ;;
                 when (truthy battery) (assign_device k (set_batteryLevel battery)) ;;;
                 signal <- read message "signal" ;;
                 when (truthy signal) (assign_device k (set_signalStrength signal)) ;;;
                 loc <- read message "location" ;;
                 when (truthy loc) (assign_device k (set_location loc)))%js).
  { unfold read.
    preserve_with ltac:(first
      [ intros ? [d0 H0]; cbn; rewrite H0, get_set_same; eauto
      | intros ? H0; exact H0 ]). }
  unfold updateDevice. unfold bind at 1. cbn [gets]. unfold has.
  destruct (get k (iotDevices s)) as [d|] eqn:G; cbn [negb when].
  - unfold bind at 1. cbn [ret]. apply K. eauto.
  - unfold bind at 1 2. cbn [now modify]. apply K. cbn. rewrite get_set_same. eauto.
Qed.

(** A readable status record without a [status] property sets the status
    to ['online']. *)
Lemma status_record_without_status topic payload message s :
  topic_kind topic = Some "status" ->
  JSON_parse payload = Some message ->
  get_prop message "status" = Some JUndefined ->
  exists d, getDeviceStatus (topic_device topic) (snd (on_message topic payload s)) = Some d /\
            status d = JStr "online".
Proof.
  unfold topic_kind, topic_device, getDeviceStatus. intros Hk Hp Hs.
  assert (R : readable message = true) by (destruct message; try discriminate Hs; reflexivity).
  unfold on_message, try_catch. cbv zeta. rewrite Hk, Hp. cbn [is_case].
  unfold bind at 1. cbn [ret]. unfold bind at 1. cbn [console_log modify]. unfold bind at 1.
  remember (nth_error (split "/" topic) 1) as k eqn:Ek. clear Ek.
  set (s1 := with_console _ s).
  pose proof (updateDevice_outcome k message s1) as Ho.
  destruct (updateDevice_known k message s1) as [d0 Hd].
  destruct (updateDevice k message s1) as [o s2]. cbn [fst snd] in *.
  rewrite R in Ho. subst o.
  change (String.eqb "status" "telemetry") with false.
  change (String.eqb "status" "status") with true. cbv iota.
  unfold updateDeviceStatus, bind, gets, read, assign_device, emit, modify, ret.
  rewrite Hd, Hs.
  assert (F : exists fw, get_prop message "firmware" = Some fw)
    by (destruct message; try discriminate R; simpl; eauto).
  destruct F as [fw ->]. cbn. rewrite Hd. cbn. rewrite !get_set_same. cbn.
  eexists. split; reflexivity.
Qed.

(** C10: a device whose record the ingestion path created and for which
    no status record was ever handled has status ['online'] in every state
    reached, sits among the devices the health report counts as online, and
    the report's [onlineDevices] is the number of such devices (at least
    one); and a readable status record without a [status] property leaves
    the device with status ['online']. *)
Theorem status_defaults_online (D : Key) (inputs : list Input) (d : Device) :
  flat_map (record_of D "status") inputs = [] ->
  getDeviceStatus D (run inputs initial) = Some d ->
  let s := run inputs initial in
  status d = JStr "online" /\
  In d (filter is_online (getAllDevices s)) /\
  (exists h, fst (getNetworkHealth s) = Return h /\
             onlineDevices h = length (filter is_online (getAllDevices s)) /\
             1 <= onlineDevices h) /\
  (forall s0 topic payload message,
      topic_device topic = D ->
      topic_kind topic = Some "status" ->
      JSON_parse payload = Some message ->
      get_prop message "status" = Some JUndefined ->
      exists d', getDeviceStatus D (snd (on_message topic payload s0)) = Some d' /\
                 status d' = JStr "online").
Proof.
  intros Hr Hd s. fold s in Hd.
  pose proof (@run_status_online D inputs Hr d Hd) as Hst.
  assert (Hin : In d (filter is_online (getAllDevices s))).
  { apply filter_In. split.
    - unfold getAllDevices. now apply get_in_values with (k := D).
    - unfold is_online. now rewrite Hst. }
  split; [exact Hst|]. split; [exact Hin|]. split.
  - clearbody s. unfold getNetworkHealth, bind, gets, now, ret.
    destruct (getAllDevices s) as [|d1 l] eqn:El; [destruct Hin|].
    cbn [length Nat.eqb]. eexists. split; [reflexivity|]. cbn [onlineDevices].
    split; [reflexivity|].
    destruct (filter is_online (d1 :: l)); [destruct Hin | simpl; lia].
  - intros s0 topic payload message <-. apply status_record_without_status.
Qed.

(** *** Partial updates of a device record *)

(** A supplied battery level of 0 does not reach the record: the record
    keeps the level it had, or none. *)
Lemma updateDevice_zero_battery k props s :
  assoc "battery" props = JNum 0 ->
  option_map batteryLevel (get k (iotDevices (snd (updateDevice k (JObj props) s)))) =
  Some (match get k (iotDevices s) with
        | Some d => batteryLevel d
        | None => JUndefined
        end).
Proof.
  intros Hb. js_unfold. unfold has.
  destruct (get k (iotDevices s)) as [d|] eqn:G; cbn; rewrite Hb;
    change (truthy (JNum 0)) with false; cbn;
    destruct (truthy (assoc "signal" props));
    destruct (truthy (assoc "location" props)); cbn;
    repeat (progress (rewrite ?G, ?get_set_same; cbn));
    reflexivity.
Qed.

(** *** Commands *)

(** C4, as the code has it: the dispatcher does not look at the state of
    the broker connection.  Whenever the broker client exists, connected or
    not, a send returns normally after handing topic and envelope to the
    client's [publish], whatever the device id, the command and the payload
    are; and for a request that passes its validation the route answers 202
    and leaves the store the send left. *)
Theorem send_ignores_connection_state
    (s : State) (c : Client) (deviceId : string) (command payload : JsVal) :
  mqttClient s = Some c ->
  fst (sendCommandToDevice deviceId command payload s) = Return tt /\
  snd (sendCommandToDevice deviceId command payload s) =
    with_mqttClient (fun _ =>
      Some (mkClient c.(connected)
              (c.(publish_calls) ++ [("iot/" ++ deviceId ++ "/command", (command, payload))]%string)))
      s /\
  (deviceId <> "" -> isString command = true -> isObject payload = true ->
   post_command deviceId command payload s =
     (Return (mkResponse 202 (CommandSent command deviceId)),
      snd (sendCommandToDevice deviceId command payload s))).
Proof.
  intros Hc.
  assert (E : sendCommandToDevice deviceId command payload s =
              (Return tt,
               with_mqttClient (fun _ =>
                 Some (mkClient c.(connected)
                         (c.(publish_calls)
                          ++ [("iot/" ++ deviceId ++ "/command", (command, payload))]%string)))
                 s)).
  { unfold sendCommandToDevice, bind, gets, modify. now rewrite Hc. }
  split; [now rewrite E|]. split; [now rewrite E|].
  intros Hd Hs Ho.
  assert (Hn : String.eqb deviceId "" = false) by now apply String.eqb_neq.
  unfold post_command, try_catch, bind, ret.
  rewrite Hn, Hs, Ho. cbn [orb negb]. now rewrite E.
Qed.

End SERVICE.

(** C6 at [{"battery":0}]: the level 0 sent by a new device is not
    recorded (the record has no battery level), and sent by a device that
    had reported 55 it leaves the 55 in place. *)
Theorem zero_battery_not_recorded :
  option_map batteryLevel
    (getDeviceStatus (Some "dev1")
       (run (RT := Demo.runtime)
          [Message "iot/dev1/telemetry" (Demo.object1 "battery" "0")] initial))
    = Some JUndefined /\
  option_map batteryLevel
    (getDeviceStatus (Some "dev1")
       (run (RT := Demo.runtime)
          [Message "iot/dev1/telemetry" (Demo.object1 "battery" "55");
           Message "iot/dev1/telemetry" (Demo.object1 "battery" "0")] initial))
    = Some (JNum 55).
Proof. split; vm_compute; reflexivity. Qed.

(** C3 at the payload [null], which is not a structured record: the
    handler reports it with its parse error line and returns, no sample is
    stored and no frame is written, yet the registry was written before the
    property read threw.  For a new device a record was created; for a known
    device [lastSeen] moved on (from [T1] to [T3]).  For the text [xx], at
    which [JSON.parse] throws, the same error line is logged and the
    registry stays as it was, and the record that arrives next is
    processed. *)
Theorem null_payload_updates_registry :
  let null_first :=
    run (RT := Demo.runtime) [OpenStream; Message "iot/dev1/telemetry" "null"] initial in
  let known :=
    run (RT := Demo.runtime)
      [OpenStream; Message "iot/dev1/telemetry" (Demo.object1 "battery" "55")] initial in
  let null_later := run (RT := Demo.runtime) [Message "iot/dev1/telemetry" "null"] known in
  let text_first :=
    run (RT := Demo.runtime) [OpenStream; Message "iot/dev1/telemetry" "xx"] initial in
  let text_later := run (RT := Demo.runtime) [Message "iot/dev1/telemetry" "xx"] known in
  (* the payload null, new device *)
  console null_first =
    [Log "MQTT message received on topic"; Error "Could not parse incoming MQTT message:"] /\
  getDeviceStatus (Some "dev1") null_first =
    Some (mkDevice (Some "dev1") (JStr "online") "T1"
            JUndefined JUndefined JUndefined JUndefined) /\
  stored_samples (Some "dev1") null_first = [] /\
  wire null_first = [] /\
  (* the payload null, known device *)
  last (console null_later) (Log "") = Error "Could not parse incoming MQTT message:" /\
  option_map lastSeen (getDeviceStatus (Some "dev1") known) = Some "T1" /\
  option_map lastSeen (getDeviceStatus (Some "dev1") null_later) = Some "T3" /\
  sensorData null_later = sensorData known /\
  wire null_later = wire known /\
  (* a text that is not JSON *)
  console text_first = [Error "Could not parse incoming MQTT message:"] /\
  getDeviceStatus (Some "dev1") text_first = None /\
  iotDevices text_later = iotDevices known /\
  getDeviceStatus (Some "dev1")
    (run (RT := Demo.runtime)
       [Message "iot/dev1/telemetry" (Demo.object1 "battery" "55")] text_first) =
    Some (mkDevice (Some "dev1") (JStr "online") "T1"
            (JNum 55) JUndefined JUndefined JUndefined).
Proof. vm_compute. repeat split. Qed.

(** C4 as the design document states it fails: with the connection down,
    a send returns normally and the envelope is with the client. *)
Lemma send_while_disconnected :
  Disconnected Demo.disconnected /\
  fst (sendCommandToDevice "dev1" (JStr "reboot") (JObj []) Demo.disconnected)
    = Return tt /\
  fst (post_command "dev1" (JStr "reboot") (JObj []) Demo.disconnected)
    = Return (mkResponse 202 (CommandSent (JStr "reboot") "dev1")) /\
  option_map publish_calls
    (mqttClient (snd (sendCommandToDevice "dev1" (JStr "reboot") (JObj [])
                        Demo.disconnected)))
    = Some [("iot/dev1/command", (JStr "reboot", JObj []))] /\
  ~ fails_when_disconnected.
Proof.
  assert (D : Disconnected Demo.disconnected).
  { exists (mkClient false []). split; reflexivity. }
  split; [exact D|]. split; [reflexivity|]. split; [reflexivity|]. split; [reflexivity|].
  intros H.
  destruct (H Demo.disconnected "dev1" (JStr "reboot") (JObj []) D) as [[e He] _].
  discriminate He.
Qed.

Lemma send_ignores_connection_state_witness :
  mqttClient Demo.disconnected = Some (mkClient false []) /\
  fst (sendCommandToDevice "" JUndefined JNull Demo.disconnected) = Return tt /\
  fst (post_command "dev1" (JStr "reboot") (JObj []) Demo.disconnected)
    = Return (mkResponse 202 (CommandSent (JStr "reboot") "dev1")).
Proof.
  assert (H : mqttClient Demo.disconnected = Some (mkClient false [])) by reflexivity.
  split; [exact H|]. split.
  - exact (proj1 (@send_ignores_connection_state Demo.disconnected (mkClient false [])
                    "" JUndefined JNull H)).
  - pose proof (proj2 (proj2 (@send_ignores_connection_state Demo.disconnected
                                (mkClient false []) "dev1" (JStr "reboot") (JObj []) H))) as R.
    rewrite R; [reflexivity | discriminate | reflexivity | reflexivity].
Defined.

Lemma status_defaults_online_witness :
  flat_map (record_of (RT := Demo.runtime) (Some "dev1") "status") Demo.quiet_inputs = [] /\
  getDeviceStatus (Some "dev1") (run (RT := Demo.runtime) Demo.quiet_inputs initial)
    = Some Demo.quiet_dev1 /\
  In Demo.quiet_dev1
     (filter is_online (getAllDevices (run (RT := Demo.runtime) Demo.quiet_inputs initial))).
Proof.
  assert (Hr : flat_map (record_of (RT := Demo.runtime) (Some "dev1") "status")
                 Demo.quiet_inputs = [])
    by (vm_compute; reflexivity).
  assert (Hd : getDeviceStatus (Some "dev1")
                 (run (RT := Demo.runtime) Demo.quiet_inputs initial) = Some Demo.quiet_dev1)
    by (vm_compute; reflexivity).
  split; [exact Hr|]. split; [exact Hd|].
  exact (proj1 (proj2 (@status_defaults_online Demo.runtime (Some "dev1") Demo.quiet_inputs
                         Demo.quiet_dev1 Hr Hd))).
Defined.

Lemma never_seen_device_witness :
  "dev2" <> "" /\
  getDeviceStatus (Some "dev2")
    (run (RT := Demo.runtime)
       [Startup; Message "iot/dev1/telemetry" (Demo.object1 "battery" "55");
        Message "iot/dev2/telemetry" "xx"] initial) = None.
Proof.
  split; [discriminate|].
  apply (@never_seen_device Demo.runtime "dev2"
           [Startup; Message "iot/dev1/telemetry" (Demo.object1 "battery" "55");
            Message "iot/dev2/telemetry" "xx"]);
    [discriminate | reflexivity].
Defined.

Lemma health_of_empty_registry_witness :
  iotDevices initial = [] /\
  fst (getNetworkHealth (RT := Demo.runtime) initial) =
    Return (mkHealth 0 0 0 100%float JNull "T0").
Proof.
  split; [reflexivity|].
  apply (@health_of_empty_registry Demo.runtime initial). reflexivity.
Defined.

(** A text that is not JSON arrives for [dev1] at startup. *)
Lemma malformed_payload_discarded_witness :
  @JSON_parse Demo.runtime "xx" = None /\
  fst (on_message (RT := Demo.runtime) "iot/dev1/telemetry" "xx" initial) = Return tt /\
  iotDevices (snd (on_message (RT := Demo.runtime) "iot/dev1/telemetry" "xx" initial)) = [].
Proof.
  split; [reflexivity|].
  pose proof (@malformed_payload_discarded Demo.runtime "iot/dev1/telemetry" "xx" initial
                eq_refl) as H.
  cbv zeta in H. destruct H as (H1 & _ & H2 & _). split; [exact H1 | exact H2].
Defined.

(** *** Worked runs *)

(** 205 telemetry records for one device: 200 are kept, and a limit of 3
    returns the last three readings of the clock. *)
Example history_after_205_records :
  let s := run (RT := Demo.runtime)
             (repeat (Message "iot/dev1/telemetry" "7") 205) initial in
  length (getSensorHistory (Some "dev1") (Some (Int 200)) s) = 200 /\
  map timestamp (getSensorHistory (Some "dev1") (Some (Int 3)) s) = ["T406"; "T408"; "T410"] /\
  length (getSensorHistory (Some "dev1") (Some NaN) s) = 200.
Proof. vm_compute. repeat split. Qed.

(** A thousand observers connect and disconnect one after the other; no
    listener is left on the bus. *)
Example thousand_connect_disconnect_cycles :
  let s := run (RT := Demo.runtime)
             (flat_map (fun o => [OpenStream; CloseStream o]) (seq 0 1000)) initial in
  (listenerCount "telemetry" s, listenerCount "status" s, listenerCount "nfc_scan" s) = (0, 0, 0)
  /\ next_observer s = 1000.
Proof. vm_compute. split; reflexivity. Qed.

End IoTFacts.

(* ===================================================================== *)
(** * Properties of the ledger gateway *)
(* ===================================================================== *)

Module LedgerFacts.
Import Js Ledger.

Ltac run_gateway :=
  unfold submitTransaction, evaluateTransaction, connectToGateway, read_profile,
    newFileSystemWallet, new_Gateway, gateway_connect, gateway_getNetwork,
    disconnect_if_set, gateway_disconnect, join, reply, call, console_log,
    try_finally, try_catch, bind, gets, modify, ret, throw.

Section GATEWAY.
Variable world : World.

(** Once [connectToGateway] has returned, the session is closed on every
    way out of [submitTransaction]: whatever the arguments are and whatever
    the network replies. *)
Lemma submit_closes_connected_session functionName args s :
  connects world s ->
  sessions (snd (submitTransaction world functionName args s)) =
  remove_session (next_gateway s) (sessions s ++ [next_gateway s]).
Proof.
  intros (Hp & Hw & Hi & Hc & Hn). run_gateway.
  destruct (connection_profile world); [|congruence]. rewrite Hw. cbn.
  destruct (wallet_get org1UserId (wallet s)); [|congruence]. rewrite Hc. cbn.
  rewrite Hn. cbn.
  destruct args as [l|]; cbn; [|reflexivity].
  destruct (submit_reply world functionName l); reflexivity.
Qed.

Lemma evaluate_closes_connected_session functionName args s :
  connects world s ->
  sessions (snd (evaluateTransaction world functionName args s)) =
  remove_session (next_gateway s) (sessions s ++ [next_gateway s]).
Proof.
  intros (Hp & Hw & Hi & Hc & Hn). run_gateway.
  destruct (connection_profile world); [|congruence]. rewrite Hw. cbn.
  destruct (wallet_get org1UserId (wallet s)); [|congruence]. rewrite Hc. cbn.
  rewrite Hn. cbn.
  destruct args as [l|]; cbn; [|reflexivity].
  destruct (evaluate_reply world functionName l); reflexivity.
Qed.

(** When the gateway connects and the channel is then not resolved,
    [connectToGateway] throws before the caller's [gateway] is assigned, and
    the session stays open. *)
Lemma submit_leaks_when_channel_fails functionName args s :
  connection_profile world <> None ->
  wallet_opens world = true ->
  wallet_get org1UserId (wallet s) <> None ->
  connect_ok world = true ->
  network_ok world = false ->
  fst (submitTransaction world functionName args s) = Throw (Rejected "getNetwork") /\
  sessions (snd (submitTransaction world functionName args s)) =
    sessions s ++ [next_gateway s].
Proof.
  intros Hp Hw Hi Hc Hn. run_gateway.
  destruct (connection_profile world); [|congruence]. rewrite Hw. cbn.
  destruct (wallet_get org1UserId (wallet s)); [|congruence]. rewrite Hc. cbn.
  rewrite Hn. cbn. split; reflexivity.
Qed.

#[local] Arguments wallet_put : simpl never.

Lemma wallet_get_filter name other w :
  wallet_get name w = None ->
  wallet_get name (filter (fun e => negb (String.eqb other (fst e))) w) = None.
Proof.
  induction w as [|[n i] w IH]; simpl; [reflexivity|].
  destruct (String.eqb name n) eqn:E; [discriminate|].
  intros H. destruct (negb (String.eqb other n)); simpl; [rewrite E|]; auto.
Qed.

Lemma wallet_get_put_other name other i w :
  String.eqb name other = false ->
  wallet_get name w = None ->
  wallet_get name (wallet_put other i w) = None.
Proof.
  intros N H. unfold wallet_put. simpl. rewrite N. now apply wallet_get_filter.
Qed.

(** Whatever the world is like, a wallet without the application identity
    ends the process with code 1 and still is without it: the registration
    is never reached. *)
Lemma initializeBlockchain_without_user s :
  wallet_get org1UserId (wallet s) = None ->
  fst (initializeBlockchain world s) = Exit 1 /\
  wallet_get org1UserId (wallet (snd (initializeBlockchain world s))) = None /\
  calls (snd (initializeBlockchain world s)) =
    calls s ++
    match connection_profile world with
    | Some (mkProfile (Some _)) =>
        if wallet_opens world then
          match wallet_get "admin" (wallet s) with
          | Some _ => []
          | None =>
              match ca_enroll world "admin" "adminpw" with
              | Some _ => [CaEnroll "admin"; WalletPut "admin"]
              | None => [CaEnroll "admin"]
              end
          end
        else []
    | _ => []
    end.
Proof.
  intros Hu.
  unfold initializeBlockchain, read_profile, new_FabricCAServices, newFileSystemWallet,
    enroll, register, put, call, console_log, process_exit,
    try_catch, bind, gets, modify, ret, throw.
  cbn.
  destruct (connection_profile world) as [[[url|]]|]; cbn;
    try (rewrite app_nil_r; now repeat split).
  destruct (wallet_opens world); cbn; try (rewrite app_nil_r; now repeat split).
  destruct (wallet_get "admin" (wallet s)) as [a|]; cbn.
  - rewrite Hu. cbn. rewrite app_nil_r. now repeat split.
  - destruct (ca_enroll world "admin" "adminpw") as [e|]; cbn; [|now repeat split].
    rewrite (@wallet_get_put_other org1UserId "admin" _ _ eq_refl Hu). cbn.
    rewrite <- app_assoc. cbn. repeat split.
    now apply wallet_get_put_other.
Qed.

End GATEWAY.

(** C2 at a network whose channel cannot be resolved: [gateway.connect]
    has opened the session, [getNetwork] throws inside [connectToGateway],
    the caller's [gateway] is still unassigned when its [finally] runs, and
    the session is never disconnected; the same in [evaluateTransaction]. *)
Theorem session_left_open_when_channel_fails :
  fst (submitTransaction Demo.channel_unreachable "createPackage" (Some ["A1"])
         (initial Demo.both_enrolled)) = Throw (Rejected "getNetwork") /\
  sessions (snd (submitTransaction Demo.channel_unreachable "createPackage" (Some ["A1"])
                   (initial Demo.both_enrolled))) = [0] /\
  calls (snd (submitTransaction Demo.channel_unreachable "createPackage" (Some ["A1"])
                (initial Demo.both_enrolled))) = [GatewayConnect 0; GatewayGetNetwork 0] /\
  fst (evaluateTransaction Demo.channel_unreachable "queryPackage" (Some ["A1"])
         (initial Demo.both_enrolled)) = Throw (Rejected "getNetwork") /\
  sessions (snd (evaluateTransaction Demo.channel_unreachable "queryPackage" (Some ["A1"])
                   (initial Demo.both_enrolled))) = [0] /\
  calls (snd (evaluateTransaction Demo.channel_unreachable "queryPackage" (Some ["A1"])
                (initial Demo.both_enrolled))) = [GatewayConnect 0; GatewayGetNetwork 0].
Proof. repeat split; vm_compute; reflexivity. Qed.

(** C8 at a wallet that holds the administrative identity only, with a
    certificate authority that would accept every request: the provisioner
    never registers or enrolls the application identity; it ends the
    process with code 1 and the wallet is as it was. *)
Theorem application_identity_not_provisioned :
  fst (initializeBlockchain Demo.healthy (initial Demo.admin_only)) = Exit 1 /\
  wallet (snd (initializeBlockchain Demo.healthy (initial Demo.admin_only))) = Demo.admin_only /\
  calls (snd (initializeBlockchain Demo.healthy (initial Demo.admin_only))) = [] /\
  wallet_get org1UserId
    (wallet (snd (initializeBlockchain Demo.healthy (initial Demo.admin_only)))) = None.
Proof. repeat split; vm_compute; reflexivity. Qed.

End LedgerFacts.


(* ===================================================================== *)
(** * Further properties of the IoT service *)
(* ===================================================================== *)

Module IoTExtra.
Import Js JsFacts IoT IoTFacts IoTMore.

(** Discharges [preserves P c] for straight-line code, with a solver for
    the assignments. *)
Ltac preserve_with leaf :=
  repeat lazymatch goal with
  | |- preserves _ (bind _ _) => apply preserves_bind; [| intros ?]
  | |- preserves _ (ret _) => apply preserves_ret
  | |- preserves _ (throw _) => apply preserves_throw
  | |- preserves _ (gets _) => apply preserves_gets
  | |- preserves _ (when _ _) => apply preserves_when
  | |- preserves _ (try_catch _ _) => apply preserves_try_catch; [| intros ?]
  | |- preserves _ (match ?x with _ => _ end) => destruct x
  | |- preserves _ (let _ := _ in _) => cbv zeta
  | |- preserves _ _ => solve [leaf]
  end.

Section SERVICE.
Context {RT : Runtime}.

(** *** The record [updateDevice] leaves *)

Lemma updateDevice_leaves k message s :
  readable message = true ->
  get k (iotDevices (snd (updateDevice k message s))) =
  Some (let d0 := match get k (iotDevices s) with
                  | Some d => d
                  | None => mkDevice k (JStr "online") (Date_toISOString (clock s))
                              JUndefined JUndefined JUndefined JUndefined
                  end in
        mkDevice (id d0) (status d0)
          (Date_toISOString (if has k (iotDevices s) then clock s else S (clock s)))
          (or_else (supplied message "battery") (batteryLevel d0))
          (or_else (supplied message "signal") (signalStrength d0))
          (or_else (supplied message "location") (location d0))
          (firmware d0)).
Proof.
  intros R. js_unfold. unfold has, supplied, or_else.
  destruct (get k (iotDevices s)) as [d|] eqn:G;
    destruct message; try discriminate R; cbn;
    repeat match goal with
           | |- context [truthy ?x] => destruct (truthy x) eqn:?; cbn
           end;
    repeat (progress (rewrite ?G, ?get_set_same; cbn));
    reflexivity.
Qed.

(** X1: for a message whose properties can be read, [updateDevice] leaves
    under the device's key the record it found there (or a new one with
    status ['online']) with the last-seen time set to the latest reading of
    the clock, and with battery level, signal strength and location replaced
    by the message's value wherever that value is truthy and kept otherwise;
    id, status and firmware are not touched. *)
Theorem updateDevice_record k message s :
  readable message = true ->
  get k (iotDevices (snd (updateDevice k message s))) =
  Some (let d0 := match get k (iotDevices s) with
                  | Some d => d
                  | None => mkDevice k (JStr "online") (Date_toISOString (clock s))
                              JUndefined JUndefined JUndefined JUndefined
                  end in
        mkDevice (id d0) (status d0)
          (Date_toISOString (if has k (iotDevices s) then clock s else S (clock s)))
          (or_else (supplied message "battery") (batteryLevel d0))
          (or_else (supplied message "signal") (signalStrength d0))
          (or_else (supplied message "location") (location d0))
          (firmware d0)).
Proof.
  intros R. js_unfold. unfold has, supplied, or_else.
  destruct (get k (iotDevices s)) as [d|] eqn:G;
    destruct message; try discriminate R; cbn;
    repeat match goal with
           | |- context [truthy ?x] => destruct (truthy x) eqn:?; cbn
           end;
    repeat (progress (rewrite ?G, ?get_set_same; cbn));
    reflexivity.
Qed.

(** *** The payload [null] *)

(** X2: a payload that parses to [null] is reported as a parse error, yet the
    device named in the topic has been registered (or its last-seen
    refreshed) before the handler gave up; no sample is stored and no frame
    is written. *)
Theorem null_payload_registers_device (topic payload : string) (s : State) :
  JSON_parse payload = Some JNull ->
  let s' := snd (on_message topic payload s) in
  fst (on_message topic payload s) = Return tt /\
  getDeviceStatus (topic_device topic) s' =
    Some (match getDeviceStatus (topic_device topic) s with
          | Some d => set_lastSeen (Date_toISOString (clock s)) d
          | None => mkDevice (topic_device topic) (JStr "online")
                      (Date_toISOString (S (clock s))) JUndefined JUndefined JUndefined JUndefined
          end) /\
  sensorData s' = sensorData s /\
  wire s' = wire s /\
  console s' = console s ++ [Log "MQTT message received on topic";
                             Error "Could not parse incoming MQTT message:"].
Proof.
  intros Hp. unfold topic_device, getDeviceStatus.
  remember (nth_error (split "/" topic) 1) as k eqn:Ek.
  unfold on_message. cbv zeta. rewrite <- Ek, Hp. js_unfold. unfold has. cbn.
  destruct (get k (iotDevices s)) as [d|] eqn:G; cbn;
    repeat (progress (rewrite ?G, ?get_set_same; cbn));
    rewrite <- ?app_assoc; repeat split.
Qed.

(** *** The registry's keys *)

Lemma keys_set (V : Type) (k : Key) (v : V) (m : Map V) :
  map fst (set k v m) = if has k m then map fst m else map fst m ++ [k].
Proof.
  unfold has. induction m as [|[k' v'] m IH]; simpl; [reflexivity|].
  destruct (key_eqb k k'); simpl; [reflexivity|].
  rewrite IH. now destruct (get k m).
Qed.

Lemma get_none_not_in (V : Type) (k : Key) (m : Map V) :
  get k m = None -> ~ In k (map fst m).
Proof.
  induction m as [|[k' v'] m IH]; simpl; [tauto|].
  destruct (key_eqb_spec k k') as [->|N]; [discriminate|].
  intros H [E|E]; [congruence | now apply IH].
Qed.

Lemma set_consistent k d m :
  id d = k ->
  Forall (fun entry : Key * Device => id (snd entry) = fst entry) m /\ NoDup (map fst m) ->
  Forall (fun entry : Key * Device => id (snd entry) = fst entry) (set k d m) /\
  NoDup (map fst (set k d m)).
Proof.
  intros Hd [Hf Hn]. split.
  - induction m as [|[k' d'] m IH]; simpl.
    + constructor; [exact Hd | constructor].
    + inversion_clear Hf as [|? ? H1 H2]. inversion_clear Hn as [|? ? H3 H4].
      destruct (key_eqb_spec k k') as [E|N]; constructor; simpl; auto.
      congruence.
  - rewrite keys_set. unfold has. destruct (get k m) eqn:G; [exact Hn|].
    apply NoDup_app; [exact Hn | repeat constructor; simpl; tauto |].
    intros x Hx [<-|[]]. now apply (get_none_not_in _ _ G).
Qed.

Lemma get_consistent k d m :
  Forall (fun entry : Key * Device => id (snd entry) = fst entry) m ->
  get k m = Some d -> id d = k.
Proof.
  induction m as [|[k' d'] m IH]; simpl; [discriminate|].
  intros Hf. inversion_clear Hf as [|? ? H1 H2]. simpl in *.
  destruct (key_eqb_spec k k') as [E|N]; [intros [= <-]; congruence | now apply IH].
Qed.

Lemma create_consistent k t :
  preserves registry_consistent
    (modify (with_iotDevices (set k
       (mkDevice k (JStr "online") t JUndefined JUndefined JUndefined JUndefined)))).
Proof. intros s H. unfold registry_consistent. cbn. now apply set_consistent. Qed.

Lemma assign_consistent k g :
  (forall d, id (g d) = id d) ->
  preserves registry_consistent (assign_device k g).
Proof.
  intros Hg s H. unfold registry_consistent. cbn.
  destruct (get k (iotDevices s)) as [d|] eqn:G; [|exact H].
  apply set_consistent; [|exact H].
  rewrite Hg. apply get_consistent with (m := iotDevices s); [apply H | exact G].
Qed.

Local Ltac consistent_leaf :=
  first [ apply create_consistent
        | apply assign_consistent; intros ?; reflexivity
        | let s := fresh in let H := fresh in intros s H; exact H ].

Lemma on_message_consistent topic payload :
  preserves registry_consistent (on_message topic payload).
Proof.
  unfold on_message, updateDevice, storeSensorData, updateDeviceStatus, handleNFCScan, read.
  preserve_with consistent_leaf.
Qed.

Lemma step_consistent s i : registry_consistent s -> registry_consistent (step s i).
Proof.
  intros H. destruct i;
    try (unfold registry_consistent, step;
         rewrite handle_iotDevices by (intros ? ?; discriminate); exact H).
  now apply on_message_consistent.
Qed.

Lemma run_from_consistent inputs s :
  registry_consistent s -> registry_consistent (run inputs s).
Proof.
  revert s. induction inputs as [|i inputs IH]; intros s H; [exact H|].
  simpl. apply IH. now apply step_consistent.
Qed.

(** X3: in every state the service reaches, each record of the registry is
    stored under its own id, and the list of all devices names no device
    twice. *)
Theorem registry_ids_unique (inputs : list Input) :
  let s := run inputs initial in
  (forall k d, getDeviceStatus k s = Some d -> id d = k) /\
  NoDup (map id (getAllDevices s)).
Proof.
  intros s.
  assert (H : registry_consistent s).
  { apply run_from_consistent. split; constructor. }
  destruct H as [Hf Hn]. split.
  - intros k d. now apply get_consistent.
  - unfold getAllDevices, values. rewrite map_map.
    replace (map (fun x => id (snd x)) (iotDevices s)) with (map fst (iotDevices s)); [exact Hn|].
    apply map_ext_Forall. revert Hf. apply Forall_impl. intros a Ha. now symmetry.
Qed.

(** *** Nothing is ever removed from the two maps *)

Lemma has_set (V : Type) (k D : Key) (v : V) (m : Map V) :
  has D (set k v m) = (key_eqb D k || has D m)%bool.
Proof.
  unfold has. destruct (key_eqb_spec D k) as [->|N]; simpl.
  - now rewrite get_set_same.
  - rewrite get_set_other by congruence. reflexivity.
Qed.

Local Ltac kept_leaf :=
  let s := fresh in let H := fresh in
  intros s H; cbn in *;
  repeat match goal with
         | |- context [match ?x with _ => _ end] => destruct x
         end;
  rewrite ?has_set, ?H, ?orb_true_r; auto.

Lemma handle_keeps_device D i :
  preserves (fun s => has D (iotDevices s) = true) (handle i).
Proof.
  destruct i;
    unfold handle, discard, initializeIoT, on_connect, on_close, set_connected, get_events,
      on_request_close, post_command, sendCommandToDevice, get_network_health,
      getNetworkHealth, on, removeListener,
      on_message, updateDevice, storeSensorData, updateDeviceStatus, handleNFCScan,
      assign_device, read, emit, now, console_log, console_warn, console_error;
    preserve_with kept_leaf.
Qed.

Lemma handle_keeps_samples D i :
  preserves (fun s => has D (sensorData s) = true) (handle i).
Proof.
  destruct i;
    unfold handle, discard, initializeIoT, on_connect, on_close, set_connected, get_events,
      on_request_close, post_command, sendCommandToDevice, get_network_health,
      getNetworkHealth, on, removeListener,
      on_message, updateDevice, storeSensorData, updateDeviceStatus, handleNFCScan,
      assign_device, read, emit, now, console_log, console_warn, console_error;
    preserve_with kept_leaf.
Qed.

(** X4: no input removes a device from the registry or a device's entry from
    the telemetry store: what is there stays there, whatever arrives. *)
Theorem entries_never_removed (D : Key) (inputs : list Input) (s : State) :
  (has D (iotDevices s) = true -> has D (iotDevices (run inputs s)) = true) /\
  (has D (sensorData s) = true -> has D (sensorData (run inputs s)) = true).
Proof.
  revert s. induction inputs as [|i inputs IH]; intros s; [now split|].
  simpl. split; intros H.
  - apply IH. now apply handle_keeps_device.
  - apply IH. now apply handle_keeps_samples.
Qed.

(** *** Samples only for registered devices *)

Lemma establishes_bind (P Q R : State -> Prop) A B (c : M State A) (k : A -> M State B) :
  establishes P c Q -> (forall a, establishes Q (k a) R) -> (forall s, Q s -> R s) ->
  establishes P (bind c k) R.
Proof.
  intros Hc Hk Hq s H. unfold bind. specialize (Hc s H).
  destruct (c s) as [[a|e|n] s']; simpl in *; auto.
  now apply Hk.
Qed.

Lemma updateDevice_registers k message :
  establishes store_within_registry (updateDevice k message)
    (fun s => store_within_registry s /\ has k (iotDevices s) = true).
Proof.
  intros s H. split.
  - intros D HD. rewrite updateDevice_sensorData in HD.
    assert (K : preserves (fun s => has D (iotDevices s) = true) (updateDevice k message)).
    { unfold updateDevice, assign_device, read, now. preserve_with kept_leaf. }
    apply K. now apply H.
  - destruct (updateDevice_known k message s) as [d Hd]. unfold has. now rewrite Hd.
Qed.

Lemma storeSensorData_get_other k D data s :
  k <> D -> get D (sensorData (snd (storeSensorData k data s))) = get D (sensorData s).
Proof.
  intros N. js_unfold. unfold has.
  destruct (get k (sensorData s)) as [h|] eqn:E; simpl.
  - rewrite E. now rewrite get_set_other.
  - rewrite get_set_same. now rewrite !get_set_other.
Qed.

Lemma storeSensorData_within k data :
  establishes (fun s => store_within_registry s /\ has k (iotDevices s) = true)
    (storeSensorData k data) store_within_registry.
Proof.
  intros s [H Hk] D HD.
  assert (Hd : iotDevices (snd (storeSensorData k data s)) = iotDevices s).
  { assert (F : frames iotDevices (storeSensorData k data))
      by (unfold storeSensorData, emit, now; frame).
    apply F. }
  rewrite Hd. destruct (key_eqb_spec k D) as [<-|N]; [exact Hk|].
  apply H. unfold has in *. now rewrite storeSensorData_get_other in HD.
Qed.

Lemma updateDeviceStatus_within k st :
  establishes (fun s => store_within_registry s /\ has k (iotDevices s) = true)
    (updateDeviceStatus k st) store_within_registry.
Proof.
  intros s [H Hk] D HD. rewrite updateDeviceStatus_sensorData in HD.
  assert (K : preserves (fun s => has D (iotDevices s) = true) (updateDeviceStatus k st)).
  { unfold updateDeviceStatus, assign_device, read, emit. preserve_with kept_leaf. }
  apply K. now apply H.
Qed.

Lemma on_message_within topic payload :
  preserves store_within_registry (on_message topic payload).
Proof.
  unfold on_message. cbv zeta.
  apply preserves_try_catch; [|intros ? s H; exact H].
  apply preserves_bind; [destruct (JSON_parse payload); intros s H; exact H|].
  intros message. apply preserves_bind; [intros s H; exact H|]. intros _.
  apply establishes_bind
    with (Q := fun s => store_within_registry s /\
                        has (nth_error (split "/" topic) 1) (iotDevices s) = true).
  - apply updateDevice_registers.
  - intros _. destruct (is_case _ "telemetry"); [apply storeSensorData_within|].
    destruct (is_case _ "status"); [apply updateDeviceStatus_within|].
    destruct (is_case _ "nfc"); [|intros s [H _]; exact H].
    intros s [H _] D HD. rewrite handleNFCScan_sensorData in HD.
    unfold handleNFCScan, console_log, emit, bind, modify. cbn. now apply H.
  - intros s [H _]. exact H.
Qed.

(** X5: in every state the service reaches, a device that has an entry in the
    telemetry store has a record in the registry. *)
Theorem samples_only_for_registered (inputs : list Input) (D : Key) :
  let s := run inputs initial in
  has D (sensorData s) = true -> has D (iotDevices s) = true.
Proof.
  intros s. revert D. change (store_within_registry s). subst s.
  induction inputs as [|i inputs IH] using rev_ind.
  - intros D H. discriminate H.
  - rewrite run_app. simpl. fold (step (run inputs initial) i).
    destruct i;
      try (intros D HD; unfold step in *;
           rewrite handle_sensorData in HD by (intros ? ?; discriminate);
           rewrite handle_iotDevices by (intros ? ?; discriminate);
           now apply IH).
    now apply on_message_within.
Qed.

(** *** Frames written to the observers *)

Lemma deliver_observers name data ls :
  Forall (fun f => In (frame_observer f) (map (fun r : string * Listener => (snd r).(observer)) ls))
         (deliver name data ls).
Proof.
  unfold deliver. induction ls as [|[n l] ls IH]; simpl; [constructor|].
  destruct (String.eqb n name); simpl.
  - constructor; [now left|]. revert IH. apply Forall_impl. intros f Hf. now right.
  - revert IH. apply Forall_impl. intros f Hf. now right.
Qed.

Lemma emit_extends s0 name data : preserves (wire_extended s0) (emit name data).
Proof.
  intros s [He (new & Hw & Hf)]. split; [exact He|].
  exists (new ++ deliver name data (iotEvents s0)). cbn. split.
  - now rewrite Hw, He, app_assoc.
  - apply Forall_app. split; [exact Hf | apply deliver_observers].
Qed.

Local Ltac extends_leaf :=
  first [ apply emit_extends
        | let s := fresh in let H := fresh in intros s H; exact H ].

Lemma handle_extends s0 i :
  i <> OpenStream -> (forall o, i <> CloseStream o) ->
  preserves (wire_extended s0) (handle i).
Proof.
  intros N1 N2. destruct i; try congruence; try (now elim (N2 o));
    unfold handle, discard, initializeIoT, on_connect, on_close, set_connected,
      post_command, sendCommandToDevice, get_network_health, getNetworkHealth,
      on_message, updateDevice, storeSensorData, updateDeviceStatus, handleNFCScan,
      assign_device, read, now, console_log, console_warn, console_error;
    preserve_with extends_leaf.
Qed.

(** X6: in every state the service reaches, an input only adds frames at the
    end of what was written so far, and every frame it adds goes to an
    observer whose stream is open: nothing is written when no stream is
    open, and nothing to an observer that has disconnected. *)
Theorem frames_only_to_open_observers (inputs : list Input) (i : Input) :
  let s := run inputs initial in
  exists new,
    wire (step s i) = wire s ++ new /\
    Forall (fun f => In (frame_observer f) (open_streams s)) new.
Proof.
  intros s. destruct (run_bus_consistent inputs) as (He & _). fold s in He.
  assert (Hstream : forall j, frames wire (handle j) -> exists new,
            wire (step s j) = wire s ++ new /\
            Forall (fun f => In (frame_observer f) (open_streams s)) new).
  { intros j F. exists []. split; [|constructor]. unfold step. now rewrite F, app_nil_r. }
  assert (Hother : i <> OpenStream -> (forall o, i <> CloseStream o) -> exists new,
            wire (step s i) = wire s ++ new /\
            Forall (fun f => In (frame_observer f) (open_streams s)) new).
  { intros N1 N2.
    destruct (@handle_extends s i N1 N2 s) as (_ & new & Hw & Hf).
    { split; [reflexivity|]. exists []. split; [now rewrite app_nil_r | constructor]. }
    exists new. split; [exact Hw|]. revert Hf. apply Forall_impl. intros f Hf.
    rewrite He in Hf. apply in_map_iff in Hf. destruct Hf as (r & <- & Hr).
    now apply in_listeners_observer. }
  destruct i; try (apply Hother; [discriminate | intros ?; discriminate]).
  - apply Hstream. unfold handle, discard, get_events, on. frame.
  - apply Hstream. unfold handle, on_request_close, removeListener. frame.
Qed.

Lemma deliver_flat_map name data l :
  In name ["telemetry"; "status"; "nfc_scan"] ->
  deliver name data (flat_map listeners_of l) = map (fun o => (o, name, data)) l.
Proof.
  intros H. simpl in H. unfold deliver.
  destruct H as [<-|[<-|[<-|[]]]]; induction l as [|o l IH]; simpl;
    try reflexivity; now rewrite IH.
Qed.

Lemma updateDevice_bus k message :
  frames (fun s => (wire s, iotEvents s)) (updateDevice k message).
Proof. unfold updateDevice, assign_device, read, now. frame. Qed.

Lemma storeSensorData_wire k data s :
  wire (snd (storeSensorData k data s)) =
  wire s ++ deliver "telemetry"
              (TelemetryEvent k (mkTelemetry data (Date_toISOString (clock s)))) (iotEvents s).
Proof. js_unfold. destruct (has k (sensorData s)); reflexivity. Qed.

Lemma updateDeviceStatus_wire k st s :
  readable st = true ->
  wire (snd (updateDeviceStatus k st s)) =
  wire s ++ deliver "status" (StatusEvent k st) (iotEvents s).
Proof.
  intros R. js_unfold.
  destruct (get k (iotDevices s)); destruct st; try discriminate R; reflexivity.
Qed.

Lemma handleNFCScan_wire k data s :
  wire (snd (handleNFCScan k data s)) =
  wire s ++ deliver "nfc_scan" (ScanEvent k data) (iotEvents s).
Proof. reflexivity. Qed.

(** X7: a readable record on a topic of kind [telemetry], [status] or [nfc]
    is written once to every open stream, in the order in which the streams
    were opened, under the category [telemetry], [status] or [nfc_scan]; a
    record of another kind is written to nobody.  For telemetry the frame
    carries the very sample that was appended to the device's history. *)
Theorem record_reaches_every_open_stream
    (inputs : list Input) (topic payload kind : string) (message : JsVal) :
  JSON_parse payload = Some message ->
  readable message = true ->
  topic_kind topic = Some kind ->
  let s := run inputs initial in
  let s' := step s (Message topic payload) in
  let D := topic_device topic in
  exists sample,
    value sample = message /\
    wire s' = wire s ++
      match published kind D message sample with
      | Some (name, data) => map (fun o => (o, name, data)) (open_streams s)
      | None => []
      end /\
    stored_samples D s' =
      if String.eqb kind "telemetry"
      then lastn 200 (stored_samples D s ++ [sample])
      else stored_samples D s.
Proof.
  intros Hp R Hk s s' D.
  destruct (run_bus_consistent inputs) as (He & _). fold s in He.
  destruct (run_stored D inputs) as [Hlen _]. fold s in Hlen.
  subst s' D. unfold step, handle, topic_kind, topic_device in *.
  remember (nth_error (split "/" topic) 1) as k eqn:Ek.
  remember (on_message topic payload s) as r eqn:Er.
  unfold on_message, try_catch in Er. cbv zeta in Er. rewrite <- Ek, Hk, Hp in Er.
  cbn [is_case] in Er.
  unfold bind at 1 in Er. cbn [ret] in Er. unfold bind at 1 in Er.
  cbn [console_log modify] in Er. unfold bind at 1 in Er.
  set (s1 := with_console _ s) in Er.
  pose proof (updateDevice_outcome k message s1) as Ho.
  pose proof (updateDevice_bus k message s1) as Hb.
  pose proof (updateDevice_sensorData k message s1) as Hsd.
  destruct (updateDevice k message s1) as [o s2]. cbn [fst snd] in *.
  rewrite R in Ho. subst o. injection Hb as Hw Hev. cbn in Hw, Hev, Hsd.
  exists (mkTelemetry message (Date_toISOString (clock s2))). split; [reflexivity|].
  unfold published.
  destruct (String.eqb kind "telemetry") eqn:K1.
  - pose proof (storeSensorData_returns k message s2) as Hr.
    pose proof (storeSensorData_wire k message s2) as Hsw.
    pose proof (@storeSensorData_same _ k message s2) as Hss.
    destruct (storeSensorData k message s2) as [o s3]. cbn [fst snd] in *. subst o r.
    cbn [fst snd]. split.
    + rewrite Hsw, Hw, Hev, He. now rewrite deliver_flat_map by (simpl; tauto).
    + unfold stored_samples in *. rewrite Hsd in Hss. now apply Hss.
  - destruct (String.eqb kind "status") eqn:K2.
    + pose proof (@updateDeviceStatus_wire k message s2 R) as Hsw.
      pose proof (updateDeviceStatus_sensorData k message s2) as Hss.
      destruct (updateDeviceStatus k message s2) as [[| |] s3]; cbn [fst snd] in *; subst r;
        (split; [ cbn; rewrite Hsw, Hw, Hev, He; now rewrite deliver_flat_map by (simpl; tauto)
                | unfold stored_samples; cbn; now rewrite Hss, Hsd ]).
    + destruct (String.eqb kind "nfc") eqn:K3; subst r.
      * pose proof (handleNFCScan_wire k message s2) as Hsw.
        pose proof (handleNFCScan_sensorData k message s2) as Hss.
        destruct (handleNFCScan k message s2) as [[| |] s3]; cbn [fst snd] in *;
          (split; [ cbn; rewrite Hsw, Hw, Hev, He;
                    now rewrite deliver_flat_map by (simpl; tauto)
                  | unfold stored_samples; cbn; now rewrite Hss, Hsd ]).
      * cbn. split; [now rewrite Hw, app_nil_r|].
        unfold stored_samples. now rewrite Hsd.
Qed.

(** *** History queries *)

Lemma lastn_lastn (A : Type) (n m : nat) (l : list A) :
  lastn n (lastn m l) = lastn (Nat.min n m) l.
Proof.
  unfold lastn. rewrite length_skipn, skipn_skipn. f_equal. lia.
Qed.

Lemma getSensorHistory_positive D n s :
  0 < n -> getSensorHistory D (Some (Int (Z.of_nat n))) s = lastn n (stored_samples D s).
Proof.
  intros H. unfold getSensorHistory. fold (stored_samples D s).
  now apply slice_neg_lastn.
Qed.

(** X8: in every state the service reaches, a history query with a positive
    limit [n] returns the last [min n 200] telemetry records received for
    the device, oldest first; without a limit it returns the last 50. *)
Theorem history_returns_most_recent (D : Key) (inputs : list Input) (n : nat) :
  0 < n ->
  let s := run inputs initial in
  map value (getSensorHistory D (Some (Int (Z.of_nat n))) s)
    = lastn (Nat.min n 200) (telemetry_for D inputs) /\
  map value (getSensorHistory D None s) = lastn 50 (telemetry_for D inputs).
Proof.
  intros Hn s. destruct (run_stored D inputs) as [_ Hv]. fold s in Hv. split.
  - rewrite getSensorHistory_positive by exact Hn.
    now rewrite map_lastn, Hv, lastn_lastn.
  - change (getSensorHistory D None s)
      with (getSensorHistory D (Some (Int (Z.of_nat 50))) s).
    rewrite getSensorHistory_positive by lia.
    now rewrite map_lastn, Hv, lastn_lastn.
Qed.

(** X9: a limit of 0 or [NaN] does not give an empty history but all of the
    device's stored samples, and a negative limit [-k] gives the stored
    samples without the [k] oldest.  The route asks for 100 when the request
    has no limit or an empty one, and passes on what [parseInt] makes of any
    other text. *)
Theorem history_limit_edges (deviceId : string) (s : State) :
  deviceId <> "" ->
  let D := Some deviceId in
  getSensorHistory D (Some (Int 0)) s = stored_samples D s /\
  getSensorHistory D (Some NaN) s = stored_samples D s /\
  (forall k : nat, getSensorHistory D (Some (Int (- Z.of_nat k))) s = skipn k (stored_samples D s)) /\
  fst (get_history deviceId None s) = Return (mkResponse 200 (HistoryBody (lastn 100 (stored_samples D s)))) /\
  fst (get_history deviceId (Some "") s) = Return (mkResponse 200 (HistoryBody (lastn 100 (stored_samples D s)))) /\
  (forall text, text <> "" ->
     fst (get_history deviceId (Some text) s) =
       Return (mkResponse 200 (HistoryBody (getSensorHistory D (Some (parseInt text)) s)))).
Proof.
  intros Hd D. subst D.
  assert (Hn : String.eqb deviceId "" = false) by now apply String.eqb_neq.
  assert (H100 : getSensorHistory (Some deviceId) (Some (Int 100)) s = lastn 100 (stored_samples (Some deviceId) s)).
  { change (Int 100) with (Int (Z.of_nat 100)). apply getSensorHistory_positive. lia. }
  assert (H0 : forall start, to_integer start = 0%Z ->
            slice (stored_samples (Some deviceId) s) start = stored_samples (Some deviceId) s).
  { intros start E. unfold slice. rewrite E. cbn.
    replace (Z.to_nat (Z.min 0 (Z.of_nat (length (stored_samples (Some deviceId) s))))) with 0 by lia.
    reflexivity. }
  split; [now apply H0|]. split; [now apply H0|].
  split; [|split; [|split]].
  - intros k. unfold getSensorHistory, slice, neg, to_integer. fold (stored_samples (Some deviceId) s).
    rewrite Z.opp_involutive.
    destruct (Z.ltb_spec (Z.of_nat k) 0); [lia|].
    destruct (Nat.le_gt_cases k (length (stored_samples (Some deviceId) s))).
    + f_equal. lia.
    + rewrite !skipn_all2; [reflexivity | lia | lia].
  - unfold get_history, try_catch, bind, gets, ret. rewrite Hn.
    cbv beta iota zeta. cbn [fst]. now rewrite H100.
  - unfold get_history, try_catch, bind, gets, ret. rewrite Hn.
    change (String.eqb "" "") with true. cbv beta iota zeta. cbn [fst]. now rewrite H100.
  - intros text Ht. apply String.eqb_neq in Ht.
    unfold get_history, try_catch, bind, gets, ret. rewrite Hn, Ht. reflexivity.
Qed.

(** *** The health report *)

(** Whatever the registry holds, the health report is produced without an
    error, and its counts are taken from the list of all devices. *)
Lemma health_counts (s : State) :
  exists h,
    fst (getNetworkHealth s) = Return h /\
    totalDevices h = length (getAllDevices s) /\
    onlineDevices h = length (filter is_online (getAllDevices s)) /\
    onlineDevices h + offlineDevices h = totalDevices h.
Proof.
  unfold getNetworkHealth, bind, gets, now, ret.
  destruct (getAllDevices s) as [|d l] eqn:E.
  - cbn. eexists. repeat split.
  - cbn [length Nat.eqb]. eexists. split; [reflexivity|]. cbn [totalDevices onlineDevices
      offlineDevices].
    pose proof (filter_length_le is_online (d :: l)) as Hle. cbn [length] in Hle.
    repeat split. lia.
Qed.

(** The keys of the registry are the devices of the parsed messages, in
    the order of their first message. *)
Lemma has_existsb (V : Type) (k : Key) (m : Map V) :
  has k m = existsb (key_eqb k) (map fst m).
Proof.
  unfold has. induction m as [|[k' v'] m IH]; simpl; [reflexivity|].
  destruct (key_eqb k k'); [reflexivity | exact IH].
Qed.

Lemma add_device_known ids D :
  existsb (key_eqb D) ids = true -> add_device ids D = ids.
Proof. unfold add_device. now intros ->. Qed.

Lemma add_device_twice ids D : add_device (add_device ids D) D = add_device ids D.
Proof.
  apply add_device_known. unfold add_device.
  destruct (existsb (key_eqb D) ids) eqn:E; [exact E|].
  rewrite existsb_app. simpl. destruct (key_eqb_spec D D); [|congruence].
  now rewrite orb_true_r.
Qed.

Lemma create_adds k d ids :
  preserves (fun s => add_device (map fst (iotDevices s)) k = ids)
    (modify (with_iotDevices (set k d))).
Proof.
  intros s H. cbn. rewrite keys_set, has_existsb.
  destruct (existsb (key_eqb k) (map fst (iotDevices s))) eqn:E; [exact H|].
  assert (A : add_device (map fst (iotDevices s)) k = map fst (iotDevices s) ++ [k])
    by (unfold add_device; now rewrite E).
  rewrite <- A, add_device_twice. exact H.
Qed.

Lemma assign_keys k g : frames (fun s => map fst (iotDevices s)) (assign_device k g).
Proof.
  intros s. cbn. destruct (get k (iotDevices s)) as [d|] eqn:G; [|reflexivity].
  rewrite keys_set. unfold has. now rewrite G.
Qed.

Local Ltac adds_leaf :=
  first [ apply create_adds
        | apply frames_preserves with (f := fun s => map fst (iotDevices s));
          [ let H := fresh in intros ? ? H ?; now rewrite H
          | first [ apply assign_keys | intros ?; reflexivity ] ] ].

Lemma on_message_adds topic payload ids :
  preserves (fun s => add_device (map fst (iotDevices s)) (topic_device topic) = ids)
    (on_message topic payload).
Proof.
  unfold topic_device, on_message, updateDevice, storeSensorData, updateDeviceStatus,
    handleNFCScan, read.
  preserve_with adds_leaf.
Qed.

Lemma on_message_registers topic payload message s :
  JSON_parse payload = Some message ->
  has (topic_device topic) (iotDevices (snd (on_message topic payload s))) = true.
Proof.
  intros Hp. unfold topic_device, on_message, try_catch. cbv zeta. rewrite Hp.
  remember (nth_error (split "/" topic) 1) as k eqn:Ek. clear Ek.
  unfold bind at 1. cbn [ret]. unfold bind at 1. cbn [console_log modify].
  set (s1 := with_console _ s).
  set (tail := if is_case _ "telemetry" then _ else _).
  assert (T : preserves (fun s => has k (iotDevices s) = true) tail).
  { subst tail.
    unfold storeSensorData, updateDeviceStatus, handleNFCScan, assign_device, read, emit,
      now, console_log.
    preserve_with ltac:(let s := fresh in let H := fresh in
                        intros s H; cbn in *;
                        repeat match goal with
                               | |- context [match ?x with _ => _ end] => destruct x
                               end;
                        rewrite ?has_set, ?H, ?orb_true_r; auto). }
  assert (K : has k (iotDevices (snd (updateDevice k message s1))) = true).
  { destruct (updateDevice_known k message s1) as [d Hd]. unfold has. now rewrite Hd. }
  unfold bind. destruct (updateDevice k message s1) as [[[]|e|n] s2]; cbn [snd] in K.
  - specialize (T s2 K). destruct (tail s2) as [[[]|e|n] s3]; exact T.
  - exact K.
  - exact K.
Qed.

Lemma step_keys s i :
  map fst (iotDevices (step s i)) =
  fold_left add_device (named_device i) (map fst (iotDevices s)).
Proof.
  destruct i;
    try (unfold step; rewrite handle_iotDevices by (intros ? ?; discriminate); reflexivity).
  unfold step. cbn [handle named_device].
  destruct (JSON_parse payload) as [message|] eqn:Hp.
  - cbn [fold_left].
    pose proof (@on_message_adds topic payload _ s eq_refl) as Ha.
    rewrite <- Ha. symmetry. apply add_device_known.
    rewrite <- has_existsb. now apply on_message_registers with (message := message).
  - unfold on_message, try_catch, bind. now rewrite Hp.
Qed.

Lemma run_keys inputs s :
  map fst (iotDevices (run inputs s)) =
  fold_left add_device (flat_map named_device inputs) (map fst (iotDevices s)).
Proof.
  revert s. induction inputs as [|i inputs IH]; intros s; [reflexivity|].
  cbn [run fold_left flat_map]. rewrite fold_left_app. fold (step s i).
  change (fold_left step inputs (step s i)) with (run inputs (step s i)).
  now rewrite IH, step_keys.
Qed.

(** The status of a record follows the status records of its device. *)
Lemma assign_status_is D v k g :
  (forall d, status (g d) = status d) ->
  preserves (status_is D v) (assign_device k g).
Proof.
  intros Hg s H. unfold status_is in *. cbn.
  destruct (get k (iotDevices s)) as [d0|] eqn:G; [|exact H].
  destruct (key_eqb_spec k D) as [->|N].
  - rewrite get_set_same, Hg. now rewrite G in H.
  - now rewrite get_set_other by exact N.
Qed.

Local Ltac status_is_leaf :=
  first [ apply assign_status_is; intros ?; reflexivity
        | apply frames_preserves with (f := iotDevices);
          [ let H := fresh in intros ? ? H ?; unfold status_is; now rewrite H
          | intros ?; reflexivity ] ].

Lemma updateDevice_status_is D v k message :
  preserves (status_is D v) (updateDevice k message).
Proof.
  assert (K : preserves (status_is D v)
                (t <- now ;;
                 assign_device k (set_lastSeen t) ;;;
                 battery <- read message "battery" ;;
                 when (truthy battery) (assign_device k (set_batteryLevel battery)) ;;;
                 signal <- read message "signal" ;;
                 when (truthy signal) (assign_device k (set_signalStrength signal)) ;;;
                 loc <- read message "location" ;;
                 when (truthy loc) (assign_device k (set_location loc)))%js).
  { unfold read. preserve_with status_is_leaf. }
  intros s H. unfold updateDevice. unfold bind at 1. cbn [gets]. unfold has.
  destruct (get k (iotDevices s)) as [d|] eqn:G; cbn [negb when].
  - unfold bind at 1. cbn [ret]. now apply K.
  - unfold bind at 1 2. cbn [now modify]. apply K. unfold status_is in *. cbn.
    destruct (key_eqb_spec k D) as [->|N].
    + rewrite get_set_same. rewrite G in H. now rewrite H.
    + now rewrite get_set_other by exact N.
Qed.

Lemma on_message_status_is D v topic payload :
  record_of D "status" (Message topic payload) = [] ->
  preserves (status_is D v) (on_message topic payload).
Proof.
  unfold record_of. intros Hr.
  destruct (key_eqb_spec (topic_device topic) D) as [E|N].
  2:{ apply frames_preserves with (f := entries D); [|now apply on_message_entries].
      unfold entries, status_is. intros s s' [= E1 E2] H. now rewrite E1. }
  simpl in Hr. unfold topic_kind in Hr. unfold on_message. cbv zeta.
  destruct (is_case (nth_error (split "/" topic) 2) "status") eqn:K.
  - intros s H. unfold try_catch, bind at 1.
    destruct (JSON_parse payload) as [message|]; [|exact H].
    assert (R : readable message = false) by (destruct message; try discriminate Hr; reflexivity).
    cbn [throw ret]. unfold bind at 1. cbn [console_log modify].
    unfold bind at 1.
    set (s1 := with_console _ s).
    pose proof (updateDevice_outcome (nth_error (split "/" topic) 1) message s1) as Ho.
    pose proof (@updateDevice_status_is D v (nth_error (split "/" topic) 1) message s1 H) as Hq.
    destruct (updateDevice _ message s1) as [o s2]. cbn [fst snd] in *.
    rewrite R in Ho. subst o. exact Hq.
  - apply preserves_try_catch; [|intros ?; intros s H; exact H].
    apply preserves_bind; [destruct (JSON_parse payload); intros s H; exact H|].
    intros message. apply preserves_bind; [intros s H; exact H|]. intros _.
    apply preserves_bind; [apply updateDevice_status_is|]. intros _.
    destruct (is_case _ "telemetry");
      [unfold storeSensorData, emit, now; preserve_with status_is_leaf|].
    destruct (is_case _ "nfc");
      [unfold handleNFCScan, emit, console_log; preserve_with status_is_leaf|].
    apply preserves_ret.
Qed.

Lemma status_record_leaves topic payload message s :
  topic_kind topic = Some "status" ->
  JSON_parse payload = Some message ->
  readable message = true ->
  status_is (topic_device topic) (or_else (supplied message "status") (JStr "online"))
    (snd (on_message topic payload s)).
Proof.
  unfold topic_kind, topic_device, status_is. intros Hk Hp R.
  unfold on_message, try_catch. cbv zeta. rewrite Hk, Hp. cbn [is_case].
  unfold bind at 1. cbn [ret]. unfold bind at 1. cbn [console_log modify]. unfold bind at 1.
  remember (nth_error (split "/" topic) 1) as k eqn:Ek. clear Ek.
  set (s1 := with_console _ s).
  pose proof (updateDevice_outcome k message s1) as Ho.
  pose proof (@updateDevice_leaves k message s1 R) as Hd.
  destruct (updateDevice k message s1) as [o s2]. cbn [fst snd] in *.
  rewrite R in Ho. subst o.
  change (String.eqb "status" "telemetry") with false.
  change (String.eqb "status" "status") with true. cbv iota.
  unfold updateDeviceStatus, bind, gets, read, assign_device, emit, modify, ret.
  rewrite Hd. unfold supplied.
  destruct message; try discriminate R; cbn;
    rewrite ?Hd; cbn; rewrite ?get_set_same; cbn; rewrite ?get_set_same; reflexivity.
Qed.

Lemma record_of_cases D k i :
  record_of D k i = [] \/
  exists topic payload message,
    i = Message topic payload /\ topic_device topic = D /\ topic_kind topic = Some k /\
    JSON_parse payload = Some message /\ readable message = true /\
    record_of D k i = [message].
Proof.
  destruct i; try (now left). unfold record_of.
  destruct (key_eqb_spec (topic_device topic) D) as [E|N]; [|now left].
  unfold is_case. destruct (topic_kind topic) as [x|] eqn:Hk; [|now left].
  destruct (String.eqb_spec x k) as [->|Nk]; [|now left]. cbn [andb].
  destruct (JSON_parse payload) as [message|] eqn:Hp; [|now left].
  destruct message; try (now left);
    right; eexists topic, payload, _; repeat split; eauto.
Qed.

Lemma run_status_is D inputs :
  status_is D (reported_status D inputs) (run inputs initial).
Proof.
  induction inputs as [|i inputs IH] using rev_ind; [reflexivity|].
  rewrite run_app. cbn [run fold_left]. fold (step (run inputs initial) i).
  unfold reported_status in *. rewrite flat_map_app, rev_app_distr. cbn [flat_map].
  rewrite app_nil_r.
  destruct (record_of_cases D "status" i)
    as [E | (topic & payload & message & -> & Hd & Hk & Hp & R & E)]; rewrite E.
  - cbn [rev app].
    destruct i;
      try (unfold status_is, step in *;
           rewrite handle_iotDevices by (intros ? ?; discriminate); exact IH).
    now apply on_message_status_is.
  - cbn [rev app]. subst D. now apply status_record_leaves.
Qed.

Lemma in_get (V : Type) (k : Key) (v : V) (m : Map V) :
  NoDup (map fst m) -> In (k, v) m -> get k m = Some v.
Proof.
  induction m as [|[k' v'] m IH]; simpl; [tauto|].
  intros Hn. inversion_clear Hn as [|? ? H1 H2].
  intros [[= -> ->]|Hin].
  - now destruct (key_eqb_spec k k).
  - destruct (key_eqb_spec k k') as [->|N]; [|now apply IH].
    exfalso. apply H1. apply in_map_iff. now exists (k', v).
Qed.

Lemma online_by_key (f : Key -> JsVal) (m : Map Device) :
  (forall k d, In (k, d) m -> status d = f k) ->
  length (filter is_online (values m)) =
  length (filter (fun k => is_string "online" (f k)) (map fst m)).
Proof.
  induction m as [|[k d] m IH]; intros H; [reflexivity|].
  cbn [values map filter fst snd].
  replace (is_online d) with (is_string "online" (f k))
    by (rewrite <- (H k d) by (now left); reflexivity).
  specialize (IH (fun k' d' Hin => H k' d' (or_intror Hin))).
  unfold values in IH.
  destruct (is_string "online" (f k)); cbn [length]; now rewrite IH.
Qed.

(** X10: the health report of the running service follows what the devices
    reported.  The list of all devices holds one device per id named by a
    message whose payload parsed, in the order of their first message; the
    status of each is the one its latest readable status record asked for,
    ['online'] when there was none; the report is produced without an error;
    its total is the number of those ids, its online count the number of
    those whose reported status is the string ['online'], and its offline
    count the number of all the others. *)
Theorem health_follows_status_reports (inputs : list Input) :
  let s := run inputs initial in
  let online D := is_string "online" (reported_status D inputs) in
  map id (getAllDevices s) = device_ids inputs /\
  (forall d, In d (getAllDevices s) -> status d = reported_status (id d) inputs) /\
  exists h,
    fst (getNetworkHealth s) = Return h /\
    totalDevices h = length (device_ids inputs) /\
    onlineDevices h = length (filter online (device_ids inputs)) /\
    offlineDevices h = length (filter (fun D => negb (online D)) (device_ids inputs)).
Proof.
  intros s online.
  assert (Hc : registry_consistent s).
  { apply run_from_consistent. split; constructor. }
  destruct Hc as [Hf Hn].
  assert (Hk : map fst (iotDevices s) = device_ids inputs) by apply run_keys.
  assert (Hid : map id (getAllDevices s) = map fst (iotDevices s)).
  { unfold getAllDevices, values. rewrite map_map.
    apply map_ext_Forall. revert Hf. apply Forall_impl. now intros a Ha. }
  assert (Hst : forall k d, In (k, d) (iotDevices s) -> status d = reported_status k inputs).
  { intros k d Hin. pose proof (run_status_is k inputs) as H. fold s in H.
    unfold status_is in H. now rewrite (in_get _ _ _ Hn Hin) in H. }
  split; [now rewrite Hid|]. split.
  - intros d Hin. unfold getAllDevices, values in Hin. apply in_map_iff in Hin.
    destruct Hin as [[k d'] [E Hin]]. cbn in E. subst d'.
    rewrite Forall_forall in Hf. pose proof (Hf _ Hin) as Hi. cbn [fst snd] in Hi.
    rewrite Hi. now apply Hst.
  - destruct (health_counts s) as (h & Hh & Ht & Ho & Hsum).
    exists h. split; [exact Hh|].
    assert (Ht' : totalDevices h = length (device_ids inputs)).
    { rewrite Ht, <- Hk. unfold getAllDevices, values. now rewrite !length_map. }
    assert (Ho' : onlineDevices h = length (filter online (device_ids inputs))).
    { rewrite Ho, <- Hk. unfold getAllDevices.
      apply online_by_key with (f := fun k => reported_status k inputs). exact Hst. }
    split; [exact Ht'|]. split; [exact Ho'|].
    pose proof (filter_length online (device_ids inputs)) as Hl. lia.
Qed.

(** *** Status records *)

(** X11: a readable record on a device's status topic leaves the device with
    the status the record supplies, whatever value that is, or ['online']
    when it supplies none; the firmware becomes the supplied one, and stays
    what it was when the record supplies none. *)
Theorem status_record_is_stored (topic payload : string) (message : JsVal) (s : State) :
  topic_kind topic = Some "status" ->
  JSON_parse payload = Some message ->
  readable message = true ->
  exists d,
    getDeviceStatus (topic_device topic) (snd (on_message topic payload s)) = Some d /\
    status d = or_else (supplied message "status") (JStr "online") /\
    firmware d = or_else (supplied message "firmware")
                   match getDeviceStatus (topic_device topic) s with
                   | Some d0 => firmware d0
                   | None => JUndefined
                   end.
Proof.
  unfold topic_kind, topic_device, getDeviceStatus. intros Hk Hp R.
  unfold on_message, try_catch. cbv zeta. rewrite Hk, Hp. cbn [is_case].
  unfold bind at 1. cbn [ret]. unfold bind at 1. cbn [console_log modify]. unfold bind at 1.
  remember (nth_error (split "/" topic) 1) as k eqn:Ek. clear Ek.
  set (s1 := with_console _ s).
  pose proof (updateDevice_outcome k message s1) as Ho.
  pose proof (@updateDevice_leaves k message s1 R) as Hd.
  destruct (updateDevice k message s1) as [o s2]. cbn [fst snd] in *.
  rewrite R in Ho. subst o.
  change (String.eqb "status" "telemetry") with false.
  change (String.eqb "status" "status") with true. cbv iota.
  unfold updateDeviceStatus, bind, gets, read, assign_device, emit, modify, ret.
  rewrite Hd. unfold supplied.
  destruct message; try discriminate R; cbn;
    rewrite ?Hd; cbn; rewrite ?get_set_same; cbn; rewrite ?get_set_same;
    (eexists; split; [reflexivity|]); cbn;
    destruct (get k (iotDevices s)); split; reflexivity.
Qed.

(** *** Commands handed to the broker client *)

Lemma step_publish_calls s i :
  is_startup i = false ->
  option_map publish_calls (mqttClient (step s i)) =
  option_map (fun c => publish_calls c ++ accepted_command i) (mqttClient s).
Proof.
  intros Hi.
  assert (Hf : frames mqttClient (handle i) ->
               option_map publish_calls (mqttClient (step s i)) =
               option_map (fun c => publish_calls c ++ []) (mqttClient s)).
  { intros F. unfold step. rewrite F. destruct (mqttClient s); simpl; [|reflexivity].
    now rewrite app_nil_r. }
  destruct i; try discriminate Hi;
    try solve [apply Hf;
         unfold handle, discard, get_events, on_request_close, get_network_health,
           getNetworkHealth, on, removeListener,
           on_message, updateDevice, storeSensorData, updateDeviceStatus, handleNFCScan,
           assign_device, read, emit, now, console_log, console_warn, console_error;
         frame].
  - unfold step, handle, on_connect, set_connected, console_log, bind, modify. simpl.
    destruct (mqttClient s); simpl; [now rewrite app_nil_r | reflexivity].
  - unfold step, handle, on_close, set_connected, console_warn, bind, modify. simpl.
    destruct (mqttClient s); simpl; [now rewrite app_nil_r | reflexivity].
  - unfold step, handle, discard, post_command, accepted_command.
    destruct (String.eqb deviceId "" || negb (isString command) || negb (isObject payload))%bool.
    + cbn. destruct (mqttClient s); cbn; rewrite ?app_nil_r; reflexivity.
    + unfold sendCommandToDevice, console_error, try_catch, bind, gets, modify, ret, throw.
      cbn. destruct (mqttClient s) eqn:E; cbn; rewrite ?E; reflexivity.
Qed.

(** X12: between two startups of the service, what the broker client was handed
    is exactly the sequence of command requests that passed validation, in
    the order they came, each under the topic [iot/<deviceId>/command]:
    whether the connection was up at the time plays no role, a rejected
    request hands over nothing, and no other input adds or removes a
    command.  Before the first startup there is no client and nothing is
    handed over. *)
Theorem commands_handed_over_in_order (inputs : list Input) (s : State) :
  existsb is_startup inputs = false ->
  option_map publish_calls (mqttClient (run inputs s)) =
  option_map (fun c => publish_calls c ++ flat_map accepted_command inputs) (mqttClient s).
Proof.
  revert s. induction inputs as [|i inputs IH]; intros s.
  - intros _. simpl. destruct (mqttClient s); simpl; [now rewrite app_nil_r | reflexivity].
  - simpl. rewrite orb_false_iff. intros [Hi Hrest].
    rewrite (IH _ Hrest).
    pose proof (step_publish_calls s i Hi) as Hs.
    destruct (mqttClient (step s i)) as [c'|], (mqttClient s) as [c|];
      simpl in *; try discriminate; [|reflexivity].
    injection Hs as Hs. now rewrite Hs, app_assoc.
Qed.

(** *** Topics *)

Lemma split_free (c : ascii) (text : string) :
  free_of c text = true -> split c text = [text].
Proof.
  induction text as [|x text IH]; simpl; [reflexivity|].
  destruct (Ascii.eqb x c); simpl; [discriminate|].
  intros H. now rewrite IH.
Qed.

Lemma split_append (c : ascii) (a b : string) :
  free_of c a = true -> split c (a ++ String c b) = a :: split c b.
Proof.
  induction a as [|x a IH]; simpl.
  - intros _. now rewrite Ascii.eqb_refl.
  - destruct (Ascii.eqb x c); simpl; [discriminate|].
    intros H. now rewrite IH.
Qed.

(** X13: topic parsing finds the device and the kind in a topic
    [iot/<deviceId>/<kind>] when neither contains a slash; in particular the
    command topic of a device parses to that device and the kind
    [command], which the message handler does not dispatch. *)
Theorem topic_names_device_and_kind (deviceId kind : string) :
  free_of "/" deviceId = true ->
  free_of "/" kind = true ->
  topic_device ("iot/" ++ deviceId ++ "/" ++ kind) = Some deviceId /\
  topic_kind ("iot/" ++ deviceId ++ "/" ++ kind) = Some kind.
Proof.
  intros Hd Hk. unfold topic_device, topic_kind.
  change ("iot/" ++ deviceId ++ "/" ++ kind)%string
    with ("iot" ++ String "/" (deviceId ++ String "/" kind))%string.
  rewrite split_append by reflexivity.
  rewrite split_append by exact Hd.
  rewrite split_free by exact Hk. split; reflexivity.
Qed.

End SERVICE.

Lemma updateDevice_record_witness :
  readable (JObj [("signal", JNum 80)]) = true /\
  option_map signalStrength
    (get (Some "dev1")
       (iotDevices (snd (updateDevice (RT := Demo.runtime) (Some "dev1")
                           (JObj [("signal", JNum 80)]) initial)))) = Some (JNum 80).
Proof.
  split; [reflexivity|].
  rewrite (@updateDevice_record Demo.runtime (Some "dev1") (JObj [("signal", JNum 80)]) initial
             eq_refl).
  reflexivity.
Defined.

Lemma null_payload_registers_device_witness :
  @JSON_parse Demo.runtime "null" = Some JNull /\
  sensorData (snd (on_message (RT := Demo.runtime) "iot/dev1/telemetry" "null" initial)) = [].
Proof.
  split; [reflexivity|].
  exact (proj1 (proj2 (proj2 (@null_payload_registers_device Demo.runtime
                                "iot/dev1/telemetry" "null" initial eq_refl)))).
Defined.

Lemma samples_only_for_registered_witness :
  has (Some "dev1") (sensorData (run (RT := Demo.runtime) Demo.quiet_inputs initial)) = true /\
  has (Some "dev1") (iotDevices (run (RT := Demo.runtime) Demo.quiet_inputs initial)) = true.
Proof.
  assert (H : has (Some "dev1")
                (sensorData (run (RT := Demo.runtime) Demo.quiet_inputs initial)) = true)
    by (vm_compute; reflexivity).
  split; [exact H|].
  exact (@samples_only_for_registered Demo.runtime Demo.quiet_inputs (Some "dev1") H).
Defined.

Lemma record_reaches_every_open_stream_witness :
  @JSON_parse Demo.runtime "7" = Some (JNum 7) /\
  readable (JNum 7) = true /\
  topic_kind "iot/dev1/nfc" = Some "nfc" /\
  exists sample,
    wire (step (RT := Demo.runtime)
            (run (RT := Demo.runtime) [OpenStream; OpenStream] initial)
            (Message "iot/dev1/nfc" "7")) =
    wire (run (RT := Demo.runtime) [OpenStream; OpenStream] initial) ++
    match published "nfc" (topic_device "iot/dev1/nfc") (JNum 7) sample with
    | Some (name, data) =>
        map (fun o => (o, name, data))
          (open_streams (run (RT := Demo.runtime) [OpenStream; OpenStream] initial))
    | None => []
    end.
Proof.
  split; [reflexivity|]. split; [reflexivity|]. split; [reflexivity|].
  destruct (@record_reaches_every_open_stream Demo.runtime [OpenStream; OpenStream]
              "iot/dev1/nfc" "7" "nfc" (JNum 7) eq_refl eq_refl eq_refl)
    as (sample & _ & Hw & _).
  exists sample. exact Hw.
Defined.

Lemma history_returns_most_recent_witness :
  0 < 3 /\
  map value (getSensorHistory (Some "dev1") (Some (Int (Z.of_nat 3)))
               (run (RT := Demo.runtime) Demo.quiet_inputs initial))
    = lastn (Nat.min 3 200) (telemetry_for (RT := Demo.runtime) (Some "dev1") Demo.quiet_inputs).
Proof.
  assert (H : 0 < 3) by lia.
  split; [exact H|].
  exact (proj1 (@history_returns_most_recent Demo.runtime (Some "dev1") Demo.quiet_inputs 3 H)).
Defined.

Lemma history_limit_edges_witness :
  "dev1" <> "" /\
  getSensorHistory (Some "dev1") (Some (Int 0))
    (run (RT := Demo.runtime) Demo.quiet_inputs initial)
  = stored_samples (Some "dev1") (run (RT := Demo.runtime) Demo.quiet_inputs initial).
Proof.
  assert (H : "dev1" <> "") by discriminate.
  split; [exact H|].
  exact (proj1 (@history_limit_edges Demo.runtime "dev1"
                  (run (RT := Demo.runtime) Demo.quiet_inputs initial) H)).
Defined.

Lemma status_record_is_stored_witness :
  topic_kind "iot/dev2/status" = Some "status" /\
  @JSON_parse Demo.runtime Demo.offline = Some (JObj [("status", JStr "offline")]) /\
  readable (JObj [("status", JStr "offline")]) = true /\
  exists d,
    getDeviceStatus (topic_device "iot/dev2/status")
      (snd (on_message (RT := Demo.runtime) "iot/dev2/status" Demo.offline initial)) = Some d /\
    status d = JStr "offline".
Proof.
  split; [reflexivity|]. split; [reflexivity|]. split; [reflexivity|].
  destruct (@status_record_is_stored Demo.runtime "iot/dev2/status" Demo.offline
              (JObj [("status", JStr "offline")]) initial eq_refl eq_refl eq_refl)
    as (d & Hd & Hs & _).
  exists d. split; [exact Hd | exact Hs].
Defined.

Lemma commands_handed_over_in_order_witness :
  existsb is_startup
    [BrokerClose; Command "dev1" (JStr "reboot") (JObj []); Command "" (JStr "x") (JObj []);
     Command "dev2" (JStr "update") (JObj [("version", JStr "2")])] = false /\
  option_map publish_calls
    (mqttClient
       (run (RT := Demo.runtime)
          [BrokerClose; Command "dev1" (JStr "reboot") (JObj []);
           Command "" (JStr "x") (JObj []);
           Command "dev2" (JStr "update") (JObj [("version", JStr "2")])]
          (run (RT := Demo.runtime) [Startup; BrokerConnect] initial)))
  = Some [("iot/dev1/command", (JStr "reboot", JObj []));
          ("iot/dev2/command", (JStr "update", JObj [("version", JStr "2")]))].
Proof.
  split; [reflexivity|].
  rewrite (@commands_handed_over_in_order Demo.runtime
             [BrokerClose; Command "dev1" (JStr "reboot") (JObj []);
              Command "" (JStr "x") (JObj []);
              Command "dev2" (JStr "update") (JObj [("version", JStr "2")])]
             (run (RT := Demo.runtime) [Startup; BrokerConnect] initial) eq_refl).
  reflexivity.
Defined.

Lemma topic_names_device_and_kind_witness :
  free_of "/" "dev1" = true /\ free_of "/" "command" = true /\
  topic_device "iot/dev1/command" = Some "dev1".
Proof.
  split; [reflexivity|]. split; [reflexivity|].
  exact (proj1 (@topic_names_device_and_kind "dev1" "command" eq_refl eq_refl)).
Defined.

(** *** A worked run *)

(** Two devices report, the second one as offline: the health report
    counts two devices, one online and one offline. *)
Example health_after_quiet_inputs :
  device_ids (RT := Demo.runtime) Demo.quiet_inputs = [Some "dev1"; Some "dev2"] /\
  reported_status (RT := Demo.runtime) (Some "dev1") Demo.quiet_inputs = JStr "online" /\
  reported_status (RT := Demo.runtime) (Some "dev2") Demo.quiet_inputs = JStr "offline" /\
  fst (getNetworkHealth (RT := Demo.runtime) (run (RT := Demo.runtime) Demo.quiet_inputs initial))
    = Return (mkHealth 2 1 1 50%float JNull "T6").
Proof. vm_compute. repeat split. Qed.

End IoTExtra.

(* ===================================================================== *)
(** * Further properties of the ledger gateway *)
(* ===================================================================== *)

Module LedgerExtra.
Import Js Ledger LedgerApi LedgerFacts.

#[local] Arguments wallet_put : simpl never.

Ltac run_api :=
  unfold get_status, post_invoke, post_query; unfold getNetworkStatus; run_gateway.

Lemma remove_session_fresh g l :
  ~ In g l -> remove_session g (l ++ [g]) = l.
Proof.
  induction l as [|x l IH]; simpl; intros N.
  - now rewrite Nat.eqb_refl.
  - destruct (Nat.eqb_spec g x) as [->|_]; [tauto|]. rewrite IH; tauto.
Qed.

Section API.
Variable world : World.
Variable endorsers : list Peer.
Variable timestamp : string.
Variable JSON_parse : string -> option JsVal.

(** *** One invocation *)

(** X14: when the gateway connects, an invocation with an argument array goes
    through connect, channel lookup, the invocation and disconnect, in this
    order and on one gateway; what the caller gets is the network's reply:
    the payload, or an exception carrying the rejection detail.  The wallet
    is not written. *)
Theorem invocation_mirrors_reply (functionName : string) (l : list string) (s : State) :
  connects world s ->
  let g := next_gateway s in
  let completion r :=
    match r with
    | Payload result => Return result
    | BusinessRejection detail => Throw (Rejected detail)
    | TransportFailure detail => Throw (Rejected detail)
    end in
  fst (submitTransaction world functionName (Some l) s)
    = completion (submit_reply world functionName l) /\
  calls (snd (submitTransaction world functionName (Some l) s))
    = calls s ++ [GatewayConnect g; GatewayGetNetwork g; Submit g functionName l;
                  GatewayDisconnect g] /\
  fst (evaluateTransaction world functionName (Some l) s)
    = completion (evaluate_reply world functionName l) /\
  calls (snd (evaluateTransaction world functionName (Some l) s))
    = calls s ++ [GatewayConnect g; GatewayGetNetwork g; Evaluate g functionName l;
                  GatewayDisconnect g] /\
  wallet (snd (submitTransaction world functionName (Some l) s)) = wallet s /\
  wallet (snd (evaluateTransaction world functionName (Some l) s)) = wallet s.
Proof.
  intros (Hp & Hw & Hi & Hc & Hn). run_gateway.
  destruct (connection_profile world); [|congruence]. rewrite Hw. cbn.
  destruct (wallet_get org1UserId (wallet s)); [|congruence]. rewrite Hc. cbn.
  rewrite Hn. cbn.
  destruct (submit_reply world functionName l), (evaluate_reply world functionName l); cbn;
    rewrite <- ?app_assoc; repeat split.
Qed.

(** X15: without the application identity in the wallet an invocation fails at
    [gateway.connect]: the caller gets the identity error, no session is
    opened and nothing is sent to the network. *)
Theorem invocation_without_identity (functionName : string) (args : option (list string))
    (s : State) :
  connection_profile world <> None ->
  wallet_opens world = true ->
  wallet_get org1UserId (wallet s) = None ->
  fst (submitTransaction world functionName args s)
    = Throw (Rejected "Identity not found in wallet: appUser") /\
  sessions (snd (submitTransaction world functionName args s)) = sessions s /\
  calls (snd (submitTransaction world functionName args s))
    = calls s ++ [GatewayConnect (next_gateway s)] /\
  fst (evaluateTransaction world functionName args s)
    = Throw (Rejected "Identity not found in wallet: appUser") /\
  sessions (snd (evaluateTransaction world functionName args s)) = sessions s /\
  calls (snd (evaluateTransaction world functionName args s))
    = calls s ++ [GatewayConnect (next_gateway s)].
Proof.
  intros Hp Hw Hi. run_gateway.
  destruct (connection_profile world); [|congruence]. rewrite Hw. cbn.
  rewrite Hi. cbn. repeat split.
Qed.

(** *** What a query never does *)

Lemma filter_submit_app l l' :
  filter is_submit (l ++ l') = filter is_submit l ++ filter is_submit l'.
Proof. apply filter_app. Qed.

(** X16: in no world does [evaluateTransaction] or [getNetworkStatus] send a
    submit to the network, and none of the three gateway operations writes
    the wallet. *)
Theorem queries_never_submit (functionName : string) (args : option (list string)) (s : State) :
  filter is_submit (calls (snd (evaluateTransaction world functionName args s)))
    = filter is_submit (calls s) /\
  filter is_submit (calls (snd (getNetworkStatus world endorsers timestamp s)))
    = filter is_submit (calls s) /\
  wallet (snd (submitTransaction world functionName args s)) = wallet s /\
  wallet (snd (evaluateTransaction world functionName args s)) = wallet s /\
  wallet (snd (getNetworkStatus world endorsers timestamp s)) = wallet s.
Proof.
  run_api.
  destruct (connection_profile world); cbn; [|now rewrite ?app_nil_r].
  destruct (wallet_opens world); cbn; [|now rewrite ?app_nil_r].
  destruct (wallet_get org1UserId (wallet s)) eqn:Hi; cbn;
    [|rewrite ?filter_submit_app; cbn; now rewrite ?app_nil_r].
  destruct (connect_ok world); cbn;
    [|rewrite ?filter_submit_app; cbn; now rewrite ?app_nil_r].
  destruct (network_ok world); cbn; rewrite ?Hi; cbn;
    [|rewrite ?filter_submit_app; cbn; now rewrite ?app_nil_r].
  destruct args as [l|]; cbn.
  - destruct (submit_reply world functionName l), (evaluate_reply world functionName l); cbn;
      rewrite ?filter_submit_app; cbn; now rewrite ?app_nil_r.
  - rewrite ?filter_submit_app; cbn; now rewrite ?app_nil_r.
Qed.

(** *** Sequences of requests *)

Lemma serve_connected r s :
  connects world s ->
  sessions (serve world endorsers timestamp s r)
    = remove_session (next_gateway s) (sessions s ++ [next_gateway s]) /\
  next_gateway (serve world endorsers timestamp s r) = S (next_gateway s) /\
  wallet (serve world endorsers timestamp s r) = wallet s.
Proof.
  intros (Hp & Hw & Hi & Hc & Hn). unfold serve. destruct r; run_api;
    (destruct (connection_profile world); [|congruence]); rewrite Hw; cbn;
    (destruct (wallet_get org1UserId (wallet s)) eqn:E; [|congruence]); rewrite Hc; cbn;
    rewrite Hn; cbn; rewrite ?E; cbn.
  - destruct args as [l|]; cbn; [|now repeat split].
    destruct (submit_reply world functionName l); now repeat split.
  - destruct args as [l|]; cbn; [|now repeat split].
    destruct (evaluate_reply world functionName l); now repeat split.
  - now repeat split.
Qed.

(** X17: when the gateway connects, any sequence of submit, evaluate and status
    requests served one after the other leaves open exactly the sessions
    that were open before it: every request closed its own. *)
Theorem requests_leave_no_session (requests : list Request) (s : State) :
  connects world s ->
  sessions_numbered s ->
  sessions (serve_all world endorsers timestamp requests s) = sessions s.
Proof.
  clear JSON_parse. revert s. induction requests as [|r requests IH]; intros s Hc Hn; [reflexivity|].
  simpl. destruct (serve_connected r Hc) as (Hs & Hg & Hw).
  assert (Hfresh : ~ In (next_gateway s) (sessions s)).
  { intros H. apply Hn in H. lia. }
  rewrite remove_session_fresh in Hs by exact Hfresh.
  rewrite IH.
  - exact Hs.
  - destruct Hc as (Hp & Ho & Hi & Hc & Hk).
    split; [exact Hp|]. split; [exact Ho|]. split; [now rewrite Hw|]. split; assumption.
  - intros g Hin. rewrite Hs in Hin. rewrite Hg. apply Hn in Hin. lia.
Qed.

Lemma serve_channel_unreachable r s :
  connection_profile world <> None ->
  wallet_opens world = true ->
  wallet_get org1UserId (wallet s) <> None ->
  connect_ok world = true ->
  network_ok world = false ->
  sessions (serve world endorsers timestamp s r) = sessions s ++ [next_gateway s] /\
  next_gateway (serve world endorsers timestamp s r) = S (next_gateway s) /\
  wallet (serve world endorsers timestamp s r) = wallet s.
Proof.
  intros Hp Hw Hi Hc Hn. unfold serve. destruct r; run_api;
    (destruct (connection_profile world); [|congruence]); rewrite Hw; cbn;
    (destruct (wallet_get org1UserId (wallet s)) eqn:E; [|congruence]); rewrite Hc; cbn;
    rewrite Hn; cbn; now repeat split.
Qed.

(** X18: when the gateway connects and the channel cannot be resolved, every
    request served leaves one more session open: after [n] requests the [n]
    gateways created for them are all still connected. *)
Theorem unreachable_channel_accumulates_sessions (requests : list Request) (s : State) :
  connection_profile world <> None ->
  wallet_opens world = true ->
  wallet_get org1UserId (wallet s) <> None ->
  connect_ok world = true ->
  network_ok world = false ->
  sessions (serve_all world endorsers timestamp requests s)
    = sessions s ++ seq (next_gateway s) (length requests).
Proof.
  intros Hp Hw Hi Hc Hn. revert s Hi.
  induction requests as [|r requests IH]; intros s Hi; simpl; [now rewrite app_nil_r|].
  destruct (@serve_channel_unreachable r s Hp Hw Hi Hc Hn) as (Hs & Hg & Hwal).
  rewrite IH by now rewrite Hwal.
  now rewrite Hs, Hg, <- app_assoc.
Qed.

(** *** Startup *)

Lemma wallet_get_put_same name i w : wallet_get name (wallet_put name i w) = Some i.
Proof. unfold wallet_put. simpl. now rewrite String.eqb_refl. Qed.

Lemma wallet_get_put_distinct name other i w :
  String.eqb name other = false ->
  wallet_get name (wallet_put other i w) = wallet_get name w.
Proof.
  intros N. unfold wallet_put. simpl. rewrite N.
  induction w as [|[n j] w IH]; simpl; [reflexivity|].
  destruct (String.eqb other n) eqn:E; simpl.
  - apply String.eqb_eq in E. subst n. now rewrite N.
  - now rewrite IH.
Qed.

Ltac run_startup :=
  unfold initializeBlockchain, read_profile, new_FabricCAServices, newFileSystemWallet,
    enroll, register, put, call, console_log, process_exit,
    try_catch, bind, gets, modify, ret, throw.

Lemma startup_outcome (s : State) :
  (provisioned world s -> fst (initializeBlockchain world s) = Return tt) /\
  (~ provisioned world s -> fst (initializeBlockchain world s) = Exit 1).
Proof.
  unfold provisioned. run_startup. cbn.
  destruct (connection_profile world) as [[[url|]]|] eqn:Ep; cbn;
    try (split; [intros ((u & Hu) & _); discriminate Hu | reflexivity]).
  destruct (wallet_opens world) eqn:Ew; cbn;
    try (split; [intros (_ & Hw & _); discriminate Hw | reflexivity]).
  destruct (wallet_get "admin" (wallet s)) as [a|] eqn:Ea; cbn.
  - destruct (wallet_get org1UserId (wallet s)) as [u|] eqn:Eu; cbn.
    + split; [reflexivity|]. intros N. exfalso. apply N.
      repeat split; eauto; try discriminate. left. discriminate.
    + split; [|reflexivity]. intros (_ & _ & Hu & _). congruence.
  - destruct (ca_enroll world "admin" "adminpw") as [e|] eqn:Ee; cbn.
    + rewrite (@wallet_get_put_distinct org1UserId "admin" _ _ eq_refl).
      destruct (wallet_get org1UserId (wallet s)) as [u|] eqn:Eu; cbn.
      * split; [reflexivity|]. intros N. exfalso. apply N.
        repeat split; eauto; try discriminate. right. discriminate.
      * split; [|reflexivity]. intros (_ & _ & Hu & _). congruence.
    + split; [|reflexivity]. intros (_ & _ & _ & [H|H]); congruence.
Qed.

(** X19: startup never throws to its caller; it returns normally exactly when
    the profile names the certificate authority, the wallet opens, the
    application identity is already stored, and the administrative identity
    is stored or can be enrolled.  In every other case it ends the process
    with code 1. *)
Theorem startup_returns_iff_provisioned (s : State) :
  (provisioned world s -> fst (initializeBlockchain world s) = Return tt) /\
  (~ provisioned world s -> fst (initializeBlockchain world s) = Exit 1).
Proof.
  unfold provisioned. run_startup. cbn.
  destruct (connection_profile world) as [[[url|]]|] eqn:Ep; cbn;
    try (split; [intros ((u & Hu) & _); discriminate Hu | reflexivity]).
  destruct (wallet_opens world) eqn:Ew; cbn;
    try (split; [intros (_ & Hw & _); discriminate Hw | reflexivity]).
  destruct (wallet_get "admin" (wallet s)) as [a|] eqn:Ea; cbn.
  - destruct (wallet_get org1UserId (wallet s)) as [u|] eqn:Eu; cbn.
    + split; [reflexivity|]. intros N. exfalso. apply N.
      repeat split; eauto; try discriminate. left. discriminate.
    + split; [|reflexivity]. intros (_ & _ & Hu & _). congruence.
  - destruct (ca_enroll world "admin" "adminpw") as [e|] eqn:Ee; cbn.
    + rewrite (@wallet_get_put_distinct org1UserId "admin" _ _ eq_refl).
      destruct (wallet_get org1UserId (wallet s)) as [u|] eqn:Eu; cbn.
      * split; [reflexivity|]. intros N. exfalso. apply N.
        repeat split; eauto; try discriminate. right. discriminate.
      * split; [|reflexivity]. intros (_ & _ & Hu & _). congruence.
    + split; [|reflexivity]. intros (_ & _ & _ & [H|H]); congruence.
Qed.

(** X20: in no world does startup call [ca.register], and it never changes what
    the wallet holds for the application identity; the administrative
    identity afterwards is the stored one, or the X.509 identity made from a
    fresh enrollment when none was stored and the wallet could be opened. *)
Theorem startup_never_registers (s : State) :
  let s' := snd (initializeBlockchain world s) in
  wallet_get org1UserId (wallet s') = wallet_get org1UserId (wallet s) /\
  (exists added, calls s' = calls s ++ added /\
                 forall enrollmentID, ~ In (CaRegister enrollmentID) added) /\
  (fst (initializeBlockchain world s) = Return tt ->
   wallet_get "admin" (wallet s') =
     match wallet_get "admin" (wallet s) with
     | Some a => Some a
     | None => option_map x509Identity (ca_enroll world "admin" "adminpw")
     end).
Proof.
  run_startup. cbn.
  assert (Hno : forall added : list Call,
            (forall c, In c added -> exists n, c = CaEnroll n \/ c = WalletPut n) ->
            forall enrollmentID, ~ In (CaRegister enrollmentID) added).
  { intros added H n Hin. destruct (H _ Hin) as (m & [E|E]); discriminate E. }
  destruct (connection_profile world) as [[[url|]]|]; cbn;
    try (split; [reflexivity|]; split; [|discriminate];
         exists []; split; [now rewrite app_nil_r | intros ? []]).
  destruct (wallet_opens world); cbn;
    try (split; [reflexivity|]; split; [|discriminate];
         exists []; split; [now rewrite app_nil_r | intros ? []]).
  destruct (wallet_get "admin" (wallet s)) as [a|] eqn:Ea; cbn.
  - destruct (wallet_get org1UserId (wallet s)) as [u|] eqn:Eu; cbn; rewrite ?Ea, ?Eu;
      (split; [reflexivity|]; split; [|try discriminate; reflexivity];
       exists []; split; [now rewrite app_nil_r | intros ? []]).
  - destruct (ca_enroll world "admin" "adminpw") as [e|] eqn:Ee; cbn.
    + rewrite (@wallet_get_put_distinct org1UserId "admin" _ _ eq_refl).
      destruct (wallet_get org1UserId (wallet s)) as [u|] eqn:Eu; cbn;
        rewrite ?(@wallet_get_put_distinct org1UserId "admin" _ _ eq_refl), ?Eu,
          ?wallet_get_put_same;
        (split; [reflexivity|]; split; [|try discriminate; reflexivity];
         exists [CaEnroll "admin"; WalletPut "admin"];
         split; [now rewrite <- ?app_assoc
                | apply Hno; simpl; intros c [<-|[<-|[]]]; eauto]).
    + rewrite Ea. split; [reflexivity|]. split; [|discriminate].
      exists [CaEnroll "admin"]. split; [reflexivity|].
      apply Hno. simpl. intros c [<-|[]]. eauto.
Qed.

(** *** Network status *)

(** X21: [getNetworkStatus] never throws.  When [connectToGateway] throws,
    whatever the exception, the result is [{ success: false, message }]
    with that exception's message, and the route answers 500 with the same
    message; that is the case exactly when the gateway does not connect.
    When the gateway connects, the result names the identity's MSP, the
    channel and the endorsers, the route answers 200 with it, and the
    session is closed. *)
Theorem network_status_never_throws (s : State) :
  (exists status,
     fst (getNetworkStatus world endorsers timestamp s) = Return status /\
     fst (get_status world endorsers timestamp s) =
       Return match status with
              | StatusFailed message =>
                  mkResponse 500 (Failure "Failed to get network status" message)
              | ok => mkResponse 200 (StatusBody ok)
              end) /\
  (forall e,
     fst (connectToGateway world s) = Throw e ->
     fst (getNetworkStatus world endorsers timestamp s) =
       Return (StatusFailed (message_of e)) /\
     fst (get_status world endorsers timestamp s) =
       Return (mkResponse 500 (Failure "Failed to get network status" (message_of e)))) /\
  (~ connects world s -> exists e, fst (connectToGateway world s) = Throw e) /\
  (forall identity,
     connection_profile world <> None -> wallet_opens world = true ->
     wallet_get org1UserId (wallet s) = Some identity ->
     connect_ok world = true -> network_ok world = true ->
     fst (getNetworkStatus world endorsers timestamp s) =
       Return (StatusOk (identity_mspId identity) channelName endorsers timestamp) /\
     fst (get_status world endorsers timestamp s) =
       Return (mkResponse 200
                 (StatusBody (StatusOk (identity_mspId identity) channelName endorsers
                                timestamp))) /\
     sessions (snd (getNetworkStatus world endorsers timestamp s)) =
       remove_session (next_gateway s) (sessions s ++ [next_gateway s])).
Proof.
  split; [|split; [|split]].
  - run_api.
    destruct (connection_profile world); cbn; [|eexists; split; reflexivity].
    destruct (wallet_opens world); cbn; [|eexists; split; reflexivity].
    destruct (wallet_get org1UserId (wallet s)) eqn:Hi; cbn; [|eexists; split; reflexivity].
    destruct (connect_ok world); cbn; [|eexists; split; reflexivity].
    destruct (network_ok world); cbn; rewrite ?Hi; cbn; eexists; split; reflexivity.
  - intros e. run_api.
    destruct (connection_profile world); cbn;
      [|intros [= <-]; split; reflexivity].
    destruct (wallet_opens world); cbn; [|intros [= <-]; split; reflexivity].
    destruct (wallet_get org1UserId (wallet s)) eqn:Hi; cbn;
      [|intros [= <-]; split; reflexivity].
    destruct (connect_ok world); cbn; [|intros [= <-]; split; reflexivity].
    destruct (network_ok world); cbn; [discriminate|intros [= <-]; split; reflexivity].
  - intros Hn. unfold connects in Hn. run_gateway.
    destruct (connection_profile world); cbn; [|eexists; reflexivity].
    destruct (wallet_opens world); cbn; [|eexists; reflexivity].
    destruct (wallet_get org1UserId (wallet s)) eqn:Hi; cbn; [|eexists; reflexivity].
    destruct (connect_ok world); cbn; [|eexists; reflexivity].
    destruct (network_ok world); cbn; [|eexists; reflexivity].
    exfalso. apply Hn. repeat split; congruence.
  - intros identity Hp Hw Hi Hc Hn. run_api.
    destruct (connection_profile world); [|congruence]. rewrite Hw. cbn.
    rewrite Hi, Hc. cbn. rewrite Hn. cbn. rewrite Hi. cbn. repeat split.
Qed.

(** *** The invoke and query routes *)

Lemma submit_never_exits functionName args s :
  forall n, fst (submitTransaction world functionName args s) <> Exit n.
Proof.
  intros n. run_gateway.
  destruct (connection_profile world); cbn; [|discriminate].
  destruct (wallet_opens world); cbn; [|discriminate].
  destruct (wallet_get org1UserId (wallet s)); cbn; [|discriminate].
  destruct (connect_ok world); cbn; [|discriminate].
  destruct (network_ok world); cbn; [|discriminate].
  destruct args as [l|]; cbn; [|discriminate].
  destruct (submit_reply world functionName l); discriminate.
Qed.

Lemma evaluate_never_exits functionName args s :
  forall n, fst (evaluateTransaction world functionName args s) <> Exit n.
Proof.
  intros n. run_gateway.
  destruct (connection_profile world); cbn; [|discriminate].
  destruct (wallet_opens world); cbn; [|discriminate].
  destruct (wallet_get org1UserId (wallet s)); cbn; [|discriminate].
  destruct (connect_ok world); cbn; [|discriminate].
  destruct (network_ok world); cbn; [|discriminate].
  destruct args as [l|]; cbn; [|discriminate].
  destruct (evaluate_reply world functionName l); discriminate.
Qed.

Lemma routes_answer_by_outcome
    (functionName : JsVal) (args : option (list string)) (s : State) :
  match functionName, args with
  | JStr name, Some _ =>
      fst (post_invoke world functionName args s) =
        Return match fst (submitTransaction world name args s) with
               | Return result => mkResponse 200 (InvokeOk name result)
               | Throw e => mkResponse 500 (Failure "Failed to invoke chaincode function"
                                              (to_string e))
               | Exit _ => mkResponse 500 (Failure "" "")
               end /\
      fst (post_query world JSON_parse functionName args s) =
        Return match fst (evaluateTransaction world name args s) with
               | Return result =>
                   mkResponse 200 (QueryOk name match JSON_parse result with
                                                | Some v => v
                                                | None => JStr result
                                                end)
               | Throw e => mkResponse 500 (Failure "Failed to query chaincode function"
                                              (to_string e))
               | Exit _ => mkResponse 500 (Failure "" "")
               end
  | _, _ =>
      post_invoke world functionName args s = (Return (mkResponse 400 ValidationFailed), s) /\
      post_query world JSON_parse functionName args s
        = (Return (mkResponse 400 ValidationFailed), s)
  end.
Proof.
  destruct functionName as [| | | |name| |]; try (destruct args; split; reflexivity).
  destruct args as [l|]; [|split; reflexivity].
  pose proof (@submit_never_exits name (Some l) s) as Hs.
  pose proof (@evaluate_never_exits name (Some l) s) as He.
  split.
  - unfold post_invoke, try_catch, bind at 1, console_log, modify. cbn [fst snd].
    set (s1 := with_console _ s).
    assert (E : fst (submitTransaction world name (Some l) s1) =
                fst (submitTransaction world name (Some l) s)).
    { subst s1. run_gateway.
      destruct (connection_profile world); cbn; [|reflexivity].
      destruct (wallet_opens world); cbn; [|reflexivity].
      destruct (wallet_get org1UserId (wallet s)); cbn; [|reflexivity].
      destruct (connect_ok world); cbn; [|reflexivity].
      destruct (network_ok world); cbn; [|reflexivity].
      destruct (submit_reply world name l); reflexivity. }
    unfold bind, ret. rewrite <- E in *.
    destruct (submitTransaction world name (Some l) s1) as [[r|e|n] s2]; cbn in *;
      try reflexivity. now elim (Hs n).
  - unfold post_query, try_catch, bind at 1, console_log, modify. cbn [fst snd].
    set (s1 := with_console _ s).
    assert (E : fst (evaluateTransaction world name (Some l) s1) =
                fst (evaluateTransaction world name (Some l) s)).
    { subst s1. run_gateway.
      destruct (connection_profile world); cbn; [|reflexivity].
      destruct (wallet_opens world); cbn; [|reflexivity].
      destruct (wallet_get org1UserId (wallet s)); cbn; [|reflexivity].
      destruct (connect_ok world); cbn; [|reflexivity].
      destruct (network_ok world); cbn; [|reflexivity].
      destruct (evaluate_reply world name l); reflexivity. }
    unfold bind, ret. rewrite <- E in *.
    destruct (evaluateTransaction world name (Some l) s1) as [[r|e|n] s2]; cbn in *;
      try reflexivity. now elim (He n).
Qed.

(** X22: the invoke and query routes always answer: 400 when the function name
    is not a string or the arguments are not an array, with nothing sent to
    the gateway; 200 with the result when the service returned; 500 with the
    text of the exception when it threw.  The query route answers with the
    parsed result when the result is JSON and with its text when it is
    not. *)
Theorem ledger_routes_always_answer
    (functionName : JsVal) (args : option (list string)) (s : State) :
  (exists response, fst (post_invoke world functionName args s) = Return response) /\
  (exists response, fst (post_query world JSON_parse functionName args s) = Return response) /\
  (forall name l, functionName = JStr name -> args = Some l ->
     (forall result,
        fst (submitTransaction world name args s) = Return result ->
        fst (post_invoke world functionName args s)
          = Return (mkResponse 200 (InvokeOk name result))) /\
     (forall e,
        fst (submitTransaction world name args s) = Throw e ->
        fst (post_invoke world functionName args s)
          = Return (mkResponse 500 (Failure "Failed to invoke chaincode function"
                                      (to_string e)))) /\
     (forall result,
        fst (evaluateTransaction world name args s) = Return result ->
        fst (post_query world JSON_parse functionName args s)
          = Return (mkResponse 200 (QueryOk name match JSON_parse result with
                                                 | Some v => v
                                                 | None => JStr result
                                                 end))) /\
     (forall e,
        fst (evaluateTransaction world name args s) = Throw e ->
        fst (post_query world JSON_parse functionName args s)
          = Return (mkResponse 500 (Failure "Failed to query chaincode function"
                                      (to_string e))))) /\
  ((forall name, functionName <> JStr name) \/ args = None ->
   post_invoke world functionName args s = (Return (mkResponse 400 ValidationFailed), s) /\
   post_query world JSON_parse functionName args s
     = (Return (mkResponse 400 ValidationFailed), s)).
Proof.
  pose proof (routes_answer_by_outcome functionName args s) as H.
  destruct functionName as [| | | |name| |];
    try solve [destruct args; destruct H as [H1 H2]; rewrite H1, H2;
               (split; [eexists; reflexivity|]); (split; [eexists; reflexivity|]);
               (split; [intros ? ? E; discriminate E | intros _; split; reflexivity])].
  destruct args as [l|].
  - destruct H as [H1 H2]. rewrite H1, H2.
    split; [eexists; reflexivity|]. split; [eexists; reflexivity|]. split.
    + intros name' l' [= <-] [= <-]. repeat split; intros x Hx; now rewrite Hx.
    + intros [N|N]; [now elim (N name) | discriminate N].
  - destruct H as [H1 H2]. rewrite H1, H2.
    split; [eexists; reflexivity|]. split; [eexists; reflexivity|].
    split; [intros ? ? _ E; discriminate E | intros _; split; reflexivity].
Qed.

End API.

Lemma invocation_mirrors_reply_witness :
  Ledger.connects Demo.healthy (Ledger.initial Demo.both_enrolled) /\
  fst (submitTransaction Demo.healthy "createPackage" (Some ["A1"])
         (Ledger.initial Demo.both_enrolled)) = Return "ok".
Proof.
  assert (H : Ledger.connects Demo.healthy (Ledger.initial Demo.both_enrolled)).
  { repeat split; discriminate. }
  split; [exact H|].
  exact (proj1 (@invocation_mirrors_reply Demo.healthy "createPackage" ["A1"]
                  (Ledger.initial Demo.both_enrolled) H)).
Defined.

Lemma invocation_without_identity_witness :
  connection_profile Demo.healthy <> None /\
  wallet_opens Demo.healthy = true /\
  wallet_get org1UserId (wallet (Ledger.initial Demo.admin_only)) = None /\
  fst (submitTransaction Demo.healthy "createPackage" (Some ["A1"])
         (Ledger.initial Demo.admin_only))
    = Throw (Rejected "Identity not found in wallet: appUser") /\
  sessions (snd (submitTransaction Demo.healthy "createPackage" (Some ["A1"])
                   (Ledger.initial Demo.admin_only))) = [].
Proof.
  assert (Hp : connection_profile Demo.healthy <> None) by discriminate.
  split; [exact Hp|]. split; [reflexivity|]. split; [reflexivity|].
  pose proof (@invocation_without_identity Demo.healthy "createPackage" (Some ["A1"])
                (Ledger.initial Demo.admin_only) Hp eq_refl eq_refl) as H.
  split; [exact (proj1 H) | exact (proj1 (proj2 H))].
Defined.

(** The status is asked for while the wallet holds the administrative
    identity only. *)
Lemma network_status_never_throws_witness :
  fst (connectToGateway Demo.healthy (Ledger.initial Demo.admin_only))
    = Throw (Rejected "Identity not found in wallet: appUser") /\
  fst (getNetworkStatus Demo.healthy [] "T0" (Ledger.initial Demo.admin_only))
    = Return (StatusFailed "Identity not found in wallet: appUser") /\
  fst (get_status Demo.healthy [] "T0" (Ledger.initial Demo.admin_only))
    = Return (mkResponse 500
                (Failure "Failed to get network status" "Identity not found in wallet: appUser")).
Proof.
  assert (H : fst (connectToGateway Demo.healthy (Ledger.initial Demo.admin_only))
              = Throw (Rejected "Identity not found in wallet: appUser")) by reflexivity.
  split; [exact H|].
  exact (proj1 (proj2 (@network_status_never_throws Demo.healthy [] "T0"
                         (Ledger.initial Demo.admin_only))) _ H).
Defined.

Lemma requests_leave_no_session_witness :
  Ledger.connects Demo.healthy (Ledger.initial Demo.both_enrolled) /\
  sessions_numbered (Ledger.initial Demo.both_enrolled) /\
  sessions (serve_all Demo.healthy [] "T0"
              [SubmitRequest "createPackage" (Some ["A1"]);
               EvaluateRequest "queryPackage" None; StatusRequest]
              (Ledger.initial Demo.both_enrolled)) = [].
Proof.
  assert (H : Ledger.connects Demo.healthy (Ledger.initial Demo.both_enrolled)).
  { repeat split; discriminate. }
  assert (N : sessions_numbered (Ledger.initial Demo.both_enrolled)).
  { intros g []. }
  split; [exact H|]. split; [exact N|].
  exact (@requests_leave_no_session Demo.healthy [] "T0"
           [SubmitRequest "createPackage" (Some ["A1"]);
            EvaluateRequest "queryPackage" None; StatusRequest]
           (Ledger.initial Demo.both_enrolled) H N).
Defined.

Lemma unreachable_channel_accumulates_sessions_witness :
  connection_profile Demo.channel_unreachable <> None /\
  wallet_get org1UserId (wallet (Ledger.initial Demo.both_enrolled)) <> None /\
  sessions (serve_all Demo.channel_unreachable [] "T0"
              [SubmitRequest "createPackage" (Some ["A1"]);
               EvaluateRequest "queryPackage" (Some ["A1"]); StatusRequest]
              (Ledger.initial Demo.both_enrolled)) = [0; 1; 2].
Proof.
  assert (Hp : connection_profile Demo.channel_unreachable <> None) by discriminate.
  assert (Hi : wallet_get org1UserId (wallet (Ledger.initial Demo.both_enrolled)) <> None)
    by discriminate.
  split; [exact Hp|]. split; [exact Hi|].
  exact (@unreachable_channel_accumulates_sessions Demo.channel_unreachable [] "T0"
           [SubmitRequest "createPackage" (Some ["A1"]);
            EvaluateRequest "queryPackage" (Some ["A1"]); StatusRequest]
           (Ledger.initial Demo.both_enrolled) Hp eq_refl Hi eq_refl eq_refl).
Defined.

End LedgerExtra.

(* ===================================================================== *)
(** * Properties of server startup *)
(* ===================================================================== *)

Module ServerExtra.
Import Js Server.

#[local] Arguments Ledger.initializeBlockchain : simpl never.

(** X23: the server starts to listen, with the IoT service initialised, exactly
    when the database connects and the ledger startup gets through; in every
    other case the process ends with code 1 without listening and without
    having touched the IoT service. *)
Theorem server_listens_only_when_provisioned
    (world : Ledger.World) (mongo_ok : bool) (s : State) :
  let s' := snd (startServer world mongo_ok s) in
  (mongo_ok = true /\ LedgerApi.provisioned world (ledger s) ->
   fst (startServer world mongo_ok s) = Return tt /\
   listening s' = true /\
   IoT.mqttClient (iot s') = Some (IoT.mkClient false [])) /\
  (mongo_ok = false \/ ~ LedgerApi.provisioned world (ledger s) ->
   fst (startServer world mongo_ok s) = Exit 1 /\
   listening s' = listening s /\
   iot s' = iot s).
Proof.
  destruct (LedgerExtra.startup_outcome world (ledger s)) as [Hyes Hno].
  unfold startServer, mongoose_connect, server_listen, console_log, in_ledger, in_iot,
    try_catch, bind, modify, ret, throw, process_exit.
  destruct mongo_ok; cbn.
  - destruct (Ledger.initializeBlockchain world (ledger s)) as [o l] eqn:E. cbn in *.
    split.
    + intros [_ Hp]. rewrite (Hyes Hp). cbn. repeat split.
    + intros [H|Hn]; [discriminate H|]. rewrite (Hno Hn). cbn. repeat split.
  - split; [intros [H _]; discriminate H | intros _; repeat split].
Qed.

Lemma server_listens_only_when_provisioned_witness :
  (true = true /\ LedgerApi.provisioned Demo.healthy (ledger (initial Demo.both_enrolled))) /\
  listening (snd (startServer Demo.healthy true (initial Demo.both_enrolled))) = true.
Proof.
  assert (H : true = true /\
              LedgerApi.provisioned Demo.healthy (ledger (initial Demo.both_enrolled))).
  { split; [reflexivity|]. split; [eexists; reflexivity|].
    split; [reflexivity|]. split; [discriminate|]. left. discriminate. }
  split; [exact H|].
  exact (proj1 (proj2 (proj1 (server_listens_only_when_provisioned Demo.healthy true
                                (initial Demo.both_enrolled)) H))).
Defined.

End ServerExtra.
